(** * chatmock: provider registry, router, protocol translation and the
      completion orchestrator

    A shallow embedding of the Go packages [chat], [rules], [remote], [api]
    and [app] of the chatmock service, followed by the properties the
    specification states about them.

    Conventions of the embedding.
    - A Go [string] is a sequence of bytes: it is a [string] of Rocq, whose
      characters are the bytes, and [len] is [String.length].
    - A Go [int] is taken to be 64 bits wide (amd64/arm64): it is a [Z] and
      every addition is wrapped by [GoInt.wrap].
    - A slice is a [list]; the registry keeps registration order.
    - A [[]byte] holding JSON is represented by the document it parses to
      ([Some doc]) or by [None] when the bytes are not well-formed JSON; the
      two decoding modes of [encoding/json] (into a struct, into
      [map[string]any]) are functions on that document.
    - The registry mutex only serialises calls and is not represented. *)

From Stdlib Require Import ZArith List String Ascii Bool Lia.
Import ListNotations.
Open Scope string_scope.
Open Scope bool_scope.
Set Warnings "-register-all".

(* ================================================================== *)
(** ** Go machine integers *)

Module GoInt.
Open Scope Z_scope.

Definition min_int : Z := - 2 ^ 63.
Definition max_int : Z := 2 ^ 63 - 1.

Definition in_range (z : Z) : bool := (min_int <=? z) && (z <=? max_int).

(** Two's complement wrap-around of a mathematical integer into [int]. *)
Definition wrap (z : Z) : Z := (z + 2 ^ 63) mod 2 ^ 64 - 2 ^ 63.

(** [a + b] on [int]. *)
Definition add (a b : Z) : Z := wrap (a + b).

(** [a / b] on [int], for [b] a positive constant: truncated division. *)
Definition div (a b : Z) : Z := Z.quot a b.
End GoInt.

(* ================================================================== *)
(** ** Package [strings] of the Go standard library *)

Module strings.

Definition byte_of (a : ascii) : N := N_of_ascii a.

Definition len (s : string) : Z := Z.of_nat (String.length s).

Fixpoint rev_onto (s acc : string) : string :=
  match s with
  | EmptyString => acc
  | String a r => rev_onto r (String a acc)
  end.

Definition reverse (s : string) : string := rev_onto s EmptyString.

Fixpoint drop (n : nat) (s : string) : string :=
  match n, s with
  | O, _ => s
  | S n', String _ r => drop n' r
  | S _, EmptyString => EmptyString
  end.

(** [strings.HasPrefix(s, prefix)] *)
Fixpoint HasPrefix (s prefix : string) {struct prefix} : bool :=
  match prefix, s with
  | EmptyString, _ => true
  | String b p', String a s' => Ascii.eqb a b && HasPrefix s' p'
  | String _ _, EmptyString => false
  end.

(** [strings.TrimPrefix(s, prefix)] *)
Definition TrimPrefix (s prefix : string) : string :=
  if HasPrefix s prefix then drop (String.length prefix) s else s.

(** [strings.HasSuffix(s, suffix)] *)
Definition HasSuffix (s suffix : string) : bool :=
  HasPrefix (reverse s) (reverse suffix).

(** [strings.TrimSuffix(s, suffix)] *)
Definition TrimSuffix (s suffix : string) : string :=
  if HasSuffix s suffix
  then reverse (drop (String.length suffix) (reverse s))
  else s.

(** [strings.Contains(s, substr)] *)
Fixpoint Contains (s substr : string) : bool :=
  HasPrefix s substr ||
  match s with
  | EmptyString => false
  | String _ r => Contains r substr
  end.

(** [strings.Join(elems, sep)] *)
Fixpoint Join (elems : list string) (sep : string) : string :=
  match elems with
  | [] => EmptyString
  | [x] => x
  | x :: rest => x ++ sep ++ Join rest sep
  end.

(** The bytes '\t', '\n', '\v', '\f', '\r' and ' '. *)
Definition asciiSpace (c : N) : bool :=
  ((9 <=? c) && (c <=? 13) || (c =? 32))%N.

(** UTF-8 encodings of the two-byte runes of [unicode.IsSpace]:
    U+0085 and U+00A0. *)
Definition space2 (c d : N) : bool :=
  ((c =? 194) && ((d =? 133) || (d =? 160)))%N.

(** UTF-8 encodings of the three-byte runes of [unicode.IsSpace]:
    U+1680, U+2000..U+200A, U+2028, U+2029, U+202F, U+205F, U+3000. *)
Definition space3 (c d e : N) : bool :=
  ((c =? 225) && (d =? 154) && (e =? 128)
   || (c =? 226) && (d =? 128)
      && ((128 <=? e) && (e <=? 138) || (e =? 168) || (e =? 169) || (e =? 175))
   || (c =? 226) && (d =? 129) && (e =? 159)
   || (c =? 227) && (d =? 128) && (e =? 128))%N.

(** [strings.TrimLeftFunc(s, unicode.IsSpace)]: runes are decoded from the
    front; a byte that starts no valid white-space rune stops the scan. *)
Fixpoint trimLeftSpace (s : string) : string :=
  match s with
  | EmptyString => s
  | String a r =>
      if asciiSpace (byte_of a) then trimLeftSpace r
      else match r with
           | EmptyString => s
           | String b r' =>
               if space2 (byte_of a) (byte_of b) then trimLeftSpace r'
               else match r' with
                    | EmptyString => s
                    | String c r'' =>
                        if space3 (byte_of a) (byte_of b) (byte_of c)
                        then trimLeftSpace r''
                        else s
                    end
           end
  end.

(** The same scan from the back, on the reversed string: the last byte
    comes first, so the encodings are read backwards. *)
Fixpoint trimLeftSpaceRev (s : string) : string :=
  match s with
  | EmptyString => s
  | String a r =>
      if asciiSpace (byte_of a) then trimLeftSpaceRev r
      else match r with
           | EmptyString => s
           | String b r' =>
               if space2 (byte_of b) (byte_of a) then trimLeftSpaceRev r'
               else match r' with
                    | EmptyString => s
                    | String c r'' =>
                        if space3 (byte_of c) (byte_of b) (byte_of a)
                        then trimLeftSpaceRev r''
                        else s
                    end
           end
  end.

(** [strings.TrimSpace(s)]: leading white space is removed first, trailing
    white space is then removed from what is left. *)
Definition TrimSpace (s : string) : string :=
  reverse (trimLeftSpaceRev (reverse (trimLeftSpace s))).

(** [strings.TrimRight(s, "/")] *)
Fixpoint dropSlashes (s : string) : string :=
  match s with
  | String a r => if Ascii.eqb a "/"%char then dropSlashes r else s
  | EmptyString => s
  end.

Definition TrimRightSlash (s : string) : string :=
  reverse (dropSlashes (reverse s)).

Definition isASCII (s : string) : bool :=
  forallb (fun a => (byte_of a <? 128)%N) (list_ascii_of_string s).

Definition lowerByte (a : ascii) : ascii :=
  let c := byte_of a in
  if ((65 <=? c) && (c <=? 90))%N then ascii_of_N (c + 32) else a.

Fixpoint mapBytes (f : ascii -> ascii) (s : string) : string :=
  match s with
  | EmptyString => EmptyString
  | String a r => String (f a) (mapBytes f r)
  end.

(** The case tables of package [unicode] are not part of the program: the
    slow path of [strings.ToLower], [strings.Map(unicode.ToLower, s)], which
    is taken only when [s] has a byte above 0x7F, is a parameter. *)
Class UnicodeTables := MapToLower : string -> string.

(** [strings.ToLower(s)] *)
Definition ToLower `{U : UnicodeTables} (s : string) : string :=
  if isASCII s then mapBytes lowerByte s else MapToLower s.

End strings.

(* ================================================================== *)
(** ** Package [encoding/json] of the Go standard library *)

Module json.

(** A number literal: an integer literal carries its value, any literal
    with a fraction or an exponent carries its text. *)
Inductive number : Type :=
| Int (z : Z)
| Float (literal : string).

(** A parsed JSON document.  Object members keep the order and the
    duplicates of the text. *)
Inductive value : Type :=
| JNull
| JBool (b : bool)
| JNumber (n : number)
| JString (s : string)
| JArray (items : list value)
| JObject (members : list (string * value)).

(** A response body: [None] when the bytes are not well-formed JSON. *)
Definition body : Type := option value.

(** *** Decoding into [any]

    An object becomes a [map[string]any]: of several members with one key
    the last one stays.  [get m k] is the lookup [m[k]]. *)
Fixpoint get (m : list (string * value)) (k : string) : option value :=
  match m with
  | [] => None
  | (k', v) :: rest =>
      match get rest k with
      | Some v' => Some v'
      | None => if String.eqb k' k then Some v else None
      end
  end.

(** [json.Unmarshal(body, &raw)] for [var raw map[string]any]: an object
    fills the map, [null] leaves it nil (an empty map for every lookup),
    anything else is an error. *)
Definition UnmarshalMap (b : body) : option (list (string * value)) :=
  match b with
  | Some (JObject m) => Some m
  | Some JNull => Some []
  | _ => None
  end.

(** [x.(map[string]any)] with the comma-less form [obj, _ := ...]: the nil
    map when [x] is no object. *)
Definition asMap (x : option value) : list (string * value) :=
  match x with Some (JObject m) => m | _ => [] end.

(** [x.([]any)] with [content, _ := ...]: the nil slice when [x] is no
    array. *)
Definition asSlice (x : option value) : list value :=
  match x with Some (JArray l) => l | _ => [] end.

(** *** Decoding into a struct

    Member keys are matched with field names exactly or, failing that, up
    to case folding.  [foldName] folds a key as the decoder does: ASCII
    letters to upper case, U+017F (C5 BF) to S and U+212A (E2 84 AA) to K,
    the only runes outside ASCII whose fold is an ASCII letter.  The bytes
    of every other rune are kept, so that a key holding one never equals
    the fold of an ASCII field name. *)
Definition upperByte (a : ascii) : ascii :=
  let c := strings.byte_of a in
  if ((97 <=? c) && (c <=? 122))%N then ascii_of_N (c - 32) else a.

Fixpoint foldName (s : string) : string :=
  match s with
  | EmptyString => EmptyString
  | String a r =>
      let keep := String (upperByte a) (foldName r) in
      match r with
      | EmptyString => keep
      | String b r' =>
          if ((strings.byte_of a =? 197) && (strings.byte_of b =? 191))%N
          then String "S"%char (foldName r')
          else match r' with
               | EmptyString => keep
               | String c r'' =>
                   if ((strings.byte_of a =? 226) && (strings.byte_of b =? 132)
                       && (strings.byte_of c =? 170))%N
                   then String "K"%char (foldName r'')
                   else keep
               end
      end
  end.

(** A decoder stores a document into a Go value that already exists and
    reports whether it did so without a type error.  After a type error
    decoding goes on; the error is returned at the end. *)
Definition decoder (T : Type) : Type := value -> T -> T * bool.

(** The field a key selects: the exact name first, else the first field
    equal up to folding. *)
Definition findField {T} (fields : list (string * decoder T)) (key : string)
  : option (decoder T) :=
  match find (fun f => String.eqb (fst f) key) fields with
  | Some f => Some (snd f)
  | None =>
      match find (fun f => String.eqb (foldName (fst f)) (foldName key)) fields with
      | Some f => Some (snd f)
      | None => None
      end
  end.

Fixpoint decMembers {T} (fields : list (string * decoder T))
         (m : list (string * value)) (cur : T) (ok : bool) : T * bool :=
  match m with
  | [] => (cur, ok)
  | (k, v) :: rest =>
      match findField fields k with
      | Some d => let '(cur', ok') := d v cur in
                  decMembers fields rest cur' (ok && ok')
      | None => decMembers fields rest cur ok
      end
  end.

(** A struct: members are stored in the order of the text, unknown keys
    are skipped, [null] has no effect. *)
Definition decStruct {T} (fields : list (string * decoder T)) : decoder T :=
  fun v cur =>
    match v with
    | JObject m => decMembers fields m cur true
    | JNull => (cur, true)
    | _ => (cur, false)
    end.

Definition decString : decoder string :=
  fun v cur =>
    match v with
    | JString s => (s, true)
    | JNull => (cur, true)
    | _ => (cur, false)
    end.

(** An [int] or [int64]: an integer literal that fits 64 bits. *)
Definition decInt : decoder Z :=
  fun v cur =>
    match v with
    | JNumber (Int z) => if GoInt.in_range z then (z, true) else (cur, false)
    | JNull => (cur, true)
    | _ => (cur, false)
    end.

(** A slice that is nil before: one element per item, each decoded into
    the zero value. *)
Definition decSlice {E} (zero : E) (d : decoder E) : decoder (list E) :=
  fun v cur =>
    match v with
    | JArray items =>
        (map (fun it => fst (d it zero)) items,
         forallb (fun it => snd (d it zero)) items)
    | JNull => ([], true)
    | _ => (cur, false)
    end.

(** A field of a struct, by its getter and setter. *)
Definition field {T A} (get : T -> A) (set : A -> T -> T) (d : decoder A)
  : decoder T :=
  fun v t => let '(a, ok) := d v (get t) in (set a t, ok).

(** [json.Unmarshal(body, &x)] for a struct [x] holding [zero]. *)
Definition Unmarshal {T} (d : decoder T) (b : body) (zero : T) : T * bool :=
  match b with
  | Some v => d v zero
  | None => (zero, false)
  end.

(** *** Encoding

    [json.Marshal] writes a Go string as a literal that reads back as the
    same string when it is valid UTF-8; every byte that starts no valid
    rune is written as U+FFFD (EF BF BD). *)
Definition cont (c : N) : bool := ((128 <=? c) && (c <=? 191))%N.

(** Byte length of the valid rune at the head of [c :: d :: e :: f], [0]
    when there is none. *)
Definition runeLen (c : N) (d e f : option N) : nat :=
  let between lo hi x :=
    match x with Some y => ((lo <=? y) && (y <=? hi))%N | None => false end in
  if (c <? 128)%N then 1
  else if ((194 <=? c) && (c <=? 223))%N then
    if between 128%N 191%N d then 2 else 0
  else if ((224 <=? c) && (c <=? 239))%N then
    let lo := if (c =? 224)%N then 160%N else 128%N in
    let hi := if (c =? 237)%N then 159%N else 191%N in
    if between lo hi d && between 128%N 191%N e then 3 else 0
  else if ((240 <=? c) && (c <=? 244))%N then
    let lo := if (c =? 240)%N then 144%N else 128%N in
    let hi := if (c =? 244)%N then 143%N else 191%N in
    if between lo hi d && between 128%N 191%N e && between 128%N 191%N f
    then 4 else 0
  else 0.

Definition head (s : string) : option N :=
  match s with String a _ => Some (strings.byte_of a) | EmptyString => None end.

Definition replacement : string :=
  String (ascii_of_N 239) (String (ascii_of_N 191) (String (ascii_of_N 189) "")).

(** Bytes inside a valid rune are copied one at a time: [skip] counts the
    bytes of the current rune still to copy. *)
Fixpoint coerce (skip : nat) (s : string) : string :=
  match s with
  | EmptyString => EmptyString
  | String a r =>
      match skip with
      | S k => String a (coerce k r)
      | O =>
          match runeLen (strings.byte_of a) (head r) (head (strings.drop 1 r))
                        (head (strings.drop 2 r)) with
          | O => replacement ++ coerce 0 r
          | S k => String a (coerce k r)
          end
      end
  end.

Definition toValidUTF8 (s : string) : string := coerce 0 s.

Definition validUTF8 (s : string) : bool := String.eqb (toValidUTF8 s) s.

Definition encString (s : string) : value := JString (toValidUTF8 s).

Definition encInt (z : Z) : value := JNumber (Int z).

End json.

(* ================================================================== *)
(** ** Package [chat]: the canonical request and response *)

Module chat.

Record Message : Type := mkMessage {
  Role : string;
  Content : string
}.

(** A [float64] that came out of a JSON number: all the program does with
    it is compare it with zero and write it back, so a value other than
    zero is kept as the number [json.Marshal] writes for it. *)
Inductive float64 : Type :=
| FZero
| FNonZero (n : json.number).

Record CompletionRequest : Type := mkCompletionRequest {
  Model : string;
  Messages : list Message;
  Temperature : float64
}.

(** Field [Message] of [Choice] is [ChoiceMessage]. *)
Record Choice : Type := mkChoice {
  Index : Z;
  FinishReason : string;
  ChoiceMessage : Message
}.

Record Usage : Type := mkUsage {
  PromptTokens : Z;
  CompletionTokens : Z;
  TotalTokens : Z
}.

(** Fields [Model] and [Usage] of [CompletionResponse] are [RespModel] and
    [RespUsage]. *)
Record CompletionResponse : Type := mkCompletionResponse {
  ID : string;
  Object : string;
  Created : Z;
  RespModel : string;
  Choices : list Choice;
  RespUsage : Usage
}.

(** The zero values [chat.Message{}], [chat.Usage{}], ... *)
Definition zeroMessage : Message := mkMessage "" "".
Definition zeroChoice : Choice := mkChoice 0 "" zeroMessage.
Definition zeroUsage : Usage := mkUsage 0 0 0.
Definition zeroCompletionResponse : CompletionResponse :=
  mkCompletionResponse "" "" 0 "" [] zeroUsage.

(** *** The JSON form given by the struct tags *)

Definition encMessage (m : Message) : json.value :=
  json.JObject [("role", json.encString (Role m));
                ("content", json.encString (Content m))].

Definition encMessages (ms : list Message) : json.value :=
  json.JArray (map encMessage ms).

Definition encChoice (c : Choice) : json.value :=
  json.JObject [("index", json.encInt (Index c));
                ("finish_reason", json.encString (FinishReason c));
                ("message", encMessage (ChoiceMessage c))].

Definition encUsage (u : Usage) : json.value :=
  json.JObject [("prompt_tokens", json.encInt (PromptTokens u));
                ("completion_tokens", json.encInt (CompletionTokens u));
                ("total_tokens", json.encInt (TotalTokens u))].

Definition encCompletionResponse (r : CompletionResponse) : json.value :=
  json.JObject [("id", json.encString (ID r));
                ("object", json.encString (Object r));
                ("created", json.encInt (Created r));
                ("model", json.encString (RespModel r));
                ("choices", json.JArray (map encChoice (Choices r)));
                ("usage", encUsage (RespUsage r))].

Definition decMessage : json.decoder Message :=
  json.decStruct
    [("role", json.field Role (fun x m => mkMessage x (Content m)) json.decString);
     ("content", json.field Content (fun x m => mkMessage (Role m) x) json.decString)].

Definition decChoice : json.decoder Choice :=
  json.decStruct
    [("index",
      json.field Index (fun x c => mkChoice x (FinishReason c) (ChoiceMessage c))
                 json.decInt);
     ("finish_reason",
      json.field FinishReason (fun x c => mkChoice (Index c) x (ChoiceMessage c))
                 json.decString);
     ("message",
      json.field ChoiceMessage (fun x c => mkChoice (Index c) (FinishReason c) x)
                 decMessage)].

Definition decUsage : json.decoder Usage :=
  json.decStruct
    [("prompt_tokens",
      json.field PromptTokens
                 (fun x u => mkUsage x (CompletionTokens u) (TotalTokens u))
                 json.decInt);
     ("completion_tokens",
      json.field CompletionTokens
                 (fun x u => mkUsage (PromptTokens u) x (TotalTokens u))
                 json.decInt);
     ("total_tokens",
      json.field TotalTokens
                 (fun x u => mkUsage (PromptTokens u) (CompletionTokens u) x)
                 json.decInt)].

Definition decCompletionResponse : json.decoder CompletionResponse :=
  json.decStruct
    [("id",
      json.field ID
        (fun x r => mkCompletionResponse x (Object r) (Created r) (RespModel r)
                                         (Choices r) (RespUsage r))
        json.decString);
     ("object",
      json.field Object
        (fun x r => mkCompletionResponse (ID r) x (Created r) (RespModel r)
                                         (Choices r) (RespUsage r))
        json.decString);
     ("created",
      json.field Created
        (fun x r => mkCompletionResponse (ID r) (Object r) x (RespModel r)
                                         (Choices r) (RespUsage r))
        json.decInt);
     ("model",
      json.field RespModel
        (fun x r => mkCompletionResponse (ID r) (Object r) (Created r) x
                                         (Choices r) (RespUsage r))
        json.decString);
     ("choices",
      json.field Choices
        (fun x r => mkCompletionResponse (ID r) (Object r) (Created r)
                                         (RespModel r) x (RespUsage r))
        (json.decSlice zeroChoice decChoice));
     ("usage",
      json.field RespUsage
        (fun x r => mkCompletionResponse (ID r) (Object r) (Created r)
                                         (RespModel r) (Choices r) x)
        decUsage)].

End chat.

(* ================================================================== *)
(** ** Package [rules]: the store of mock replies *)

Module rules.
Section Store.
Context `{U : strings.UnicodeTables}.

Record Rule : Type := mkRule {
  Contains : string;
  Reply : string
}.

(** The state of a [Store]: its rules, in order. *)
Definition Store : Type := list Rule.

Definition NewStore (seed : list Rule) : Store := seed.

Fixpoint matchLowered (lowered : string) (rs : list Rule) : string * bool :=
  match rs with
  | [] => ("", false)
  | rule :: rest =>
      if strings.Contains lowered (strings.ToLower (Contains rule))
      then (Reply rule, true)
      else matchLowered lowered rest
  end.

Definition Match (s : Store) (content : string) : string * bool :=
  matchLowered (strings.ToLower content) s.

Definition Set_ (s : Store) (items : list Rule) : Store := items.

Definition All (s : Store) : list Rule := s.
End Store.
End rules.

(* ================================================================== *)
(** ** Package [remote]: provider registry, router and upstream client *)

Module remote.

Record Provider : Type := mkProvider {
  Name : string;
  Kind : string;
  BaseURL : string;
  APIKey : string;
  AccessToken : string;
  AccountID : string;
  ModelPrefix : string;
  RouteAll : bool
}.

(** Fields [Name], [Kind], [BaseURL], [ModelPrefix] and [RouteAll] of
    [ProviderView] carry the prefix [View]. *)
Record ProviderView : Type := mkProviderView {
  ViewName : string;
  ViewKind : string;
  ViewBaseURL : string;
  HasAPIKey : bool;
  HasAccessToken : bool;
  HasAccountID : bool;
  ViewModelPrefix : string;
  ViewRouteAll : bool
}.

(** [Provider{}] *)
Definition zeroProvider : Provider := mkProvider "" "" "" "" "" "" "" false.

Definition setName (x : string) (p : Provider) : Provider :=
  mkProvider x (Kind p) (BaseURL p) (APIKey p) (AccessToken p) (AccountID p)
             (ModelPrefix p) (RouteAll p).
Definition setKind (x : string) (p : Provider) : Provider :=
  mkProvider (Name p) x (BaseURL p) (APIKey p) (AccessToken p) (AccountID p)
             (ModelPrefix p) (RouteAll p).
Definition setBaseURL (x : string) (p : Provider) : Provider :=
  mkProvider (Name p) (Kind p) x (APIKey p) (AccessToken p) (AccountID p)
             (ModelPrefix p) (RouteAll p).
Definition setModelPrefix (x : string) (p : Provider) : Provider :=
  mkProvider (Name p) (Kind p) (BaseURL p) (APIKey p) (AccessToken p)
             (AccountID p) x (RouteAll p).

(** [strings.TrimSpace(s) == ""] *)
Definition blank (s : string) : bool := String.eqb (strings.TrimSpace s) "".

(** The state of a [Manager]: its [providers] slice. *)
Definition Manager : Type := list Provider.

Definition sameProvider (a b : Provider) : bool :=
  if negb (blank (Name a)) && negb (blank (Name b)) then
    String.eqb (Name a) (Name b)
  else if negb (blank (ModelPrefix a)) && negb (blank (ModelPrefix b)) then
    String.eqb (ModelPrefix a) (ModelPrefix b)
  else
    String.eqb (Kind a) (Kind b) && String.eqb (BaseURL a) (BaseURL b).

Definition ShouldProxy (provider : Provider) (requestedModel : string) : bool :=
  if blank (BaseURL provider) then false
  else if RouteAll provider then true
  else
    let prefix := strings.TrimSpace (ModelPrefix provider) in
    negb (String.eqb prefix "")
    && strings.HasPrefix (strings.TrimSpace requestedModel) prefix.

Definition NormalizeModel (provider : Provider) (requestedModel : string) : string :=
  let model := strings.TrimSpace requestedModel in
  let prefix := strings.TrimSpace (ModelPrefix provider) in
  if negb (String.eqb prefix "") && strings.HasPrefix model prefix
  then strings.TrimPrefix model prefix
  else model.

(** [Manager.Match]: the loop over [m.providers]. *)
Fixpoint Match (m : Manager) (requestedModel : string)
  : Provider * string * bool :=
  match m with
  | [] => (zeroProvider, "", false)
  | p :: rest =>
      if ShouldProxy p requestedModel
      then (p, NormalizeModel p requestedModel, true)
      else Match rest requestedModel
  end.

Definition view (p : Provider) : ProviderView :=
  mkProviderView (Name p) (Kind p) (BaseURL p)
                 (negb (blank (APIKey p)))
                 (negb (blank (AccessToken p)))
                 (negb (blank (AccountID p)))
                 (ModelPrefix p) (RouteAll p).

Definition Views (m : Manager) : list ProviderView := map view m.

Definition Providers (m : Manager) : list Provider := m.

(** [joinURL]: [None] is the error "remote base_url is empty". *)
Definition joinURL (baseURL suffix : string) : option string :=
  let base := strings.TrimRightSlash (strings.TrimSpace baseURL) in
  if String.eqb base "" then None else Some (base ++ suffix).

Section Registry.
Context `{U : strings.UnicodeTables}.

Definition normalizeProvider (p : Provider) : Provider :=
  let p := if blank (Kind p) then setKind "openai" p else p in
  let p := setKind (strings.ToLower (strings.TrimSpace (Kind p))) p in
  let p :=
    if blank (ModelPrefix p) then
      if String.eqb (Kind p) "ollama" then setModelPrefix "ollama/" p
      else if String.eqb (Kind p) "codex" then setModelPrefix "codex/" p
      else if String.eqb (Kind p) "chatgpt" then setModelPrefix "chatgpt/" p
      else setModelPrefix "remote/" p
    else p in
  let p :=
    if blank (Name p) then setName (strings.TrimSuffix (ModelPrefix p) "/") p
    else p in
  if blank (BaseURL p) && String.eqb (Kind p) "chatgpt"
  then setBaseURL "https://chatgpt.com" p
  else p.

(** The loop of [Manager.Upsert] on the normalized record [p]: the first
    entry that is the same provider is overwritten, else [p] is
    appended. *)
Fixpoint replaceOrAppend (ps : list Provider) (p : Provider) : list Provider :=
  match ps with
  | [] => [p]
  | q :: rest =>
      if sameProvider q p then p :: rest else q :: replaceOrAppend rest p
  end.

Definition Upsert (m : Manager) (provider : Provider) : Manager :=
  replaceOrAppend m (normalizeProvider provider).

Definition SetAll (m : Manager) (providers : list Provider) : Manager :=
  map normalizeProvider providers.

Definition NewManager (seed : list Provider) : Manager :=
  fold_left Upsert seed [].
End Registry.

(** *** The upstream client *)

(** What [postJSON] hands to the HTTP client: the URL, the two headers it
    may set, and the JSON payload. *)
Record Request : Type := mkRequest {
  URL : string;
  Authorization : option string;
  ChatGPTAccountID : option string;
  Payload : json.value
}.

Inductive error : Type :=
| ErrEmptyBaseURL                (* "remote base_url is empty" *)
| ErrTransport (msg : string)    (* building, sending or reading failed *)
| ErrDecodeOllama.               (* "decode ollama response: ..." *)

(** The triple [([]byte, int, error)]: with an error the other two are
    [nil] and [0]. *)
Inductive result : Type :=
| Ok (body : json.body) (status : Z)
| Err (e : error).

(** The struct [ollamaResp] of [chatOllama].  Its fields carry the prefix
    [O] where the name is taken; the anonymous struct of its field
    [Message] has the fields and tags of [chat.Message]. *)
Record ollamaResp : Type := mkOllamaResp {
  OModel : string;
  OMessage : chat.Message;
  PromptEvalCount : Z;
  EvalCount : Z
}.

Definition zeroOllamaResp : ollamaResp := mkOllamaResp "" chat.zeroMessage 0 0.

Definition ollamaRespFields : list (string * json.decoder ollamaResp) :=
    [("model",
      json.field OModel
        (fun x r => mkOllamaResp x (OMessage r) (PromptEvalCount r) (EvalCount r))
        json.decString);
     ("message",
      json.field OMessage
        (fun x r => mkOllamaResp (OModel r) x (PromptEvalCount r) (EvalCount r))
        chat.decMessage);
     ("prompt_eval_count",
      json.field PromptEvalCount
        (fun x r => mkOllamaResp (OModel r) (OMessage r) x (EvalCount r))
        json.decInt);
     ("eval_count",
      json.field EvalCount
        (fun x r => mkOllamaResp (OModel r) (OMessage r) (PromptEvalCount r) x)
        json.decInt)].

Definition decOllamaResp : json.decoder ollamaResp :=
  json.decStruct ollamaRespFields.

(** The canonical response [chatOllama] builds from a decoded reply:
    [TotalTokens] is assigned [PromptTokens + CompletionTokens]. *)
Definition ollamaCompletion (now : Z) (o : ollamaResp) : chat.CompletionResponse :=
  chat.mkCompletionResponse
    "chatcmpl-ollama" "chat.completion" now (OModel o)
    [chat.mkChoice 0 "stop"
       (chat.mkMessage (chat.Role (OMessage o)) (chat.Content (OMessage o)))]
    (chat.mkUsage (PromptEvalCount o) (EvalCount o)
                  (GoInt.add (PromptEvalCount o) (EvalCount o))).

(** The struct [simple] of [extractChatGPTOutputText]. *)
Definition decSimple : json.decoder string :=
  json.decStruct [("output_text", json.decString)].

(** The strings appended to [chunks] for one element of [output]. *)
Definition itemChunks (item : json.value) : list string :=
  let obj := json.asMap (Some item) in
  let content := json.asSlice (json.get obj "content") in
  flat_map (fun c =>
              let co := json.asMap (Some c) in
              match json.get co "text" with
              | Some (json.JString t) => [t]
              | _ => []
              end) content.

Definition newline : string := String (ascii_of_N 10) "".

Definition extractChatGPTOutputText (body : json.body) : string :=
  let '(OutputText, noerr) := json.Unmarshal decSimple body "" in
  if noerr && negb (blank OutputText) then OutputText
  else
    match json.UnmarshalMap body with
    | None => ""
    | Some raw =>
        match json.get raw "output_text" with
        | Some (json.JString v) => v
        | _ =>
            match json.get raw "output" with
            | Some (json.JArray out) =>
                strings.TrimSpace (strings.Join (flat_map itemChunks out) newline)
            | _ => ""
            end
        end
    end.

(** The canonical response [chatChatGPT] builds around the extracted
    text. *)
Definition chatgptCompletion (now : Z) (model text : string)
  : chat.CompletionResponse :=
  chat.mkCompletionResponse
    "chatcmpl-chatgpt" "chat.completion" now model
    [chat.mkChoice 0 "stop" (chat.mkMessage "assistant" text)]
    chat.zeroUsage.

Definition http_StatusOK : Z := 200.

Section Client.
(** [transport] is the HTTP client: all of [postJSON] from building the
    request to reading the reply.  [now] is [time.Now().Unix()]. *)
Variable transport : Request -> result.
Variable now : Z.

Definition postJSON (provider : Provider) (url : string) (payload : json.value)
  : result :=
  let token := strings.TrimSpace (AccessToken provider) in
  let apiKey := strings.TrimSpace (APIKey provider) in
  let auth :=
    if negb (String.eqb token "") then Some ("Bearer " ++ token)
    else if negb (String.eqb apiKey "") then Some ("Bearer " ++ apiKey)
    else None in
  let account :=
    if negb (blank (AccountID provider)) then Some (AccountID provider)
    else None in
  transport (mkRequest url auth account payload).

(** The keys of a marshalled [map[string]any] are sorted. *)
Definition chatOpenAICompatible (provider : Provider)
           (req : chat.CompletionRequest) (model : string) : result :=
  match joinURL (BaseURL provider) "/v1/chat/completions" with
  | None => Err ErrEmptyBaseURL
  | Some url =>
      let payload :=
        List.app
          [("messages", chat.encMessages (chat.Messages req));
           ("model", json.encString model)]
          match chat.Temperature req with
          | chat.FZero => []
          | chat.FNonZero n => [("temperature", json.JNumber n)]
          end in
      postJSON provider url (json.JObject payload)
  end.

Definition chatChatGPT (provider : Provider)
           (req : chat.CompletionRequest) (model : string) : result :=
  match joinURL (BaseURL provider) "/backend-api/codex/responses" with
  | None => Err ErrEmptyBaseURL
  | Some url =>
      let input :=
        map (fun m =>
               json.JObject
                 [("content",
                   json.JArray
                     [json.JObject [("text", json.encString (chat.Content m));
                                    ("type", json.encString "input_text")]]);
                  ("role", json.encString (chat.Role m))])
            (chat.Messages req) in
      let payload :=
        json.JObject [("input", json.JArray input);
                      ("model", json.encString model);
                      ("stream", json.JBool false)] in
      match postJSON provider url payload with
      | Err e => Err e
      | Ok body status =>
          if (status >=? 400)%Z then Ok body status
          else
            let text := extractChatGPTOutputText body in
            Ok (Some (chat.encCompletionResponse
                        (chatgptCompletion now model text)))
               http_StatusOK
      end
  end.

Definition chatOllama (provider : Provider)
           (req : chat.CompletionRequest) (model : string) : result :=
  match joinURL (BaseURL provider) "/api/chat" with
  | None => Err ErrEmptyBaseURL
  | Some url =>
      let payload :=
        json.JObject [("messages", chat.encMessages (chat.Messages req));
                      ("model", json.encString model);
                      ("stream", json.JBool false)] in
      match postJSON provider url payload with
      | Err e => Err e
      | Ok body status =>
          if (status >=? 400)%Z then Ok body status
          else
            let '(o, noerr) := json.Unmarshal decOllamaResp body zeroOllamaResp in
            if negb noerr then Err ErrDecodeOllama
            else Ok (Some (chat.encCompletionResponse (ollamaCompletion now o)))
                    http_StatusOK
      end
  end.

Definition ChatCompletions (provider : Provider)
           (req : chat.CompletionRequest) (model : string) : result :=
  if String.eqb (Kind provider) "ollama" then chatOllama provider req model
  else if String.eqb (Kind provider) "chatgpt" then chatChatGPT provider req model
  else chatOpenAICompatible provider req model.
End Client.

End remote.

(* ================================================================== *)
(** ** Package [api]: the completion orchestrator *)

Module api.

Definition http_StatusOK : Z := 200.
Definition http_StatusBadRequest : Z := 400.
Definition http_StatusBadGateway : Z := 502.

(** The errors [runCompletion] returns, by their messages. *)
Inductive error : Type :=
| ErrMessagesEmpty                      (* "messages must not be empty" *)
| ErrRemoteRequestFailed (cause : remote.error)
                                        (* "remote request failed: %w" *)
| ErrRemoteStatus (status : Z)          (* "remote returned status %d" *)
| ErrInvalidRemoteResponse.             (* "invalid remote response" *)

(** The collaborators a call consults, in the order of the calls:
    [h.remoteManager.Match], [h.remoteClient.ChatCompletions] and
    [h.rules.Match], each with its arguments. *)
Inductive Event : Type :=
| RegistryMatch (requestedModel : string)
| RemoteCall (provider : remote.Provider) (model : string)
| RuleMatch (content : string).

Definition fallbackReply : string :=
  "Mock response: I received your message and no custom rule matched.".

Definition chooseModel (model : string) : string :=
  if remote.blank model then "gpt-mock-1" else model.

(** [estimateTokens]: [total] is an [int]. *)
Definition estimateTokens (messages : list chat.Message) : Z :=
  let total :=
    fold_left (fun total m => GoInt.add total (strings.len (chat.Content m)))
              messages 0%Z in
  if (total =? 0)%Z then 0%Z
  else if (total <? 4)%Z then 1%Z
  else GoInt.div total 4.

(** The response of the mock path. *)
Definition mockCompletion (now : Z) (req : chat.CompletionRequest)
           (reply : string) : chat.CompletionResponse :=
  let prompt := estimateTokens (chat.Messages req) in
  let completion := estimateTokens [chat.mkMessage "assistant" reply] in
  chat.mkCompletionResponse
    "chatcmpl-mock" "chat.completion" now (chooseModel (chat.Model req))
    [chat.mkChoice 0 "stop" (chat.mkMessage "assistant" reply)]
    (chat.mkUsage prompt completion (GoInt.add prompt completion)).

Section Handlers.
Context `{U : strings.UnicodeTables}.

Record Handlers : Type := mkHandlers {
  rules_ : rules.Store;
  remoteManager : remote.Manager;
  remoteClient : remote.Request -> remote.result
}.

Definition NewHandlers (store : rules.Store) (manager : remote.Manager)
           (client : remote.Request -> remote.result) : Handlers :=
  mkHandlers store manager client.

(** The triple a call returns: with an error, the response is the zero
    value. *)
Definition outcome : Type := chat.CompletionResponse * Z * option error.

(** [Handlers.runCompletion], with the list of collaborators it
    consulted.  [now] is [time.Now().Unix()]. *)
Definition runCompletion (h : Handlers) (now : Z) (req : chat.CompletionRequest)
  : list Event * outcome :=
  match chat.Messages req with
  | [] =>
      ([], (chat.zeroCompletionResponse, http_StatusBadRequest,
            Some ErrMessagesEmpty))
  | _ :: _ =>
      match remote.Match (remoteManager h) (chat.Model req) with
      | (provider, model, true) =>
          let trace := [RegistryMatch (chat.Model req); RemoteCall provider model] in
          match remote.ChatCompletions (remoteClient h) now provider req model with
          | remote.Err e =>
              (trace, (chat.zeroCompletionResponse, http_StatusBadGateway,
                       Some (ErrRemoteRequestFailed e)))
          | remote.Ok respBody status =>
              if (status >=? 400)%Z then
                (trace, (chat.zeroCompletionResponse, status,
                         Some (ErrRemoteStatus status)))
              else
                let '(out, noerr) :=
                  json.Unmarshal chat.decCompletionResponse respBody
                                 chat.zeroCompletionResponse in
                if negb noerr then
                  (trace, (chat.zeroCompletionResponse, http_StatusBadGateway,
                           Some ErrInvalidRemoteResponse))
                else (trace, (out, http_StatusOK, None))
          end
      | (_, _, false) =>
          let last := chat.Content (List.last (chat.Messages req) chat.zeroMessage) in
          let '(reply, ok) := rules.Match (rules_ h) last in
          let reply := if negb ok then fallbackReply else reply in
          ([RegistryMatch (chat.Model req); RuleMatch last],
           (mockCompletion now req reply, http_StatusOK, None))
      end
  end.
End Handlers.

End api.

(* ================================================================== *)
(** ** Package [app]: the seed configuration *)

Module app.
Section Server.
Context `{U : strings.UnicodeTables}.

(** [os.Getenv] *)
Variable getenv : string -> string.

Definition env (key fallback : string) : string :=
  let v := getenv key in
  if negb (remote.blank v) then v else fallback.

Definition oneOf (v : string) (l : list string) : bool :=
  existsb (String.eqb v) l.

Definition envBool (key : string) (fallback : bool) : bool :=
  let v := strings.TrimSpace (strings.ToLower (getenv key)) in
  if oneOf v ["1"; "true"; "yes"; "on"] then true
  else if oneOf v ["0"; "false"; "no"; "off"] then false
  else fallback.

Definition initialProvidersFromEnv : list remote.Provider :=
  let ollama :=
    let baseURL := strings.TrimSpace (getenv "CHATMOCK_OLLAMA_BASE_URL") in
    if negb (String.eqb baseURL "") then
      [remote.mkProvider "ollama" "ollama" baseURL "" "" ""
         (env "CHATMOCK_OLLAMA_MODEL_PREFIX" "ollama/")
         (envBool "CHATMOCK_OLLAMA_ROUTE_ALL" false)]
    else [] in
  let codex :=
    let baseURL := strings.TrimSpace (getenv "CHATMOCK_CODEX_BASE_URL") in
    if negb (String.eqb baseURL "") then
      [remote.mkProvider "codex" "codex" baseURL
         (getenv "CHATMOCK_CODEX_API_KEY") "" ""
         (env "CHATMOCK_CODEX_MODEL_PREFIX" "codex/")
         (envBool "CHATMOCK_CODEX_ROUTE_ALL" false)]
    else [] in
  let chatgpt :=
    let baseURL := strings.TrimSpace (getenv "CHATMOCK_CHATGPT_BASE_URL") in
    if negb (String.eqb baseURL "")
       || negb (remote.blank (getenv "CHATMOCK_CHATGPT_ACCESS_TOKEN")) then
      let baseURL :=
        if remote.blank baseURL then "https://chatgpt.com" else baseURL in
      [remote.mkProvider "chatgpt" "chatgpt" baseURL ""
         (getenv "CHATMOCK_CHATGPT_ACCESS_TOKEN")
         (getenv "CHATMOCK_CHATGPT_ACCOUNT_ID")
         (env "CHATMOCK_CHATGPT_MODEL_PREFIX" "chatgpt/")
         (envBool "CHATMOCK_CHATGPT_ROUTE_ALL" false)]
    else [] in
  let legacy :=
    let baseURL := strings.TrimSpace (getenv "CHATMOCK_REMOTE_BASE_URL") in
    if negb (String.eqb baseURL "") then
      [remote.mkProvider "remote" "openai" baseURL
         (getenv "CHATMOCK_REMOTE_API_KEY") "" ""
         (env "CHATMOCK_REMOTE_MODEL_PREFIX" "remote/")
         (envBool "CHATMOCK_REMOTE_ROUTE_ALL" false)]
    else [] in
  (ollama ++ codex ++ chatgpt ++ legacy)%list.

Definition seedRules : list rules.Rule :=
  [rules.mkRule "hello" "Hi! This is a mocked assistant response.";
   rules.mkRule "weather" "The mock forecast: sunny with a chance of unit tests."].

(** [NewServer]: the handlers of the server it builds. *)
Definition NewServer (client : remote.Request -> remote.result) : api.Handlers :=
  let store := rules.NewStore seedRules in
  let manager := remote.NewManager initialProvidersFromEnv in
  api.NewHandlers store manager client.
End Server.
End app.

(** An unset environment: [os.Getenv] returns the empty string. *)
Definition emptyEnv : string -> string := fun _ => "".

(** Tables under which no rune above 0x7F has a lower-case form other than
    itself; used where a statement is run on concrete, ASCII, data. *)
Definition identityTables : strings.UnicodeTables := fun s => s.

(* ================================================================== *)
(** ** Package [api]: the HTTP handlers

    A handler reads the method and the body of a request and writes a
    status and at most one JSON document.  The body is read by
    [json.NewDecoder(r.Body).Decode], which takes the first JSON value of
    the stream: it is the [json.body] of that value.  An error document
    [{"error": err.Error()}] is kept as the error it renders. *)

Module handlers.

Record Request : Type := mkRequest {
  Method : string;
  Body : json.body
}.

Inductive errorText : Type :=
| InvalidJSONPayload                    (* "invalid JSON payload" *)
| ProviderRequired                      (* "provider or providers is required" *)
| ErrorOf (e : api.error).              (* err.Error() *)

Inductive content : Type :=
| NoContent
| JSON (v : json.value)
| ErrorJSON (e : errorText).

Record Response : Type := mkResponse {
  Status : Z;
  Content : content
}.

Definition http_StatusMethodNotAllowed : Z := 405.

Definition writeJSON (status : Z) (v : json.value) : Response :=
  mkResponse status (JSON v).

Definition writeError (status : Z) (e : errorText) : Response :=
  mkResponse status (ErrorJSON e).

(** [w.WriteHeader(http.StatusMethodNotAllowed)] *)
Definition methodNotAllowed : Response :=
  mkResponse http_StatusMethodNotAllowed NoContent.

(** A field of type [any]: every value is stored as it is; [null] is the
    nil interface. *)
Definition decAny : json.decoder json.value := fun v _ => (v, true).

Definition decBool : json.decoder bool :=
  fun v cur =>
    match v with
    | json.JBool b => (b, true)
    | json.JNull => (cur, true)
    | _ => (cur, false)
    end.

(** [f(m[k])] when the map has the key [k]: the lookup of [json.get], with
    [f] applied to the member it finds. *)
Section GetWith.
Variable A : Type.
Variable f : json.value -> A.

Fixpoint getWith (m : list (string * json.value)) (k : string) : option A :=
  match m with
  | [] => None
  | (k', v) :: rest =>
      match getWith rest k with
      | Some x => Some x
      | None => if String.eqb k' k then Some (f v) else None
      end
  end.
End GetWith.

(** [flattenInput] *)
Fixpoint flattenInput (input : json.value) : string :=
  match input with
  | json.JString v => v
  | json.JArray items =>
      strings.TrimSpace (strings.Join (map flattenInput items) " ")
  | json.JObject m =>
      match json.get m "text" with
      | Some (json.JString txt) => txt
      | _ =>
          match getWith string flattenInput m "content" with
          | Some s => s
          | None => ""
          end
      end
  | _ => ""
  end.

(** [chat.ResponsesRequest] and [chat.ResponsesResponse] *)
Record ResponsesRequest : Type := mkResponsesRequest {
  ReqModel : string;
  Input : json.value
}.

Definition zeroResponsesRequest : ResponsesRequest :=
  mkResponsesRequest "" json.JNull.

Definition decResponsesRequest : json.decoder ResponsesRequest :=
  json.decStruct
    [("model",
      json.field ReqModel (fun x r => mkResponsesRequest x (Input r)) json.decString);
     ("input",
      json.field Input (fun x r => mkResponsesRequest (ReqModel r) x) decAny)].

Record ResponsesResponse : Type := mkResponsesResponse {
  RespID : string;
  RespObject : string;
  CreatedAt : Z;
  RespModel : string;
  OutputText : string
}.

Definition encResponsesResponse (r : ResponsesResponse) : json.value :=
  json.JObject [("id", json.encString (RespID r));
                ("object", json.encString (RespObject r));
                ("created_at", json.encInt (CreatedAt r));
                ("model", json.encString (RespModel r));
                ("output_text", json.encString (OutputText r))].



(** [ccResp.Choices[0].Message.Content], the empty string without a
    choice. *)
Definition firstContent (resp : chat.CompletionResponse) : string :=
  match chat.Choices resp with
  | c :: _ => chat.Content (chat.ChoiceMessage c)
  | [] => ""
  end.

Section Handlers.
Context `{U : strings.UnicodeTables}.

(** [now] is the clock read by [runCompletion], [later] the one read for
    [CreatedAt] when it has returned. *)
Definition Responses (h : api.Handlers) (now later : Z) (r : Request) : Response :=
  if negb (String.eqb (Method r) "POST") then methodNotAllowed
  else
    let '(req, noerr) :=
      json.Unmarshal decResponsesRequest (Body r) zeroResponsesRequest in
    if negb noerr then writeError api.http_StatusBadRequest InvalidJSONPayload
    else
      let ccReq :=
        chat.mkCompletionRequest
          (ReqModel req) [chat.mkMessage "user" (flattenInput (Input req))]
          chat.FZero in
      let '(_, (ccResp, status, err)) := api.runCompletion h now ccReq in
      match err with
      | Some e => writeError status (ErrorOf e)
      | None =>
          writeJSON api.http_StatusOK
            (encResponsesResponse
               (mkResponsesResponse "resp-mock" "response" later
                                    (chat.RespModel ccResp) (firstContent ccResp)))
      end.


End Handlers.

(** *** Providers, rules and models *)

(** A pointer to a struct: [null] leaves it nil, anything else allocates
    it and decodes into it. *)
Definition decPtr {T} (zero : T) (d : json.decoder T) : json.decoder (option T) :=
  fun v cur =>
    match v with
    | json.JNull => (None, true)
    | _ =>
        let '(x, ok) := d v (match cur with Some c => c | None => zero end) in
        (Some x, ok)
    end.

Definition decProvider : json.decoder remote.Provider :=
  json.decStruct
    [("name", json.field remote.Name remote.setName json.decString);
     ("kind", json.field remote.Kind remote.setKind json.decString);
     ("base_url", json.field remote.BaseURL remote.setBaseURL json.decString);
     ("api_key",
      json.field remote.APIKey
        (fun x p => remote.mkProvider (remote.Name p) (remote.Kind p) (remote.BaseURL p)
                      x (remote.AccessToken p) (remote.AccountID p)
                      (remote.ModelPrefix p) (remote.RouteAll p))
        json.decString);
     ("access_token",
      json.field remote.AccessToken
        (fun x p => remote.mkProvider (remote.Name p) (remote.Kind p) (remote.BaseURL p)
                      (remote.APIKey p) x (remote.AccountID p)
                      (remote.ModelPrefix p) (remote.RouteAll p))
        json.decString);
     ("account_id",
      json.field remote.AccountID
        (fun x p => remote.mkProvider (remote.Name p) (remote.Kind p) (remote.BaseURL p)
                      (remote.APIKey p) (remote.AccessToken p) x
                      (remote.ModelPrefix p) (remote.RouteAll p))
        json.decString);
     ("model_prefix",
      json.field remote.ModelPrefix remote.setModelPrefix json.decString);
     ("route_all",
      json.field remote.RouteAll
        (fun x p => remote.mkProvider (remote.Name p) (remote.Kind p) (remote.BaseURL p)
                      (remote.APIKey p) (remote.AccessToken p) (remote.AccountID p)
                      (remote.ModelPrefix p) x)
        decBool)].

(** The payload struct of [Providers]. *)
Record ProvidersPayload : Type := mkProvidersPayload {
  PayloadProvider : option remote.Provider;
  PayloadProviders : list remote.Provider
}.

Definition decProvidersPayload : json.decoder ProvidersPayload :=
  json.decStruct
    [("provider",
      json.field PayloadProvider (fun x p => mkProvidersPayload x (PayloadProviders p))
                 (decPtr remote.zeroProvider decProvider));
     ("providers",
      json.field PayloadProviders (fun x p => mkProvidersPayload (PayloadProvider p) x)
                 (json.decSlice remote.zeroProvider decProvider))].

Definition encView (v : remote.ProviderView) : json.value :=
  json.JObject [("name", json.encString (remote.ViewName v));
                ("kind", json.encString (remote.ViewKind v));
                ("base_url", json.encString (remote.ViewBaseURL v));
                ("has_api_key", json.JBool (remote.HasAPIKey v));
                ("has_access_token", json.JBool (remote.HasAccessToken v));
                ("has_account_id", json.JBool (remote.HasAccountID v));
                ("model_prefix", json.encString (remote.ViewModelPrefix v));
                ("route_all", json.JBool (remote.ViewRouteAll v))].

(** [map[string]any{"providers": h.remoteManager.Views()}] *)
Definition providersDocument (m : remote.Manager) : json.value :=
  json.JObject [("providers", json.JArray (map encView (remote.Views m)))].

Definition decRule : json.decoder rules.Rule :=
  json.decStruct
    [("contains",
      json.field rules.Contains (fun x r => rules.mkRule x (rules.Reply r))
                 json.decString);
     ("reply",
      json.field rules.Reply (fun x r => rules.mkRule (rules.Contains r) x)
                 json.decString)].

(** The payload struct of [Rules]: its field [Rules]. *)
Definition decRulesPayload : json.decoder (list rules.Rule) :=
  json.decStruct
    [("rules", json.decSlice (rules.mkRule "" "") decRule)].

Definition encRule (r : rules.Rule) : json.value :=
  json.JObject [("contains", json.encString (rules.Contains r));
                ("reply", json.encString (rules.Reply r))].

(** [map[string]any{"rules": h.rules.All()}]: [All] returns
    [append([]Rule(nil), s.rules...)], the nil slice for an empty store,
    which is written [null]. *)
Definition rulesDocument (s : rules.Store) : json.value :=
  json.JObject
    [("rules",
      match rules.All s with
      | [] => json.JNull
      | rs => json.JArray (map encRule rs)
      end)].

Record ModelInfo : Type := mkModelInfo {
  ModelID : string;
  ModelObject : string;
  ModelCreated : Z;
  OwnedBy : string
}.

(** [buildModelsResponse]: the field [Data] of the response, whose field
    [Object] is "list". *)
Definition buildModelsResponse (h : api.Handlers) (now : Z) : list ModelInfo :=
  mkModelInfo "gpt-mock-1" "model" now "chatmock"
  :: map (fun p =>
            let id :=
              if remote.blank (remote.ModelPrefix p) then remote.Name p
              else strings.TrimSuffix (remote.ModelPrefix p) "/" ++ "/*" in
            mkModelInfo id "model" now (remote.Kind p))
         (remote.Providers (api.remoteManager h)).

Definition encModelInfo (m : ModelInfo) : json.value :=
  json.JObject [("id", json.encString (ModelID m));
                ("object", json.encString (ModelObject m));
                ("created", json.encInt (ModelCreated m));
                ("owned_by", json.encString (OwnedBy m))].

Definition Models (h : api.Handlers) (now : Z) (r : Request) : Response :=
  if negb (String.eqb (Method r) "GET") then methodNotAllowed
  else
    writeJSON api.http_StatusOK
      (json.JObject
         [("object", json.encString "list");
          ("data", json.JArray (map encModelInfo (buildModelsResponse h now)))]).

Definition OllamaTags (h : api.Handlers) (now : Z) (r : Request) : Response :=
  if negb (String.eqb (Method r) "GET") then methodNotAllowed
  else
    writeJSON api.http_StatusOK
      (json.JObject
         [("models",
           json.JArray
             (map (fun m => json.JObject [("model", json.encString (ModelID m));
                                          ("name", json.encString (ModelID m))])
                  (buildModelsResponse h now)))]).

Definition withManager (h : api.Handlers) (m : remote.Manager) : api.Handlers :=
  api.mkHandlers (api.rules_ h) m (api.remoteClient h).

Definition withRules (h : api.Handlers) (s : rules.Store) : api.Handlers :=
  api.mkHandlers s (api.remoteManager h) (api.remoteClient h).

Section Administration.
Context `{U : strings.UnicodeTables}.

(** [Handlers.Providers]: the handlers after the call, and the answer. *)
Definition Providers (h : api.Handlers) (r : Request) : api.Handlers * Response :=
  if String.eqb (Method r) "GET" then
    (h, writeJSON api.http_StatusOK (providersDocument (api.remoteManager h)))
  else if String.eqb (Method r) "PUT" then
    let '(payload, noerr) :=
      json.Unmarshal decProvidersPayload (Body r) (mkProvidersPayload None []) in
    if negb noerr then (h, writeError api.http_StatusBadRequest InvalidJSONPayload)
    else
      match PayloadProviders payload, PayloadProvider payload with
      | _ :: _, _ =>
          let m := remote.SetAll (api.remoteManager h) (PayloadProviders payload) in
          (withManager h m, writeJSON api.http_StatusOK (providersDocument m))
      | [], Some provider =>
          let m := remote.Upsert (api.remoteManager h) provider in
          (withManager h m, writeJSON api.http_StatusOK (providersDocument m))
      | [], None => (h, writeError api.http_StatusBadRequest ProviderRequired)
      end
  else (h, methodNotAllowed).

(** [Handlers.Rules]: the handlers after the call, and the answer. *)
Definition Rules (h : api.Handlers) (r : Request) : api.Handlers * Response :=
  if String.eqb (Method r) "GET" then
    (h, writeJSON api.http_StatusOK (rulesDocument (api.rules_ h)))
  else if String.eqb (Method r) "PUT" then
    let '(items, noerr) := json.Unmarshal decRulesPayload (Body r) [] in
    if negb noerr then (h, writeError api.http_StatusBadRequest InvalidJSONPayload)
    else
      let s := rules.Set_ (api.rules_ h) items in
      (withRules h s, writeJSON api.http_StatusOK (rulesDocument s))
  else (h, methodNotAllowed).

End Administration.

End handlers.

(* ================================================================== *)
(** ** What the specification says, in its own words *)

Module Spec.

(** Router: a provider matches when its base URL is not blank and either
    it routes everything or the trimmed model starts with its trimmed
    prefix. *)
Definition Matches (p : remote.Provider) (requestedModel : string) : Prop :=
  strings.TrimSpace (remote.BaseURL p) <> ""
  /\ (remote.RouteAll p = true
      \/ exists rest,
           strings.TrimSpace requestedModel
           = strings.TrimSpace (remote.ModelPrefix p) ++ rest).

(** Router: the model sent upstream is the trimmed model without the
    prefix when the prefix is a literal prefix of it, else the trimmed
    model. *)
Definition Rewrites (p : remote.Provider) (requestedModel rewritten : string)
  : Prop :=
  (forall rest,
      strings.TrimSpace requestedModel
      = strings.TrimSpace (remote.ModelPrefix p) ++ rest ->
      rewritten = rest)
  /\ ((forall rest,
          strings.TrimSpace requestedModel
          <> strings.TrimSpace (remote.ModelPrefix p) ++ rest) ->
      rewritten = strings.TrimSpace requestedModel).

(** Registry: two records are the same provider by the first criterion
    that applies: the names when both are not blank, else the prefixes when
    both are not blank, else the pair of kind and base URL. *)
Definition BothNamed (a b : remote.Provider) : Prop :=
  strings.TrimSpace (remote.Name a) <> ""
  /\ strings.TrimSpace (remote.Name b) <> "".

Definition BothPrefixed (a b : remote.Provider) : Prop :=
  strings.TrimSpace (remote.ModelPrefix a) <> ""
  /\ strings.TrimSpace (remote.ModelPrefix b) <> "".

Inductive SameIdentity (a b : remote.Provider) : Prop :=
| same_by_name :
    BothNamed a b -> remote.Name a = remote.Name b -> SameIdentity a b
| same_by_prefix :
    ~ BothNamed a b -> BothPrefixed a b ->
    remote.ModelPrefix a = remote.ModelPrefix b -> SameIdentity a b
| same_by_endpoint :
    ~ BothNamed a b -> ~ BothPrefixed a b ->
    remote.Kind a = remote.Kind b -> remote.BaseURL a = remote.BaseURL b ->
    SameIdentity a b.

(** Registry: the entries of [m] that are the same provider as [p]. *)
Definition entriesFor (m : remote.Manager) (p : remote.Provider)
  : list remote.Provider :=
  filter (fun q => remote.sameProvider q p) m.

(** Registry: the closed set of kinds. *)
Definition closedKinds : list string := ["openai"; "ollama"; "chatgpt"; "codex"].

(** Registry: the prefix a kind defaults to. *)
Definition defaultPrefix (kind : string) : string :=
  if String.eqb kind "ollama" then "ollama/"
  else if String.eqb kind "codex" then "codex/"
  else if String.eqb kind "chatgpt" then "chatgpt/"
  else "remote/".

Section Normal.
Context `{U : strings.UnicodeTables}.

(** Registry: [q] is what is stored for the submitted record [raw]. *)
Record NormalFormOf (raw q : remote.Provider) : Prop := {
  nf_kind :
    remote.Kind q
    = if remote.blank (remote.Kind raw) then "openai"
      else strings.ToLower (strings.TrimSpace (remote.Kind raw));
  nf_prefix_not_empty :
    remote.ModelPrefix q <> "" /\ strings.TrimSpace (remote.ModelPrefix q) <> "";
  nf_prefix :
    remote.ModelPrefix q
    = if remote.blank (remote.ModelPrefix raw) then defaultPrefix (remote.Kind q)
      else remote.ModelPrefix raw;
  nf_name :
    remote.Name q
    = if remote.blank (remote.Name raw)
      then strings.TrimSuffix (remote.ModelPrefix q) "/"
      else remote.Name raw;
  nf_baseURL :
    remote.BaseURL q
    = if remote.blank (remote.BaseURL raw) && String.eqb (remote.Kind q) "chatgpt"
      then "https://chatgpt.com"
      else remote.BaseURL raw;
  nf_rest :
    remote.APIKey q = remote.APIKey raw
    /\ remote.AccessToken q = remote.AccessToken raw
    /\ remote.AccountID q = remote.AccountID raw
    /\ remote.RouteAll q = remote.RouteAll raw
}.

(** Registry: a record that is stored as it is submitted, under a name
    of its own. *)
Definition storedAsIs (p : remote.Provider) : Prop :=
  remote.normalizeProvider p = p /\ remote.blank (remote.Name p) = false.

End Normal.

(** Redacted list: two records agree on all but the values of their
    secrets, and each secret is blank in both or in neither. *)
Definition SameBlankness (s t : string) : Prop :=
  strings.TrimSpace s = "" <-> strings.TrimSpace t = "".

Record SameButSecretValues (p q : remote.Provider) : Prop := {
  sbs_name : remote.Name p = remote.Name q;
  sbs_kind : remote.Kind p = remote.Kind q;
  sbs_baseURL : remote.BaseURL p = remote.BaseURL q;
  sbs_prefix : remote.ModelPrefix p = remote.ModelPrefix q;
  sbs_routeAll : remote.RouteAll p = remote.RouteAll q;
  sbs_apiKey : SameBlankness (remote.APIKey p) (remote.APIKey q);
  sbs_accessToken : SameBlankness (remote.AccessToken p) (remote.AccessToken q);
  sbs_accountID : SameBlankness (remote.AccountID p) (remote.AccountID q)
}.

(** Redacted list: [v] shows [p] with a presence flag for each secret. *)
Record Redacts (p : remote.Provider) (v : remote.ProviderView) : Prop := {
  red_name : remote.ViewName v = remote.Name p;
  red_kind : remote.ViewKind v = remote.Kind p;
  red_baseURL : remote.ViewBaseURL v = remote.BaseURL p;
  red_prefix : remote.ViewModelPrefix v = remote.ModelPrefix p;
  red_routeAll : remote.ViewRouteAll v = remote.RouteAll p;
  red_apiKey :
    remote.HasAPIKey v = true <-> strings.TrimSpace (remote.APIKey p) <> "";
  red_accessToken :
    remote.HasAccessToken v = true
    <-> strings.TrimSpace (remote.AccessToken p) <> "";
  red_accountID :
    remote.HasAccountID v = true <-> strings.TrimSpace (remote.AccountID p) <> ""
}.

(** Mock path: the number of tokens estimated for a text of [n]
    characters. *)
Definition tokens (n : Z) : Z :=
  if (n =? 0)%Z then 0%Z
  else if ((1 <=? n) && (n <=? 3))%Z then 1%Z
  else (n / 4)%Z.

(** Mock path: the concatenation of the contents of the messages. *)
Definition promptText (messages : list chat.Message) : string :=
  fold_right (fun m rest => chat.Content m ++ rest) "" messages.

(** A Go string occupies memory: its length is an [int]. *)
Definition fits (s : string) : Prop := (strings.len s <= GoInt.max_int)%Z.

(** ChatGPT text: a key the struct decoder takes for the field tagged
    [output_text]. *)
Definition isOutputTextKey (k : string) : bool :=
  String.eqb (json.foldName k) "OUTPUT_TEXT".

Definition stringOrNull (v : json.value) : bool :=
  match v with
  | json.JString _ | json.JNull => true
  | _ => false
  end.

(** ChatGPT text: the last string of [vs], [cur] when there is none. *)
Fixpoint lastString (vs : list json.value) (cur : string) : string :=
  match vs with
  | [] => cur
  | json.JString s :: rest => lastString rest s
  | _ :: rest => lastString rest cur
  end.

(** ChatGPT text: the values of the members that are taken for
    [output_text], in the order of the text. *)
Definition outputTextCandidates (m : list (string * json.value)) : list json.value :=
  map snd (filter (fun kv => isOutputTextKey (fst kv)) m).

(** ChatGPT text, first layer: the last string among the candidates, when
    every candidate is a string or [null]. *)
Definition typedOutputText (m : list (string * json.value)) : option string :=
  if forallb stringOrNull (outputTextCandidates m)
  then Some (lastString (outputTextCandidates m) "")
  else None.

(** ChatGPT text, second and third layer. *)
Definition untypedOutputText (m : list (string * json.value)) : string :=
  match json.get m "output_text" with
  | Some (json.JString v) => v
  | _ =>
      match json.get m "output" with
      | Some (json.JArray out) =>
          strings.TrimSpace
            (strings.Join (flat_map remote.itemChunks out) remote.newline)
      | _ => ""
      end
  end.






(** ChatGPT text, first layer as the struct decoder reads it: the last
    string among the members whose key is [output_text] up to letter case,
    when every such member is a string or [null] and that string is not
    blank. *)
Definition structLayer (m : list (string * json.value)) : option string :=
  match typedOutputText m with
  | Some s => if remote.blank s then None else Some s
  | None => None
  end.


(** ChatGPT text: every key that is [output_text] up to letter case is
    [output_text] itself. *)
Definition exactKeys (m : list (string * json.value)) : Prop :=
  forall kv, In kv m -> isOutputTextKey (fst kv) = true -> fst kv = "output_text".

(** ChatGPT text: the members of an object but those under [output]. *)
Definition withoutOutput (m : list (string * json.value))
  : list (string * json.value) :=
  filter (fun kv => negb (String.eqb (fst kv) "output")) m.

(** Ollama: the counts of a decoded reply fit an [int]. *)
Definition countsFit (o : remote.ollamaResp) : Prop :=
  GoInt.in_range (remote.PromptEvalCount o) = true
  /\ GoInt.in_range (remote.EvalCount o) = true.



(** Upstream client: [k] slashes. *)
Fixpoint slashes (k : nat) : string :=
  match k with
  | O => ""
  | S k' => String "/"%char (slashes k')
  end.

(** White space: the string starts with a white-space rune. *)
Definition startsWithSpace (s : string) : bool :=
  match s with
  | EmptyString => false
  | String a r =>
      strings.asciiSpace (strings.byte_of a)
      || match r with
         | EmptyString => false
         | String b r' =>
             strings.space2 (strings.byte_of a) (strings.byte_of b)
             || match r' with
                | EmptyString => false
                | String c _ =>
                    strings.space3 (strings.byte_of a) (strings.byte_of b)
                                   (strings.byte_of c)
                end
         end
  end.

(** White space: the reversed string starts with a reversed white-space
    rune, that is, the string ends with a white-space rune. *)
Definition startsWithSpaceRev (s : string) : bool :=
  match s with
  | EmptyString => false
  | String a r =>
      strings.asciiSpace (strings.byte_of a)
      || match r with
         | EmptyString => false
         | String b r' =>
             strings.space2 (strings.byte_of b) (strings.byte_of a)
             || match r' with
                | EmptyString => false
                | String c _ =>
                    strings.space3 (strings.byte_of c) (strings.byte_of b)
                                   (strings.byte_of a)
                end
         end
  end.

End Spec.

(* ================================================================== *)
(** ** Registry states *)

Section Reachable.
Context `{U : strings.UnicodeTables}.

(** The registry is created by [NewManager] and changed by [Upsert] and
    [SetAll] only: its field is not exported. *)
Inductive reachable : remote.Manager -> Prop :=
| reach_new (seed : list remote.Provider) :
    reachable (remote.NewManager seed)
| reach_upsert (m : remote.Manager) (p : remote.Provider) :
    reachable m -> reachable (remote.Upsert m p)
| reach_setall (m : remote.Manager) (ps : list remote.Provider) :
    reachable m -> reachable (remote.SetAll m ps).

(** A mutation of the registry, the records it submits, and the state
    after a sequence of mutations of the registry [NewManager] made. *)
Inductive Mutation : Type :=
| DoUpsert (p : remote.Provider)
| DoSetAll (ps : list remote.Provider).

Definition submitted (op : Mutation) : list remote.Provider :=
  match op with
  | DoUpsert p => [p]
  | DoSetAll ps => ps
  end.

Definition mutate (m : remote.Manager) (op : Mutation) : remote.Manager :=
  match op with
  | DoUpsert p => remote.Upsert m p
  | DoSetAll ps => remote.SetAll m ps
  end.

Definition stateAfter (seed : list remote.Provider) (ops : list Mutation)
  : remote.Manager :=
  fold_left mutate ops (remote.NewManager seed).

End Reachable.

(* ================================================================== *)
(** ** Sample data *)

Definition codexProvider : remote.Provider :=
  remote.mkProvider "codex" "codex" "https://api.openai.com" "sk-test" "" ""
                    "codex/" false.


(** A registry set from a list that names one provider twice, as
    [PUT /v1/providers] with two equal elements does. *)
Definition twiceCodex : remote.Manager :=
  remote.SetAll (U := identityTables) [] [codexProvider; codexProvider].

(** A record of a kind outside the closed set, and the registry holding
    it. *)
Definition bananaProvider : remote.Provider :=
  remote.mkProvider "fruit" "banana" "http://localhost:9000" "" "" "" "" false.

Definition bananaRegistry : remote.Manager :=
  remote.Upsert (U := identityTables) [] bananaProvider.

(** Two registries that differ in the values of the secrets only. *)
Definition registryA : remote.Manager :=
  [remote.mkProvider "codex" "codex" "https://example.com" "secret" "" ""
                     "codex/" false;
   remote.mkProvider "chatgpt" "chatgpt" "https://chatgpt.com" "" "token-1"
                     "acct-1" "chatgpt/" false].

Definition registryB : remote.Manager :=
  [remote.mkProvider "codex" "codex" "https://example.com" "other" "" " "
                     "codex/" false;
   remote.mkProvider "chatgpt" "chatgpt" "https://chatgpt.com" "" "token-2"
                     "acct-2" "chatgpt/" false].

(** The request of the specification's example, and a client that always
    fails, for servers that have no provider to call. *)
Definition helloRequest : chat.CompletionRequest :=
  chat.mkCompletionRequest "gpt-mock-1" [chat.mkMessage "user" "hello"] chat.FZero.

Definition emptyRequest : chat.CompletionRequest :=
  chat.mkCompletionRequest "codex/gpt-5" [] chat.FZero.

Definition offline : remote.Request -> remote.result :=
  fun _ => remote.Err (remote.ErrTransport "connection refused").

(** A reply of the ChatGPT backend with its text under an upper-case
    key. *)
Definition upperCaseReply : list (string * json.value) :=
  [("model", json.JString "gpt-5"); ("OUTPUT_TEXT", json.JString "hi")].

(** A provider whose base URL is a lone slash, and a server that has it. *)
Definition slashProvider : remote.Provider :=
  remote.mkProvider "remote" "openai" "/" "" "" "" "remote/" false.

Definition slashServer : api.Handlers :=
  api.mkHandlers (app.seedRules) [slashProvider] offline.


(** An upstream that is down for maintenance, and a server in front of it. *)
Definition unavailable : remote.Request -> remote.result :=
  fun _ => remote.Ok None 503.

Definition codexServer (client : remote.Request -> remote.result) : api.Handlers :=
  api.mkHandlers (app.seedRules) [codexProvider] client.

Definition codexRequest : chat.CompletionRequest :=
  chat.mkCompletionRequest "codex/gpt-5" [chat.mkMessage "user" "hello"] chat.FZero.

(** Values that [json.Marshal] writes and the decoder reads back
    unchanged: strings of valid UTF-8 and integers that fit an [int]. *)
Definition validMessage (m : chat.Message) : bool :=
  json.validUTF8 (chat.Role m) && json.validUTF8 (chat.Content m).

Definition validChoice (c : chat.Choice) : bool :=
  GoInt.in_range (chat.Index c) && json.validUTF8 (chat.FinishReason c)
  && validMessage (chat.ChoiceMessage c).

Definition validUsage (u : chat.Usage) : bool :=
  GoInt.in_range (chat.PromptTokens u) && GoInt.in_range (chat.CompletionTokens u)
  && GoInt.in_range (chat.TotalTokens u).

Definition validResponse (r : chat.CompletionResponse) : bool :=
  json.validUTF8 (chat.ID r) && json.validUTF8 (chat.Object r)
  && GoInt.in_range (chat.Created r) && json.validUTF8 (chat.RespModel r)
  && forallb validChoice (chat.Choices r) && validUsage (chat.RespUsage r).

(** The reply of an Ollama server used by the tests of the repository, a
    client that always answers it, and a server with one Ollama provider. *)
Definition ollamaProvider : remote.Provider :=
  remote.mkProvider "ollama" "ollama" "http://localhost:11434" "" "" ""
                    "ollama/" false.

Definition ollamaReply : json.value :=
  json.JObject
    [("model", json.JString "llama3.1");
     ("message", json.JObject [("role", json.JString "assistant");
                               ("content", json.JString "from ollama")]);
     ("prompt_eval_count", json.JNumber (json.Int 2));
     ("eval_count", json.JNumber (json.Int 3))].

Definition ollamaUpstream : remote.Request -> remote.result :=
  fun _ => remote.Ok (Some ollamaReply) 200.

Definition ollamaServer (client : remote.Request -> remote.result) : api.Handlers :=
  api.mkHandlers (app.seedRules) [ollamaProvider] client.

Definition ollamaRequest : chat.CompletionRequest :=
  chat.mkCompletionRequest "ollama/llama3.1" [chat.mkMessage "user" "hi"] chat.FZero.

(** An Ollama reply whose counts are not integers. *)
Definition brokenOllamaUpstream : remote.Request -> remote.result :=
  fun _ =>
    remote.Ok
      (Some (json.JObject [("model", json.JString "llama3.1");
                           ("eval_count", json.JNumber (json.Float "1.5"))]))
      200.

(** A ChatGPT backend whose body is no JSON, behind a server with one
    provider of that kind. *)
Definition chatgptProvider : remote.Provider :=
  remote.mkProvider "chatgpt" "chatgpt" "https://chatgpt.com" "" "token" "acct-1"
                    "chatgpt/" false.

Definition garbledUpstream : remote.Request -> remote.result :=
  fun _ => remote.Ok None 200.

Definition chatgptServer (client : remote.Request -> remote.result) : api.Handlers :=
  api.mkHandlers (app.seedRules) [chatgptProvider] client.

Definition chatgptRequest : chat.CompletionRequest :=
  chat.mkCompletionRequest "chatgpt/gpt-5" [chat.mkMessage "user" "hi"] chat.FZero.

(** An upstream of the generic kind that answers a canonical response. *)
Definition codexReply : chat.CompletionResponse :=
  chat.mkCompletionResponse "codex-1" "chat.completion" 0 ""
    [chat.mkChoice 0 "stop" (chat.mkMessage "assistant" "from codex")]
    (chat.mkUsage 1 1 2).

Definition codexUpstream : remote.Request -> remote.result :=
  fun _ => remote.Ok (Some (chat.encCompletionResponse codexReply)) 200.

(** A call of [/v1/responses] whose input is a list of content parts. *)
Definition partsRequest : handlers.Request :=
  handlers.mkRequest "POST"
    (Some (json.JObject
             [("model", json.JString "gpt-mock-1");
              ("input",
               json.JArray
                 [json.JObject [("role", json.JString "user");
                                ("content",
                                 json.JArray
                                   [json.JObject [("type", json.JString "input_text");
                                                  ("text", json.JString "Hello")];
                                    json.JObject [("type", json.JString "input_text");
                                                  ("text", json.JString "there ")]])]])])).

(** Rules whose strings are valid UTF-8. *)
Definition validRule (r : rules.Rule) : bool :=
  json.validUTF8 (rules.Contains r) && json.validUTF8 (rules.Reply r).

(** Calls of the administration endpoints. *)
Definition getRequest : handlers.Request := handlers.mkRequest "GET" None.

Definition putBack (doc : json.value) : handlers.Request :=
  handlers.mkRequest "PUT" (Some doc).

(** A server whose registry was made from two seed providers. *)
Definition seededServer : api.Handlers :=
  api.mkHandlers app.seedRules
                 (remote.NewManager (U := identityTables) [codexProvider; ollamaProvider])
                 offline.



Definition emptyTextReply : list (string * json.value) :=
  [("output_text", json.JString "");
   ("output",
    json.JArray
      [json.JObject
         [("content", json.JArray [json.JObject [("text", json.JString "a")]])]])].

Definition shadowedReply : list (string * json.value) :=
  [("output_text", json.JString ""); ("OUTPUT_TEXT", json.JString "hi")].


(* ================================================================== *)
(** ** Byte strings *)

Lemma HasPrefix_app (p r : string) : strings.HasPrefix (p ++ r) p = true.
Proof.
  induction p as [|a p IH]; simpl; [reflexivity|].
  now rewrite Ascii.eqb_refl, IH.
Qed.

Lemma HasPrefix_split (s p : string) :
  strings.HasPrefix s p = true -> s = p ++ strings.drop (String.length p) s.
Proof.
  revert s; induction p as [|b p IH]; intros s Hp; simpl in *.
  - reflexivity.
  - destruct s as [|a s]; [discriminate|].
    apply andb_true_iff in Hp as [Hab Hp].
    apply Ascii.eqb_eq in Hab; subst b.
    simpl. f_equal. now apply IH.
Qed.

Lemma HasPrefix_iff (s p : string) :
  strings.HasPrefix s p = true <-> exists r, s = p ++ r.
Proof.
  split.
  - intros Hp. eexists. now apply HasPrefix_split.
  - intros [r ->]. apply HasPrefix_app.
Qed.

Lemma append_inj_l (p r r' : string) : p ++ r = p ++ r' -> r = r'.
Proof.
  induction p as [|a p IH]; simpl; intros E; [assumption|].
  injection E as E. now apply IH.
Qed.

Lemma TrimPrefix_app (p r : string) : strings.TrimPrefix (p ++ r) p = r.
Proof.
  unfold strings.TrimPrefix. rewrite HasPrefix_app.
  pose proof (HasPrefix_split (p ++ r) p (HasPrefix_app p r)) as E.
  symmetry. now apply append_inj_l in E.
Qed.

Lemma TrimPrefix_none (s p : string) :
  strings.HasPrefix s p = false -> strings.TrimPrefix s p = s.
Proof. unfold strings.TrimPrefix. now intros ->. Qed.

(* ================================================================== *)
(** ** Provider registry: what normalization establishes *)

Section RegistryFacts.
Context `{U : strings.UnicodeTables}.

Lemma normalizeProvider_prefix (p : remote.Provider) :
  remote.blank (remote.ModelPrefix (remote.normalizeProvider p)) = false.
Proof.
  unfold remote.normalizeProvider.
  repeat match goal with
         | |- context [if ?c then _ else _] => destruct c eqn:?; cbn in *
         end; try reflexivity; try assumption; try congruence.
Qed.

Lemma replaceOrAppend_Forall (P : remote.Provider -> Prop) ps p :
  Forall P ps -> P p -> Forall P (remote.replaceOrAppend ps p).
Proof.
  intros Hps Hp. induction Hps as [|q ps Hq Hps IH]; simpl.
  - auto.
  - destruct (remote.sameProvider q p); auto.
Qed.

Lemma NewManager_Forall (P : remote.Provider -> Prop) :
  (forall p, P (remote.normalizeProvider p)) ->
  forall seed m, Forall P m -> Forall P (fold_left remote.Upsert seed m).
Proof.
  intros HP seed. induction seed as [|p seed IH]; intros m Hm; simpl.
  - assumption.
  - apply IH. now apply replaceOrAppend_Forall.
Qed.

(** Every provider of a registry state is the normal form of a record. *)
Lemma reachable_Forall (P : remote.Provider -> Prop) :
  (forall p, P (remote.normalizeProvider p)) ->
  forall m, reachable m -> Forall P m.
Proof.
  intros HP m Hm. induction Hm as [seed|m p _ IH|m ps _ _].
  - now apply NewManager_Forall.
  - now apply replaceOrAppend_Forall.
  - unfold remote.SetAll. apply Forall_forall. intros q Hq.
    apply in_map_iff in Hq as [raw [<- _]]. apply HP.
Qed.

End RegistryFacts.

(* ================================================================== *)
(** ** Router *)

Lemma blank_false (s : string) :
  remote.blank s = false <-> strings.TrimSpace s <> "".
Proof. unfold remote.blank. apply String.eqb_neq. Qed.

Lemma ShouldProxy_Matches (p : remote.Provider) (requestedModel : string) :
  remote.blank (remote.ModelPrefix p) = false ->
  remote.ShouldProxy p requestedModel = true <-> Spec.Matches p requestedModel.
Proof.
  intros Hprefix. unfold remote.ShouldProxy, Spec.Matches.
  destruct (remote.blank (remote.BaseURL p)) eqn:Hbase.
  - split; [discriminate|]. intros [Hne _].
    apply blank_false in Hne. congruence.
  - apply blank_false in Hbase.
    destruct (remote.RouteAll p).
    + split; auto.
    + unfold remote.blank in Hprefix. rewrite Hprefix. simpl.
      rewrite HasPrefix_iff. split.
      * intros Hex. auto.
      * intros [_ [Habs|Hex]]; [discriminate|assumption].
Qed.

Lemma NormalizeModel_Rewrites (p : remote.Provider) (requestedModel : string) :
  Spec.Rewrites p requestedModel (remote.NormalizeModel p requestedModel).
Proof.
  unfold Spec.Rewrites, remote.NormalizeModel.
  set (model := strings.TrimSpace requestedModel).
  set (prefix := strings.TrimSpace (remote.ModelPrefix p)).
  destruct (String.eqb prefix "") eqn:Hempty; simpl.
  - apply String.eqb_eq in Hempty. rewrite Hempty. split.
    + intros rest E. exact E.
    + intros Hno. now destruct (Hno model).
  - destruct (strings.HasPrefix model prefix) eqn:Hp.
    + split.
      * intros rest E. rewrite E. apply TrimPrefix_app.
      * intros Hno. apply HasPrefix_iff in Hp as [r Hr]. now destruct (Hno r).
    + split.
      * intros rest E. rewrite E, HasPrefix_app in Hp. discriminate.
      * reflexivity.
Qed.

Lemma Match_on_prefixed (m : remote.Manager) (requestedModel : string) :
  Forall (fun q => remote.blank (remote.ModelPrefix q) = false) m ->
  match remote.Match m requestedModel with
  | (p, rewritten, true) =>
      exists before after,
        m = (before ++ p :: after)%list
        /\ Forall (fun q => ~ Spec.Matches q requestedModel) before
        /\ Spec.Matches p requestedModel
        /\ Spec.Rewrites p requestedModel rewritten
  | (p, rewritten, false) =>
      Forall (fun q => ~ Spec.Matches q requestedModel) m
      /\ p = remote.zeroProvider /\ rewritten = ""
  end.
Proof.
  induction 1 as [|q m Hq Hm IH]; simpl.
  - auto.
  - pose proof (ShouldProxy_Matches q requestedModel Hq) as Hiff.
    destruct (remote.ShouldProxy q requestedModel) eqn:Hs.
    + exists [], m.
      split; [reflexivity|]. split; [constructor|].
      split; [now apply Hiff | apply NormalizeModel_Rewrites].
    + assert (Hnot : ~ Spec.Matches q requestedModel).
      { intros Hyes. apply Hiff in Hyes. discriminate. }
      destruct (remote.Match m requestedModel) as [[p rewritten] [|]].
      * destruct IH as (before & after & -> & Hb & Hp & Hr).
        exists (q :: before), after.
        split; [reflexivity|]. split; [now constructor|]. now split.
      * destruct IH as (Hall & -> & ->). auto.
Qed.

Section Router.
Context `{U : strings.UnicodeTables}.

(** C1.  In every registry state, [Match] returns the first provider, in
    registration order, that matches the requested model: every provider
    registered before it does not match.  A provider matches when its base
    URL is not blank once trimmed and it either routes everything or its
    trimmed prefix starts the trimmed model.  The model returned with it is
    the trimmed model without that prefix when the prefix starts it, and the
    trimmed model otherwise.  When no provider matches, the answer is
    [found = false] with the zero provider and the empty model. *)
Theorem Match_first_matching_provider
        (m : remote.Manager) (requestedModel : string) :
  reachable m ->
  match remote.Match m requestedModel with
  | (p, rewritten, true) =>
      exists before after,
        m = (before ++ p :: after)%list
        /\ Forall (fun q => ~ Spec.Matches q requestedModel) before
        /\ Spec.Matches p requestedModel
        /\ Spec.Rewrites p requestedModel rewritten
  | (p, rewritten, false) =>
      Forall (fun q => ~ Spec.Matches q requestedModel) m
      /\ p = remote.zeroProvider /\ rewritten = ""
  end.
Proof.
  intros Hm. apply Match_on_prefixed.
  apply (reachable_Forall _ normalizeProvider_prefix m Hm).
Qed.

End Router.

Lemma Match_first_matching_provider_witness :
  reachable (U := identityTables) (remote.NewManager (U := identityTables) [codexProvider])
  /\ exists before after,
       remote.NewManager (U := identityTables) [codexProvider]
       = (before ++ codexProvider :: after)%list
       /\ Forall (fun q => ~ Spec.Matches q " codex/gpt-5") before
       /\ Spec.Matches codexProvider " codex/gpt-5"
       /\ Spec.Rewrites codexProvider " codex/gpt-5" "gpt-5".
Proof.
  split.
  - apply reach_new.
  - exact (Match_first_matching_provider (U := identityTables)
             (remote.NewManager (U := identityTables) [codexProvider])
             " codex/gpt-5" (reach_new (U := identityTables) [codexProvider])).
Defined.

(* ================================================================== *)
(** ** Provider registry: upsert *)

Lemma sameProvider_refl (p : remote.Provider) : remote.sameProvider p p = true.
Proof.
  unfold remote.sameProvider.
  destruct (negb (remote.blank (remote.Name p)) && negb (remote.blank (remote.Name p)));
    [apply String.eqb_refl|].
  destruct (negb (remote.blank (remote.ModelPrefix p))
            && negb (remote.blank (remote.ModelPrefix p)));
    [apply String.eqb_refl|].
  now rewrite !String.eqb_refl.
Qed.

Lemma both_nonblank (s t : string) :
  negb (remote.blank s) && negb (remote.blank t) = true
  <-> strings.TrimSpace s <> "" /\ strings.TrimSpace t <> "".
Proof.
  rewrite andb_true_iff, !negb_true_iff, !blank_false. reflexivity.
Qed.

Lemma sameProvider_SameIdentity (a b : remote.Provider) :
  remote.sameProvider a b = true <-> Spec.SameIdentity a b.
Proof.
  unfold remote.sameProvider.
  destruct (negb (remote.blank (remote.Name a)) && negb (remote.blank (remote.Name b)))
    eqn:Hn.
  - apply both_nonblank in Hn. rewrite String.eqb_eq. split.
    + now constructor 1.
    + intros [_ E|Hno _ _|Hno _ _ _]; [assumption|now destruct Hno..].
  - assert (Hnn : ~ Spec.BothNamed a b).
    { intros Hb. apply both_nonblank in Hb. congruence. }
    destruct (negb (remote.blank (remote.ModelPrefix a))
              && negb (remote.blank (remote.ModelPrefix b))) eqn:Hp.
    + apply both_nonblank in Hp. rewrite String.eqb_eq. split.
      * now constructor 2.
      * intros [Hyes _|_ _ E|_ Hno _ _]; [now destruct Hnn|assumption|now destruct Hno].
    + assert (Hnp : ~ Spec.BothPrefixed a b).
      { intros Hb. apply both_nonblank in Hb. congruence. }
      rewrite andb_true_iff, !String.eqb_eq. split.
      * intros [Ek Eb]. now constructor 3.
      * intros [Hyes _|_ Hyes _|_ _ Ek Eb]; [now destruct Hnn|now destruct Hnp|auto].
Qed.

Lemma replaceOrAppend_idem (m : remote.Manager) (p : remote.Provider) :
  remote.replaceOrAppend (remote.replaceOrAppend m p) p
  = remote.replaceOrAppend m p.
Proof.
  induction m as [|q m IH]; simpl.
  - now rewrite sameProvider_refl.
  - destruct (remote.sameProvider q p) eqn:Hq; simpl.
    + now rewrite sameProvider_refl.
    + now rewrite Hq, IH.
Qed.

Lemma replaceOrAppend_fresh (p : remote.Provider) :
  remote.Providers (remote.replaceOrAppend (remote.replaceOrAppend [] p) p) = [p].
Proof.
  unfold remote.Providers. cbn [remote.replaceOrAppend].
  now rewrite sameProvider_refl.
Qed.

Lemma replaceOrAppend_entries (m : remote.Manager) (p : remote.Provider) :
  List.length (Spec.entriesFor (remote.replaceOrAppend m p) p)
  = Nat.max 1 (List.length (Spec.entriesFor m p)).
Proof.
  unfold Spec.entriesFor. induction m as [|q m IH]; simpl.
  - now rewrite sameProvider_refl.
  - destruct (remote.sameProvider q p) eqn:Hq; simpl.
    + rewrite sameProvider_refl. reflexivity.
    + rewrite Hq. exact IH.
Qed.

Lemma replaceOrAppend_shape (m : remote.Manager) (p : remote.Provider) :
  exists before rest,
    m = (before ++ rest)%list
    /\ Forall (fun q => remote.sameProvider q p = false) before
    /\ remote.replaceOrAppend m p = (before ++ p :: tl rest)%list
    /\ match rest with
       | [] => True
       | q :: _ => remote.sameProvider q p = true
       end.
Proof.
  induction m as [|q m IH]; simpl.
  - exists [], []. repeat split; constructor.
  - destruct (remote.sameProvider q p) eqn:Hq.
    + exists [], (q :: m). repeat split; [constructor|assumption].
    + destruct IH as (before & rest & -> & Hb & -> & Hr).
      exists (q :: before), rest. repeat split; [now constructor|assumption].
Qed.

Section Upsert.
Context `{U : strings.UnicodeTables}.

(** C4 (as amended).  Applying [Upsert] twice with one record gives the
    list that applying it once gives.  An upsert leaves as many entries of
    the record's identity as there were, and one when there was none: so
    exactly one when the state held at most one, as the empty registry
    does, whose list is then that one entry.  The entry written is the
    whole normalized record: it takes the place of the first entry of the
    same identity, or the end of the list when there is none, and every
    other entry stays.  Identity is decided by the names when both are not
    blank, else by the prefixes when both are not blank, else by kind and
    base URL. *)
Theorem Upsert_idempotent_replaces_whole (m : remote.Manager) (p : remote.Provider) :
  let p' := remote.normalizeProvider p in
  remote.Upsert (remote.Upsert m p) p = remote.Upsert m p
  /\ remote.Providers (remote.Upsert (remote.Upsert [] p) p) = [p']
  /\ List.length (Spec.entriesFor (remote.Upsert m p) p')
     = Nat.max 1 (List.length (Spec.entriesFor m p'))
  /\ (exists before rest,
        m = (before ++ rest)%list
        /\ Forall (fun q => remote.sameProvider q p' = false) before
        /\ remote.Upsert m p = (before ++ p' :: tl rest)%list
        /\ match rest with
           | [] => True
           | q :: _ => remote.sameProvider q p' = true
           end)
  /\ (forall a b, remote.sameProvider a b = true <-> Spec.SameIdentity a b).
Proof.
  intros p'. unfold remote.Upsert. fold p'. repeat split.
  - apply replaceOrAppend_idem.
  - apply replaceOrAppend_fresh.
  - apply replaceOrAppend_entries.
  - apply replaceOrAppend_shape.
  - apply sameProvider_SameIdentity.
  - apply sameProvider_SameIdentity.
Qed.

End Upsert.

(** C4, as stated, fails: in a registry set from a list with two equal
    elements, upserting that element twice leaves two entries of its
    identity. *)
Lemma Upsert_twice_leaves_two_entries :
  reachable (U := identityTables) twiceCodex
  /\ remote.Upsert (U := identityTables)
       (remote.Upsert (U := identityTables) twiceCodex codexProvider) codexProvider
     = [codexProvider; codexProvider]
  /\ List.length
       (Spec.entriesFor
          (remote.Upsert (U := identityTables)
             (remote.Upsert (U := identityTables) twiceCodex codexProvider)
             codexProvider)
          (remote.normalizeProvider (U := identityTables) codexProvider))
     <> 1.
Proof.
  split; [|split].
  - apply reach_setall, (reach_new (U := identityTables) []).
  - reflexivity.
  - vm_compute. discriminate.
Qed.

(* ================================================================== *)
(** ** Provider registry: the stored records *)

(** Case analysis on the tests of [normalizeProvider], innermost test
    first, without unfolding the string functions they call. *)
Ltac norm_cbn :=
  cbn -[remote.blank strings.ToLower strings.TrimSpace strings.TrimSuffix] in *.

Ltac norm_cases :=
  repeat match goal with
         | |- context [if ?c then _ else _] =>
             lazymatch c with
             | context [if _ then _ else _] => fail
             | _ => destruct c eqn:?; norm_cbn
             end
         end.

Ltac norm_start raw :=
  unfold remote.normalizeProvider;
  destruct (remote.blank (remote.Kind raw)) eqn:?; norm_cbn;
  [replace (strings.ToLower (strings.TrimSpace "openai")) with "openai"
     by reflexivity; norm_cbn|];
  norm_cases.

Section Normalized.
Context `{U : strings.UnicodeTables}.

Lemma blank_not_empty (s : string) : remote.blank s = false -> s <> "".
Proof. intros Hb ->. discriminate. Qed.

Lemma normalizeProvider_NormalFormOf (raw : remote.Provider) :
  Spec.NormalFormOf raw (remote.normalizeProvider raw).
Proof.
  pose proof (normalizeProvider_prefix raw) as Hprefix.
  constructor.
  - clear Hprefix. norm_start raw; reflexivity.
  - split; [now apply blank_not_empty | now apply blank_false].
  - clear Hprefix. unfold Spec.defaultPrefix. norm_start raw; congruence.
  - clear Hprefix. norm_start raw; congruence.
  - clear Hprefix. norm_start raw; congruence.
  - clear Hprefix. norm_start raw; auto.
Qed.

Lemma replaceOrAppend_written (m : remote.Manager) (p : remote.Provider) :
  In p (remote.replaceOrAppend m p)
  /\ forall q, In q (remote.replaceOrAppend m p) -> q = p \/ In q m.
Proof.
  induction m as [|q0 m [IHin IHfrom]]; simpl.
  - split; [now left|]. intros q [<-|[]]. now left.
  - destruct (remote.sameProvider q0 p); simpl.
    + split; [now left|]. intros q [<-|Hq]; [now left|right; now right].
    + split; [now right|]. intros q [<-|Hq]; [right; now left|].
      destruct (IHfrom q Hq) as [->|Hin]; [now left|right; now right].
Qed.

Lemma SetAll_NormalFormOf (m : remote.Manager) (ps : list remote.Provider) :
  Forall2 Spec.NormalFormOf ps (remote.SetAll m ps).
Proof.
  unfold remote.SetAll. induction ps as [|p ps IH]; simpl; constructor.
  - apply normalizeProvider_NormalFormOf.
  - exact IH.
Qed.

(** After one mutation every entry is the normal form of a record of the
    mutation, or an entry that was there before. *)
Lemma mutate_from (known : list remote.Provider) (m : remote.Manager) (op : Mutation) :
  Forall (fun q => exists raw, In raw known /\ Spec.NormalFormOf raw q) m ->
  Forall (fun q => exists raw,
              In raw (known ++ submitted op)%list /\ Spec.NormalFormOf raw q)
         (mutate m op).
Proof.
  intros Hm. apply Forall_forall. intros q Hq. destruct op as [p|ps]; simpl in *.
  - destruct (proj2 (replaceOrAppend_written m (remote.normalizeProvider p)) q Hq)
      as [->|Hin].
    + exists p. split; [apply in_or_app; right; now left|].
      apply normalizeProvider_NormalFormOf.
    + destruct (proj1 (Forall_forall _ _) Hm q Hin) as (raw & Hraw & Hnf).
      exists raw. split; [apply in_or_app; now left|exact Hnf].
  - unfold remote.SetAll in Hq. apply in_map_iff in Hq as (raw & <- & Hraw).
    exists raw. split; [apply in_or_app; now right|].
    apply normalizeProvider_NormalFormOf.
Qed.

Lemma mutations_from (ops : list Mutation) :
  forall (known : list remote.Provider) (m : remote.Manager),
    Forall (fun q => exists raw, In raw known /\ Spec.NormalFormOf raw q) m ->
    Forall (fun q => exists raw,
                In raw (known ++ flat_map submitted ops)%list
                /\ Spec.NormalFormOf raw q)
           (fold_left mutate ops m).
Proof.
  induction ops as [|op ops IH]; intros known m Hm; simpl.
  - now rewrite app_nil_r.
  - rewrite app_assoc. apply IH. now apply mutate_from.
Qed.

Lemma NewManager_mutations (seed : list remote.Provider) (m : remote.Manager) :
  fold_left remote.Upsert seed m = fold_left mutate (map DoUpsert seed) m
  /\ flat_map submitted (map DoUpsert seed) = seed.
Proof.
  revert m. induction seed as [|p seed IH]; intros m; simpl.
  - now split.
  - destruct (IH (remote.Upsert m p)) as [-> ->]. now split.
Qed.

(** C5 (as amended).  After every mutation of the registry, every stored
    provider is the normal form of a record that was submitted, to
    [NewManager] or in one of the mutations: its kind is that record's
    kind, trimmed and in lower case, and "openai" when that was blank,
    whether or not it lies in the closed set; its prefix is not empty, nor
    blank, and is the default of its kind ("ollama/", "codex/", "chatgpt/",
    else "remote/") when none was given; its name is its prefix without the
    trailing "/" when none was given; its base URL is "https://chatgpt.com"
    when none was given and its kind is "chatgpt", and what was given
    otherwise; the credentials and the route-all flag are what was given.
    [Upsert] writes the normal form of its record and leaves the other
    entries as they are; [SetAll] stores the normal forms of its records,
    one for one in their order.  A provider whose kind is neither "ollama"
    nor "chatgpt", in the closed set or not, is called as an
    OpenAI-compatible one. *)
Theorem stored_providers_normalized
        (seed : list remote.Provider) (ops : list Mutation)
        (p : remote.Provider) (ps : list remote.Provider) :
  let m := stateAfter seed ops in
  Forall (fun q => exists raw,
              In raw (seed ++ flat_map submitted ops)%list
              /\ Spec.NormalFormOf raw q) m
  /\ Spec.NormalFormOf p (remote.normalizeProvider p)
  /\ In (remote.normalizeProvider p) (remote.Upsert m p)
  /\ (forall q, In q (remote.Upsert m p) ->
                q = remote.normalizeProvider p \/ In q m)
  /\ Forall2 Spec.NormalFormOf ps (remote.SetAll m ps)
  /\ (forall transport now q req model,
         remote.Kind q <> "ollama" -> remote.Kind q <> "chatgpt" ->
         remote.ChatCompletions transport now q req model
         = remote.chatOpenAICompatible transport q req model).
Proof.
  cbv zeta. split; [|split; [|split; [|split; [|split]]]].
  - unfold stateAfter, remote.NewManager.
    rewrite (proj1 (NewManager_mutations seed [])), <- fold_left_app.
    replace (seed ++ flat_map submitted ops)%list
      with ([] ++ flat_map submitted (map DoUpsert seed ++ ops))%list
      by (rewrite flat_map_app, (proj2 (NewManager_mutations seed []));
          reflexivity).
    apply mutations_from. constructor.
  - apply normalizeProvider_NormalFormOf.
  - apply replaceOrAppend_written.
  - apply replaceOrAppend_written.
  - apply SetAll_NormalFormOf.
  - intros transport now q req model Hollama Hchatgpt.
    unfold remote.ChatCompletions.
    apply String.eqb_neq in Hollama, Hchatgpt. now rewrite Hollama, Hchatgpt.
Qed.

End Normalized.

Lemma stored_providers_normalized_witness :
  stateAfter (U := identityTables) [] [DoUpsert bananaProvider] = bananaRegistry
  /\ Forall (fun q => exists raw,
                 In raw [bananaProvider]
                 /\ Spec.NormalFormOf (U := identityTables) raw q)
            bananaRegistry.
Proof.
  split; [reflexivity|].
  exact (proj1 (stored_providers_normalized (U := identityTables)
                  [] [DoUpsert bananaProvider] bananaProvider [])).
Defined.

(** C5, as stated, fails: a record of kind "banana" is stored with that
    kind, which is none of the closed set. *)
Lemma stored_kind_outside_closed_set :
  reachable (U := identityTables) bananaRegistry
  /\ bananaRegistry
     = [remote.mkProvider "fruit" "banana" "http://localhost:9000" "" "" ""
                          "remote/" false]
  /\ Exists (fun q => ~ In (remote.Kind q) Spec.closedKinds) bananaRegistry.
Proof.
  split; [|split].
  - apply reach_upsert, (reach_new (U := identityTables) []).
  - reflexivity.
  - apply Exists_cons_hd. simpl.
    intros [E|[E|[E|[E|[]]]]]; discriminate.
Qed.

(* ================================================================== *)
(** ** Provider registry: the redacted list *)

Lemma blank_SameBlankness (s t : string) :
  Spec.SameBlankness s t -> remote.blank s = remote.blank t.
Proof.
  unfold Spec.SameBlankness, remote.blank. intros [Hst Hts].
  destruct (String.eqb_spec (strings.TrimSpace s) "") as [Es|Ns];
    destruct (String.eqb_spec (strings.TrimSpace t) "") as [Et|Nt];
    try reflexivity; exfalso; auto.
Qed.

Lemma view_Redacts (p : remote.Provider) : Spec.Redacts p (remote.view p).
Proof.
  constructor; try reflexivity; simpl;
    rewrite negb_true_iff; apply blank_false.
Qed.

Lemma view_SameButSecretValues (p q : remote.Provider) :
  Spec.SameButSecretValues p q -> remote.view p = remote.view q.
Proof.
  intros [En Ek Eb Ep Er Ha Ht Hi]. unfold remote.view.
  rewrite En, Ek, Eb, Ep, Er.
  now rewrite (blank_SameBlankness _ _ Ha), (blank_SameBlankness _ _ Ht),
    (blank_SameBlankness _ _ Hi).
Qed.

Section Redaction.
Context `{U : strings.UnicodeTables}.

(** C6.  [Views] gives one view per provider, in order; a view shows the
    name, kind, base URL, prefix and route-all flag of its provider, and for
    each of the API key, the access token and the account id a flag that is
    true exactly when the stored field is not blank once trimmed; storing a
    record leaves its three secrets as submitted.  Two registry states that
    differ only in the values of the secrets, each secret being blank in
    both or in neither, have the same views: no secret value can be told
    from them. *)
Theorem Views_hide_secret_values (m m' : remote.Manager) :
  Forall2 Spec.SameButSecretValues m m' ->
  remote.Views m = remote.Views m'
  /\ Forall2 Spec.Redacts m (remote.Views m)
  /\ (forall raw,
        remote.APIKey (remote.normalizeProvider raw) = remote.APIKey raw
        /\ remote.AccessToken (remote.normalizeProvider raw) = remote.AccessToken raw
        /\ remote.AccountID (remote.normalizeProvider raw) = remote.AccountID raw).
Proof.
  intros Hsame. split; [|split].
  - unfold remote.Views.
    induction Hsame as [|p q m m' Hpq _ IH]; simpl; [reflexivity|].
    now rewrite (view_SameButSecretValues _ _ Hpq), IH.
  - unfold remote.Views. clear Hsame m'.
    induction m as [|p m IH]; simpl; constructor; auto using view_Redacts.
  - intros raw.
    destruct (Spec.nf_rest _ _ (normalizeProvider_NormalFormOf raw))
      as (Ha & Ht & Hi & _).
    auto.
Qed.

End Redaction.

Lemma Views_hide_secret_values_witness :
  Forall2 Spec.SameButSecretValues registryA registryB
  /\ remote.Views registryA = remote.Views registryB.
Proof.
  assert (Hsame : Forall2 Spec.SameButSecretValues registryA registryB).
  { repeat constructor; simpl; try discriminate. }
  split.
  - exact Hsame.
  - exact (proj1 (Views_hide_secret_values (U := identityTables)
                    registryA registryB Hsame)).
Defined.

(* ================================================================== *)
(** ** Completion orchestrator *)

Section Orchestrator.
Context `{U : strings.UnicodeTables}.

(** C3.  A request without messages fails with the error "messages must
    not be empty" and status 400; the response is the zero response and no
    collaborator is consulted: neither the registry, nor the rule store, nor
    an upstream.  The outcome is the same for every registry. *)
Theorem runCompletion_empty_messages
        (h : api.Handlers) (now : Z) (req : chat.CompletionRequest) :
  chat.Messages req = [] ->
  api.runCompletion h now req
  = ([], (chat.zeroCompletionResponse, 400%Z, Some api.ErrMessagesEmpty))
  /\ forall h' now',
       api.runCompletion h' now' req = api.runCompletion h now req.
Proof.
  intros Hempty. unfold api.runCompletion. rewrite Hempty. split; reflexivity.
Qed.

Lemma runCompletion_fallback
      (h : api.Handlers) (now : Z) (req : chat.CompletionRequest) :
  chat.Messages req <> [] ->
  snd (remote.Match (api.remoteManager h) (chat.Model req)) = false ->
  exists earlier lastMessage,
    chat.Messages req = (earlier ++ [lastMessage])%list
    /\ api.runCompletion h now req
       = ([api.RegistryMatch (chat.Model req);
           api.RuleMatch (chat.Content lastMessage)],
          (api.mockCompletion now req
             (if snd (rules.Match (api.rules_ h) (chat.Content lastMessage))
              then fst (rules.Match (api.rules_ h) (chat.Content lastMessage))
              else api.fallbackReply),
           200%Z, None)).
Proof.
  intros Hne Hnone.
  destruct (exists_last Hne) as (earlier & lastMessage & Hsplit).
  exists earlier, lastMessage. split; [assumption|].
  unfold api.runCompletion.
  destruct (chat.Messages req) as [|m ms] eqn:Hms; [contradiction|].
  destruct (remote.Match (api.remoteManager h) (chat.Model req))
    as [[provider model] found].
  simpl in Hnone. subst found.
  rewrite Hsplit, last_last.
  destruct (rules.Match (api.rules_ h) (chat.Content lastMessage)) as [reply [|]];
    reflexivity.
Qed.

(** C2.  A request with messages whose model matches no provider consults
    the registry and then the rule store, the latter with the content of the
    last message.  The reply is that of the rule the store returns, and the
    fixed text "Mock response: I received your message and no custom rule
    matched." when it returns none.  The call answers status 200, no error
    and a response with id "chatcmpl-mock" and one choice: index 0, finish
    reason "stop", role "assistant", the reply as content.  A server with no
    provider, asked "hello", replies "Hi! This is a mocked assistant
    response." by its first seed rule. *)
Theorem runCompletion_mock_reply
        (h : api.Handlers) (now : Z) (req : chat.CompletionRequest) :
  chat.Messages req <> [] ->
  snd (remote.Match (api.remoteManager h) (chat.Model req)) = false ->
  (exists earlier lastMessage reply resp,
      chat.Messages req = (earlier ++ [lastMessage])%list
      /\ reply = (if snd (rules.Match (api.rules_ h) (chat.Content lastMessage))
                  then fst (rules.Match (api.rules_ h) (chat.Content lastMessage))
                  else "Mock response: I received your message and no custom rule matched.")
      /\ api.runCompletion h now req
         = ([api.RegistryMatch (chat.Model req);
             api.RuleMatch (chat.Content lastMessage)],
            (resp, 200%Z, None))
      /\ chat.ID resp = "chatcmpl-mock"
      /\ chat.Choices resp
         = [chat.mkChoice 0 "stop" (chat.mkMessage "assistant" reply)])
  /\ (forall client model role,
        let '(_, (resp, status, err)) :=
          api.runCompletion (app.NewServer emptyEnv client) now
            (chat.mkCompletionRequest model [chat.mkMessage role "hello"] chat.FZero) in
        status = 200%Z /\ err = None
        /\ chat.Choices resp
           = [chat.mkChoice 0 "stop"
                (chat.mkMessage "assistant"
                   "Hi! This is a mocked assistant response.")]).
Proof.
  intros Hne Hnone. split.
  - destruct (runCompletion_fallback h now req Hne Hnone)
      as (earlier & lastMessage & Hsplit & Hrun).
    eexists earlier, lastMessage, _, _.
    split; [exact Hsplit|]. split; [reflexivity|].
    split; [exact Hrun|]. split; reflexivity.
  - intros client model role. cbn. repeat split.
Qed.

End Orchestrator.

Lemma runCompletion_empty_messages_witness :
  chat.Messages emptyRequest = []
  /\ api.runCompletion (U := identityTables)
       (app.NewServer (U := identityTables) emptyEnv offline) 1700000000 emptyRequest
     = ([], (chat.zeroCompletionResponse, 400%Z, Some api.ErrMessagesEmpty)).
Proof.
  split.
  - reflexivity.
  - exact (proj1 (runCompletion_empty_messages (U := identityTables)
                    (app.NewServer (U := identityTables) emptyEnv offline)
                    1700000000 emptyRequest eq_refl)).
Defined.

Lemma runCompletion_mock_reply_witness :
  chat.Messages helloRequest <> []
  /\ snd (remote.Match
            (api.remoteManager (app.NewServer (U := identityTables) emptyEnv offline))
            (chat.Model helloRequest)) = false
  /\ exists resp,
       api.runCompletion (U := identityTables)
         (app.NewServer (U := identityTables) emptyEnv offline) 1700000000 helloRequest
       = ([api.RegistryMatch "gpt-mock-1"; api.RuleMatch "hello"],
          (resp, 200%Z, None))
       /\ chat.Choices resp
          = [chat.mkChoice 0 "stop"
               (chat.mkMessage "assistant" "Hi! This is a mocked assistant response.")].
Proof.
  assert (Hne : chat.Messages helloRequest <> []) by discriminate.
  split; [exact Hne|]. split; [reflexivity|].
  destruct (proj1 (runCompletion_mock_reply (U := identityTables)
                     (app.NewServer (U := identityTables) emptyEnv offline)
                     1700000000 helloRequest Hne eq_refl))
    as (earlier & lastMessage & reply & resp & Hsplit & Hreply & Hrun & _ & Hchoices).
  exists resp.
  destruct earlier as [|e earlier]; simpl in Hsplit.
  - injection Hsplit as <-. simpl in Hreply. subst reply. split; assumption.
  - injection Hsplit as _ Hsplit. destruct earlier; discriminate.
Defined.

(* ================================================================== *)
(** ** Token estimate of the mock path *)

Lemma wrap_in_range (z : Z) :
  (GoInt.min_int <= z <= GoInt.max_int)%Z -> GoInt.wrap z = z.
Proof.
  unfold GoInt.min_int, GoInt.max_int, GoInt.wrap. intros Hz.
  rewrite Z.mod_small by lia. lia.
Qed.

Lemma len_nonneg (s : string) : (0 <= strings.len s)%Z.
Proof. unfold strings.len. lia. Qed.

Lemma len_append (s t : string) :
  strings.len (s ++ t) = (strings.len s + strings.len t)%Z.
Proof.
  unfold strings.len. induction s as [|a s IH]; simpl String.length.
  - reflexivity.
  - rewrite !Nat2Z.inj_succ. simpl in IH. lia.
Qed.

Lemma total_length (messages : list chat.Message) (acc : Z) :
  (0 <= acc)%Z ->
  (acc + strings.len (Spec.promptText messages) <= GoInt.max_int)%Z ->
  fold_left (fun total m => GoInt.add total (strings.len (chat.Content m)))
            messages acc
  = (acc + strings.len (Spec.promptText messages))%Z.
Proof.
  revert acc. induction messages as [|m ms IH]; intros acc Hacc Hfit;
    simpl fold_left; simpl Spec.promptText in *.
  - unfold strings.len; simpl. lia.
  - rewrite len_append in Hfit.
    pose proof (len_nonneg (chat.Content m)) as Hm.
    pose proof (len_nonneg (Spec.promptText ms)) as Hms.
    unfold GoInt.add at 2. rewrite wrap_in_range.
    + rewrite IH, len_append; lia.
    + unfold GoInt.min_int, GoInt.max_int in *. lia.
Qed.

Lemma estimateTokens_tokens (messages : list chat.Message) :
  Spec.fits (Spec.promptText messages) ->
  api.estimateTokens messages = Spec.tokens (strings.len (Spec.promptText messages)).
Proof.
  unfold Spec.fits. intros Hfit. unfold api.estimateTokens.
  rewrite total_length by (simpl; lia). simpl Z.add.
  pose proof (len_nonneg (Spec.promptText messages)) as Hn.
  set (n := strings.len (Spec.promptText messages)) in *.
  unfold Spec.tokens, GoInt.div.
  destruct (Z.eqb_spec n 0) as [E0|N0]; [reflexivity|].
  destruct (Z.ltb_spec n 4) as [Hlt|Hge].
  - replace ((1 <=? n) && (n <=? 3))%Z with true; [reflexivity|].
    symmetry. apply andb_true_iff. split; apply Z.leb_le; lia.
  - replace ((1 <=? n) && (n <=? 3))%Z with false.
    + apply Z.quot_div_nonneg; lia.
    + symmetry. apply andb_false_iff. right. apply Z.leb_gt. lia.
Qed.

Lemma tokens_bounds (n : Z) :
  (0 <= n <= GoInt.max_int)%Z -> (0 <= Spec.tokens n <= 2 ^ 61)%Z.
Proof.
  unfold GoInt.max_int, Spec.tokens. intros Hn.
  destruct (n =? 0)%Z; [lia|].
  destruct ((1 <=? n) && (n <=? 3))%Z; [lia|].
  split.
  - apply Z.div_pos; lia.
  - apply Z.div_le_upper_bound; lia.
Qed.

Lemma promptText_single (role reply : string) :
  Spec.promptText [chat.mkMessage role reply] = reply.
Proof.
  simpl. induction reply as [|a r IH]; simpl; [reflexivity|]. now rewrite IH.
Qed.

Section MockUsage.
Context `{U : strings.UnicodeTables}.

Lemma matchLowered_reply (lowered : string) (rs : list rules.Rule) :
  snd (rules.matchLowered lowered rs) = true ->
  Exists (fun rule => fst (rules.matchLowered lowered rs) = rules.Reply rule) rs.
Proof.
  induction rs as [|rule rs IH]; simpl; [discriminate|].
  destruct (strings.Contains lowered (strings.ToLower (rules.Contains rule))).
  - intros _. now apply Exists_cons_hd.
  - intros Hhit. apply Exists_cons_tl. auto.
Qed.

(** C9.  On the mock path the usage of the response is computed by
    [tokens]: 0 for no character, 1 for one to three, and the quarter of the
    count, rounded down, for more.  The prompt tokens are [tokens] of the
    length of the concatenation of the contents of all messages of the
    request, which is the sum of their lengths; the completion tokens are
    [tokens] of the length of the reply; the total is their sum.  The texts
    are Go strings: the concatenation of the contents and the replies of the
    rules have lengths that fit an [int]. *)
Theorem mock_usage_estimate
        (h : api.Handlers) (now : Z) (req : chat.CompletionRequest) :
  chat.Messages req <> [] ->
  snd (remote.Match (api.remoteManager h) (chat.Model req)) = false ->
  Spec.fits (Spec.promptText (chat.Messages req)) ->
  Forall (fun rule => Spec.fits (rules.Reply rule)) (api.rules_ h) ->
  exists trace resp reply,
    api.runCompletion h now req = (trace, (resp, 200%Z, None))
    /\ chat.Choices resp = [chat.mkChoice 0 "stop" (chat.mkMessage "assistant" reply)]
    /\ strings.len (Spec.promptText (chat.Messages req))
       = fold_right (fun m sum => (strings.len (chat.Content m) + sum)%Z) 0%Z
                    (chat.Messages req)
    /\ chat.PromptTokens (chat.RespUsage resp)
       = Spec.tokens (strings.len (Spec.promptText (chat.Messages req)))
    /\ chat.CompletionTokens (chat.RespUsage resp) = Spec.tokens (strings.len reply)
    /\ chat.TotalTokens (chat.RespUsage resp)
       = (chat.PromptTokens (chat.RespUsage resp)
          + chat.CompletionTokens (chat.RespUsage resp))%Z
    /\ Spec.tokens 0 = 0%Z
    /\ (forall n, (1 <= n <= 3)%Z -> Spec.tokens n = 1%Z)
    /\ (forall n, (4 <= n)%Z -> Spec.tokens n = (n / 4)%Z).
Proof.
  intros Hne Hnone Hprompt Hrules.
  destruct (runCompletion_fallback h now req Hne Hnone)
    as (earlier & lastMessage & _ & Hrun).
  set (content := chat.Content lastMessage) in *.
  set (reply := if snd (rules.Match (api.rules_ h) content)
                then fst (rules.Match (api.rules_ h) content)
                else api.fallbackReply) in *.
  assert (Hreply : Spec.fits reply).
  { subst reply. destruct (snd (rules.Match (api.rules_ h) content)) eqn:Hhit.
    - apply matchLowered_reply in Hhit.
      apply Exists_exists in Hhit as (rule & Hin & E).
      unfold rules.Match. rewrite E.
      now apply (proj1 (Forall_forall _ _) Hrules).
    - unfold Spec.fits, GoInt.max_int. vm_compute. discriminate. }
  assert (Hp : api.estimateTokens (chat.Messages req)
               = Spec.tokens (strings.len (Spec.promptText (chat.Messages req))))
    by now apply estimateTokens_tokens.
  assert (Hc : api.estimateTokens [chat.mkMessage "assistant" reply]
               = Spec.tokens (strings.len reply)).
  { rewrite estimateTokens_tokens; rewrite promptText_single; auto. }
  eexists _, _, reply. split; [exact Hrun|].
  unfold api.mockCompletion; simpl.
  split; [reflexivity|]. split.
  { clear. induction (chat.Messages req) as [|m ms IH]; simpl.
    - reflexivity.
    - now rewrite len_append, IH. }
  split; [exact Hp|]. split; [exact Hc|]. split.
  { rewrite Hp, Hc. unfold GoInt.add. apply wrap_in_range.
    unfold Spec.fits in *.
    pose proof (tokens_bounds _ (conj (len_nonneg _) Hprompt)).
    pose proof (tokens_bounds _ (conj (len_nonneg _) Hreply)).
    unfold GoInt.min_int, GoInt.max_int. lia. }
  split; [reflexivity|]. split.
  - intros n Hn. unfold Spec.tokens.
    destruct (Z.eqb_spec n 0); [lia|].
    replace ((1 <=? n) && (n <=? 3))%Z with true; [reflexivity|].
    symmetry. apply andb_true_iff. split; apply Z.leb_le; lia.
  - intros n Hn. unfold Spec.tokens.
    destruct (Z.eqb_spec n 0); [lia|].
    replace ((1 <=? n) && (n <=? 3))%Z with false; [reflexivity|].
    symmetry. apply andb_false_iff. right. apply Z.leb_gt. lia.
Qed.

End MockUsage.

Lemma mock_usage_estimate_witness :
  chat.Messages helloRequest <> []
  /\ snd (remote.Match
            (api.remoteManager (app.NewServer (U := identityTables) emptyEnv offline))
            (chat.Model helloRequest)) = false
  /\ Spec.fits (Spec.promptText (chat.Messages helloRequest))
  /\ Forall (fun rule => Spec.fits (rules.Reply rule))
            (api.rules_ (app.NewServer (U := identityTables) emptyEnv offline))
  /\ exists trace resp,
       api.runCompletion (U := identityTables)
         (app.NewServer (U := identityTables) emptyEnv offline) 1700000000 helloRequest
       = (trace, (resp, 200%Z, None))
       /\ chat.PromptTokens (chat.RespUsage resp) = Spec.tokens 5
       /\ chat.TotalTokens (chat.RespUsage resp)
          = (chat.PromptTokens (chat.RespUsage resp)
             + chat.CompletionTokens (chat.RespUsage resp))%Z.
Proof.
  assert (Hne : chat.Messages helloRequest <> []) by discriminate.
  assert (Hprompt : Spec.fits (Spec.promptText (chat.Messages helloRequest))).
  { unfold Spec.fits. vm_compute. discriminate. }
  assert (Hrules : Forall (fun rule => Spec.fits (rules.Reply rule))
                          (api.rules_ (app.NewServer (U := identityTables) emptyEnv offline))).
  { repeat constructor; unfold Spec.fits; vm_compute; discriminate. }
  split; [exact Hne|]. split; [reflexivity|].
  split; [exact Hprompt|]. split; [exact Hrules|].
  destruct (mock_usage_estimate (U := identityTables)
              (app.NewServer (U := identityTables) emptyEnv offline)
              1700000000 helloRequest Hne eq_refl Hprompt Hrules)
    as (trace & resp & reply & Hrun & _ & _ & Hp & _ & Ht & _).
  exists trace, resp. split; [exact Hrun|]. split; [exact Hp|exact Ht].
Defined.

(* ================================================================== *)
(** ** ChatGPT translator: the text of a reply *)

Lemma findField_output_text (k : string) :
  json.findField [("output_text", json.decString)] k
  = if Spec.isOutputTextKey k then Some json.decString else None.
Proof.
  unfold json.findField, Spec.isOutputTextKey. cbn [find fst snd].
  change (json.foldName "output_text") with "OUTPUT_TEXT".
  destruct (String.eqb_spec "output_text" k) as [<-|Hne].
  - reflexivity.
  - rewrite (String.eqb_sym "OUTPUT_TEXT").
    destruct (String.eqb (json.foldName k) "OUTPUT_TEXT"); reflexivity.
Qed.

Lemma decString_candidate (v : json.value) (cur : string) :
  json.decString v cur = (Spec.lastString [v] cur, Spec.stringOrNull v).
Proof. destruct v; reflexivity. Qed.

Lemma decMembers_output_text (m : list (string * json.value)) (cur : string) (ok : bool) :
  json.decMembers [("output_text", json.decString)] m cur ok
  = (Spec.lastString (Spec.outputTextCandidates m) cur,
     ok && forallb Spec.stringOrNull (Spec.outputTextCandidates m)).
Proof.
  unfold Spec.outputTextCandidates.
  revert cur ok. induction m as [|[k v] m IH]; intros cur ok.
  - simpl. now rewrite andb_true_r.
  - cbn [json.decMembers filter fst]. rewrite findField_output_text.
    destruct (Spec.isOutputTextKey k).
    + rewrite decString_candidate, IH. cbn [map snd forallb].
      rewrite andb_assoc. destruct v; reflexivity.
    + apply IH.
Qed.

(** The three layers of [extractChatGPTOutputText] on an object. *)
Lemma extract_object (m : list (string * json.value)) :
  remote.extractChatGPTOutputText (Some (json.JObject m))
  = match Spec.typedOutputText m with
    | Some s => if remote.blank s then Spec.untypedOutputText m else s
    | None => Spec.untypedOutputText m
    end.
Proof.
  unfold remote.extractChatGPTOutputText, json.Unmarshal, remote.decSimple,
    json.decStruct, Spec.typedOutputText.
  rewrite decMembers_output_text. cbn [andb json.UnmarshalMap].
  destruct (forallb Spec.stringOrNull (Spec.outputTextCandidates m)); cbn [andb].
  - destruct (remote.blank (Spec.lastString (Spec.outputTextCandidates m) ""));
      reflexivity.
  - reflexivity.
Qed.

Lemma lastString_app (vs ws : list json.value) (cur : string) :
  Spec.lastString (vs ++ ws) cur = Spec.lastString ws (Spec.lastString vs cur).
Proof.
  revert cur. induction vs as [|v vs IH]; intros cur; simpl.
  - reflexivity.
  - destruct v; apply IH.
Qed.

Lemma candidates_app (m m' : list (string * json.value)) :
  Spec.outputTextCandidates (m ++ m')
  = (Spec.outputTextCandidates m ++ Spec.outputTextCandidates m')%list.
Proof.
  unfold Spec.outputTextCandidates. now rewrite filter_app, map_app.
Qed.

Lemma candidates_none (m : list (string * json.value)) :
  Forall (fun kv => Spec.isOutputTextKey (fst kv) = false) m ->
  Spec.outputTextCandidates m = [].
Proof.
  unfold Spec.outputTextCandidates.
  induction 1 as [|kv m Hkv _ IH]; simpl; [reflexivity|].
  now rewrite Hkv.
Qed.

(** X1.  The key of the first layer is matched up to letter case: when
    the last member whose key is [output_text] up to case holds a string
    that is not blank, and the members before it with such a key hold
    strings or [null], that string is the text, whatever the key's case and
    whatever else the object holds. *)
Theorem extractChatGPTOutputText_key_case
        (before after : list (string * json.value)) (k s : string) :
  Spec.isOutputTextKey k = true ->
  forallb Spec.stringOrNull (Spec.outputTextCandidates before) = true ->
  Forall (fun kv => Spec.isOutputTextKey (fst kv) = false) after ->
  remote.blank s = false ->
  remote.extractChatGPTOutputText
    (Some (json.JObject (before ++ (k, json.JString s) :: after)))
  = s.
Proof.
  intros Hk Hbefore Hafter Hs.
  rewrite extract_object. unfold Spec.typedOutputText.
  rewrite candidates_app.
  change ((k, json.JString s) :: after)
    with ([(k, json.JString s)] ++ after)%list.
  rewrite candidates_app, (candidates_none after Hafter), app_nil_r.
  unfold Spec.outputTextCandidates at 2 4. cbn [filter fst map snd]. rewrite Hk.
  cbn [map snd]. rewrite forallb_app, Hbefore. cbn [forallb Spec.stringOrNull andb].
  rewrite lastString_app. cbn [Spec.lastString]. now rewrite Hs.
Qed.

Lemma extractChatGPTOutputText_key_case_witness :
  Spec.isOutputTextKey "OUTPUT_TEXT" = true
  /\ remote.blank "hi" = false
  /\ remote.extractChatGPTOutputText (Some (json.JObject upperCaseReply)) = "hi".
Proof.
  split; [reflexivity|]. split; [reflexivity|].
  apply (extractChatGPTOutputText_key_case
           [("model", json.JString "gpt-5")] [] "OUTPUT_TEXT" "hi");
    [reflexivity|reflexivity|constructor|reflexivity].
Defined.

Lemma get_last (m : list (string * json.value)) (k : string) (x : json.value) :
  json.get m k = Some x ->
  exists init,
    map snd (filter (fun kv => String.eqb (fst kv) k) m) = (init ++ [x])%list.
Proof.
  induction m as [|[k' v] m IH]; simpl; [discriminate|].
  destruct (json.get m k) as [y|] eqn:Hget.
  - intros E. injection E as ->.
    destruct (IH eq_refl) as [init Hinit].
    destruct (String.eqb k' k); simpl; rewrite Hinit.
    + now exists (v :: init).
    + now exists init.
  - destruct (String.eqb k' k) eqn:Hk; [|discriminate].
    intros E. injection E as ->. exists [].
    assert (Hnone : filter (fun kv => String.eqb (fst kv) k) m = []).
    { clear IH. induction m as [|[k'' w] m IHm]; simpl in *; [reflexivity|].
      destruct (json.get m k); [discriminate|].
      destruct (String.eqb k'' k); [discriminate|]. now apply IHm. }
    now rewrite Hnone.
Qed.

Lemma candidates_exact (m : list (string * json.value)) :
  (forall kv, In kv m -> Spec.isOutputTextKey (fst kv) = true ->
              fst kv = "output_text") ->
  Spec.outputTextCandidates m
  = map snd (filter (fun kv => String.eqb (fst kv) "output_text") m).
Proof.
  intros Hexact. unfold Spec.outputTextCandidates. f_equal.
  apply filter_ext_in. intros kv Hin.
  destruct (String.eqb_spec (fst kv) "output_text") as [E|Hne].
  - rewrite E. reflexivity.
  - destruct (Spec.isOutputTextKey (fst kv)) eqn:Hk; [|reflexivity].
    now destruct Hne; apply Hexact.
Qed.


Lemma get_filter (P : string * json.value -> bool)
      (m : list (string * json.value)) (k : string) :
  (forall kv, fst kv = k -> P kv = true) ->
  json.get (filter P m) k = json.get m k.
Proof.
  intros HP. induction m as [|[k' w] m IH]; simpl; [reflexivity|].
  destruct (P (k', w)) eqn:Hkeep; simpl.
  - now rewrite IH.
  - rewrite IH. destruct (json.get m k); [reflexivity|].
    destruct (String.eqb_spec k' k) as [E|_]; [|reflexivity].
    rewrite (HP (k', w) E) in Hkeep. discriminate.
Qed.

Lemma candidates_withoutOutput (m : list (string * json.value)) :
  Spec.outputTextCandidates (Spec.withoutOutput m) = Spec.outputTextCandidates m.
Proof.
  unfold Spec.outputTextCandidates, Spec.withoutOutput. f_equal.
  induction m as [|[k w] m IH]; simpl; [reflexivity|].
  destruct (String.eqb_spec k "output") as [->|_]; simpl.
  - exact IH.
  - now rewrite IH.
Qed.






(** C10 (as amended).  When the member under the exact key
    [output_text] is a string, blank or not, the [output] array is never
    walked: the text is the same whatever the object holds under [output],
    and it is that string, unless the struct decoder of the first layer has
    read a string that is not blank, which then is the text.  That happens
    only through a member whose key differs from [output_text] in letter
    case: when every key that is [output_text] up to case is [output_text]
    itself, the text is the string of the member, a blank one included. *)
Theorem generic_output_text_short_circuits
        (m : list (string * json.value)) (v : string) :
  json.get m "output_text" = Some (json.JString v) ->
  remote.extractChatGPTOutputText (Some (json.JObject m))
  = match Spec.structLayer m with
    | Some s => s
    | None => v
    end
  /\ (Spec.exactKeys m ->
      remote.extractChatGPTOutputText (Some (json.JObject m)) = v)
  /\ (forall m',
         Spec.withoutOutput m' = Spec.withoutOutput m ->
         remote.extractChatGPTOutputText (Some (json.JObject m'))
         = remote.extractChatGPTOutputText (Some (json.JObject m))).
Proof.
  intros Hget.
  assert (Huntyped : forall members,
             json.get members "output_text" = Some (json.JString v) ->
             Spec.untypedOutputText members = v).
  { intros members E. unfold Spec.untypedOutputText. now rewrite E. }
  split; [|split].
  - rewrite extract_object, (Huntyped m Hget). unfold Spec.structLayer.
    destruct (Spec.typedOutputText m) as [s|]; [|reflexivity].
    destruct (remote.blank s); reflexivity.
  - intros Hexact. rewrite extract_object, (Huntyped m Hget).
    unfold Spec.typedOutputText. rewrite (candidates_exact m Hexact).
    destruct (get_last m "output_text" _ Hget) as [init ->].
    rewrite lastString_app. cbn [Spec.lastString].
    destruct (forallb Spec.stringOrNull (init ++ [json.JString v])); [|reflexivity].
    destruct (remote.blank v); reflexivity.
  - intros m' Hsame.
    assert (Hget' : json.get m' "output_text" = Some (json.JString v)).
    { rewrite <- Hget. unfold Spec.withoutOutput in Hsame.
      rewrite <- (get_filter (fun kv => negb (String.eqb (fst kv) "output")) m'),
        <- (get_filter (fun kv => negb (String.eqb (fst kv) "output")) m).
      - now rewrite Hsame.
      - intros kv ->. reflexivity.
      - intros kv ->. reflexivity. }
    rewrite !extract_object, (Huntyped m Hget), (Huntyped m' Hget').
    unfold Spec.typedOutputText.
    rewrite <- (candidates_withoutOutput m'), Hsame, candidates_withoutOutput.
    reflexivity.
Qed.

Lemma generic_output_text_short_circuits_witness :
  json.get emptyTextReply "output_text" = Some (json.JString "")
  /\ remote.extractChatGPTOutputText (Some (json.JObject emptyTextReply)) = "".
Proof.
  split; [reflexivity|].
  apply (proj1 (proj2 (generic_output_text_short_circuits emptyTextReply "" eq_refl))).
  intros kv [<-|[<-|[]]] Hk; [reflexivity|discriminate Hk].
Defined.

(** C10, as stated, fails: in a reply whose member [output_text] is the
    empty string, followed by a member [OUTPUT_TEXT], the struct decoder
    reads the second into the same field, and the text is "hi", not the
    blank string. *)
Lemma blank_output_text_shadowed :
  json.get shadowedReply "output_text" = Some (json.JString "")
  /\ remote.blank "" = true
  /\ remote.extractChatGPTOutputText (Some (json.JObject shadowedReply)) = "hi".
Proof. repeat split. Qed.

(* ================================================================== *)
(** ** Upstream client *)


Lemma joinURL_defined (baseURL suffix suffix' : string) :
  remote.joinURL baseURL suffix <> None ->
  remote.joinURL baseURL suffix'
  = Some (strings.TrimRightSlash (strings.TrimSpace baseURL) ++ suffix').
Proof.
  unfold remote.joinURL.
  destruct (String.eqb (strings.TrimRightSlash (strings.TrimSpace baseURL)) "");
    [now intros []|reflexivity].
Qed.


(** What [ChatCompletions] returns when the HTTP client fails or answers
    a status of 400 or more: the failure or the answer, untouched, for every
    kind of provider. *)
Lemma ChatCompletions_failure
      (transport : remote.Request -> remote.result) (now : Z)
      (provider : remote.Provider) (req : chat.CompletionRequest) (model : string)
      (answer : remote.result) :
  remote.joinURL (remote.BaseURL provider) "" <> None ->
  (forall r, transport r = answer) ->
  match answer with
  | remote.Err _ => True
  | remote.Ok _ status => (400 <= status)%Z
  end ->
  remote.ChatCompletions transport now provider req model = answer.
Proof.
  intros Hurl Hanswer Hfail.
  unfold remote.ChatCompletions, remote.chatOllama, remote.chatChatGPT,
    remote.chatOpenAICompatible, remote.postJSON.
  rewrite (joinURL_defined _ _ "/api/chat" Hurl),
    (joinURL_defined _ _ "/backend-api/codex/responses" Hurl),
    (joinURL_defined _ _ "/v1/chat/completions" Hurl).
  rewrite !Hanswer.
  destruct answer as [body status|e].
  - apply Z.geb_le in Hfail. rewrite Hfail.
    destruct (String.eqb (remote.Kind provider) "ollama"); [reflexivity|].
    destruct (String.eqb (remote.Kind provider) "chatgpt"); reflexivity.
  - destruct (String.eqb (remote.Kind provider) "ollama"); [reflexivity|].
    destruct (String.eqb (remote.Kind provider) "chatgpt"); reflexivity.
Qed.

Section Failures.
Context `{U : strings.UnicodeTables}.


(** X3.  A failure of the upstream is reported as it is and never
    replaced by a mock reply.  When a provider matches and the HTTP client
    fails, the call answers 502 with that failure as the cause; when the
    upstream answers a status of 400 or more, the call answers that very
    status; in both cases the response is the zero response and the rule
    store is not consulted.  This holds for every kind of provider. *)
Theorem upstream_failure_reported
        (h : api.Handlers) (now : Z) (req : chat.CompletionRequest)
        (provider : remote.Provider) (model : string) (answer : remote.result) :
  chat.Messages req <> [] ->
  remote.Match (api.remoteManager h) (chat.Model req) = (provider, model, true) ->
  remote.joinURL (remote.BaseURL provider) "" <> None ->
  (forall r, api.remoteClient h r = answer) ->
  match answer with
  | remote.Err cause =>
      api.runCompletion h now req
      = ([api.RegistryMatch (chat.Model req); api.RemoteCall provider model],
         (chat.zeroCompletionResponse, 502%Z,
          Some (api.ErrRemoteRequestFailed cause)))
  | remote.Ok _ status =>
      (400 <= status)%Z ->
      api.runCompletion h now req
      = ([api.RegistryMatch (chat.Model req); api.RemoteCall provider model],
         (chat.zeroCompletionResponse, status, Some (api.ErrRemoteStatus status)))
  end.
Proof.
  intros Hne Hmatch Hurl Hanswer.
  destruct answer as [body status|cause].
  - intros Hstatus. unfold api.runCompletion.
    destruct (chat.Messages req) as [|m0 ms]; [contradiction|].
    rewrite Hmatch.
    rewrite (ChatCompletions_failure _ now provider _ model _ Hurl Hanswer Hstatus).
    apply Z.geb_le in Hstatus. now rewrite Hstatus.
  - unfold api.runCompletion.
    destruct (chat.Messages req) as [|m0 ms]; [contradiction|].
    rewrite Hmatch.
    now rewrite (ChatCompletions_failure _ now provider _ model _ Hurl Hanswer I).
Qed.

(** X4.  Every call ends in one of two ways: without error, with status
    200; or with an error, the zero response and a status of 400 or more.
    It consults nothing (no messages), or the registry and then one of the
    upstream and the rule store, never both. *)
Theorem runCompletion_outcomes
        (h : api.Handlers) (now : Z) (req : chat.CompletionRequest) :
  let '(trace, (resp, status, err)) := api.runCompletion h now req in
  (err = None /\ status = 200%Z
   \/ err <> None /\ resp = chat.zeroCompletionResponse /\ (400 <= status)%Z)
  /\ (trace = []
      \/ (exists provider model,
             trace = [api.RegistryMatch (chat.Model req);
                      api.RemoteCall provider model])
      \/ (exists content,
             trace = [api.RegistryMatch (chat.Model req); api.RuleMatch content])).
Proof.
  unfold api.runCompletion.
  destruct (chat.Messages req) as [|m0 ms].
  - split; [right|left; reflexivity].
    split; [discriminate|]. split; [reflexivity|]. discriminate.
  - destruct (remote.Match (api.remoteManager h) (chat.Model req))
      as [[provider model] [|]].
    + destruct (remote.ChatCompletions (api.remoteClient h) now provider req model)
        as [body status|e].
      * destruct (Z.geb_spec status 400) as [Hge|Hlt].
        -- split; [right|right; left; eauto].
           split; [discriminate|]. split; [reflexivity|lia].
        -- destruct (json.Unmarshal chat.decCompletionResponse body
                       chat.zeroCompletionResponse) as [out [|]]; cbn [negb].
           ++ split; [left; split; reflexivity|right; left; eauto].
           ++ split; [right|right; left; eauto].
              split; [discriminate|]. split; [reflexivity|]. discriminate.
      * split; [right|right; left; eauto].
        split; [discriminate|]. split; [reflexivity|]. discriminate.
    + destruct (rules.Match (api.rules_ h)
                  (chat.Content (last (m0 :: ms) chat.zeroMessage))) as [reply ok].
      split; [left; split; reflexivity|right; right; eauto].
Qed.

End Failures.


Lemma upstream_failure_reported_witness :
  chat.Messages codexRequest <> []
  /\ remote.Match (api.remoteManager (codexServer unavailable)) (chat.Model codexRequest)
     = (codexProvider, "gpt-5", true)
  /\ remote.joinURL (remote.BaseURL codexProvider) "" <> None
  /\ api.runCompletion (U := identityTables) (codexServer unavailable)
       1700000000 codexRequest
     = ([api.RegistryMatch "codex/gpt-5"; api.RemoteCall codexProvider "gpt-5"],
        (chat.zeroCompletionResponse, 503%Z, Some (api.ErrRemoteStatus 503))).
Proof.
  assert (Hne : chat.Messages codexRequest <> []) by discriminate.
  assert (Hurl : remote.joinURL (remote.BaseURL codexProvider) "" <> None)
    by discriminate.
  assert (Hge : (400 <= 503)%Z) by discriminate.
  split; [exact Hne|]. split; [reflexivity|]. split; [exact Hurl|].
  exact (upstream_failure_reported (U := identityTables)
           (codexServer unavailable) 1700000000 codexRequest codexProvider "gpt-5"
           (remote.Ok None 503) Hne eq_refl Hurl (fun _ => eq_refl) Hge).
Defined.

(* ================================================================== *)
(** ** JSON form of the canonical types *)

Lemma validUTF8_fixed (s : string) :
  json.validUTF8 s = true -> json.toValidUTF8 s = s.
Proof. unfold json.validUTF8. apply String.eqb_eq. Qed.

Lemma field_decInt {T} (get : T -> Z) (set : Z -> T -> T) (z : Z) (t : T) :
  GoInt.in_range z = true ->
  json.field get set json.decInt (json.encInt z) t = (set z t, true).
Proof. intros Hz. unfold json.field, json.decInt, json.encInt. now rewrite Hz. Qed.

Lemma field_decString {T} (get : T -> string) (set : string -> T -> T)
      (s : string) (t : T) :
  json.validUTF8 s = true ->
  json.field get set json.decString (json.encString s) t = (set s t, true).
Proof.
  intros Hs. unfold json.field, json.decString, json.encString.
  now rewrite (validUTF8_fixed s Hs).
Qed.

Lemma decMessage_encMessage (m cur : chat.Message) :
  validMessage m = true ->
  chat.decMessage (chat.encMessage m) cur = (m, true).
Proof.
  unfold validMessage. intros Hm. apply andb_true_iff in Hm as [Hr Hc].
  destruct m as [role content]. cbn [chat.Role chat.Content] in *.
  unfold chat.decMessage, chat.encMessage, json.decStruct.
  cbn [json.decMembers json.findField find fst snd String.eqb Ascii.eqb Bool.eqb andb
       chat.Role chat.Content].
  rewrite (field_decString _ _ _ _ Hr). cbn [chat.Role chat.Content andb].
  rewrite (field_decString _ _ _ _ Hc). reflexivity.
Qed.

Lemma field_dec {T A} (get : T -> A) (set : A -> T -> T) (d : json.decoder A)
      (v : json.value) (a : A) (t : T) :
  (forall cur, d v cur = (a, true)) ->
  json.field get set d v t = (set a t, true).
Proof. intros Hd. unfold json.field. now rewrite Hd. Qed.

(** Decoding the members a struct was written as, key by key. *)
Ltac dec_members :=
  unfold json.decStruct;
  cbn [json.decMembers json.findField find fst snd String.eqb Ascii.eqb Bool.eqb
       andb].

Lemma decChoice_encChoice (c cur : chat.Choice) :
  validChoice c = true ->
  chat.decChoice (chat.encChoice c) cur = (c, true).
Proof.
  unfold validChoice. intros Hc.
  apply andb_true_iff in Hc as [Hc Hm]. apply andb_true_iff in Hc as [Hi Hf].
  destruct c as [index reason message].
  cbn [chat.Index chat.FinishReason chat.ChoiceMessage] in *.
  unfold chat.decChoice, chat.encChoice. dec_members.
  rewrite (field_decInt _ _ _ _ Hi).
  cbn [chat.Index chat.FinishReason chat.ChoiceMessage andb].
  rewrite (field_decString _ _ _ _ Hf).
  cbn [chat.Index chat.FinishReason chat.ChoiceMessage andb].
  rewrite (field_dec _ _ chat.decMessage _ message);
    [reflexivity | intros; now apply decMessage_encMessage].
Qed.

Lemma decUsage_encUsage (u cur : chat.Usage) :
  validUsage u = true ->
  chat.decUsage (chat.encUsage u) cur = (u, true).
Proof.
  unfold validUsage. intros Hu.
  apply andb_true_iff in Hu as [Hu Ht]. apply andb_true_iff in Hu as [Hp Hc].
  destruct u as [p c t].
  cbn [chat.PromptTokens chat.CompletionTokens chat.TotalTokens] in *.
  unfold chat.decUsage, chat.encUsage. dec_members.
  rewrite (field_decInt _ _ _ _ Hp).
  cbn [chat.PromptTokens chat.CompletionTokens chat.TotalTokens andb].
  rewrite (field_decInt _ _ _ _ Hc).
  cbn [chat.PromptTokens chat.CompletionTokens chat.TotalTokens andb].
  rewrite (field_decInt _ _ _ _ Ht). reflexivity.
Qed.

Lemma decSlice_encChoices (cs cur : list chat.Choice) :
  forallb validChoice cs = true ->
  json.decSlice chat.zeroChoice chat.decChoice
                (json.JArray (map chat.encChoice cs)) cur
  = (cs, true).
Proof.
  intros Hcs. unfold json.decSlice. f_equal.
  - induction cs as [|c cs IH]; cbn [map forallb] in *; [reflexivity|].
    apply andb_true_iff in Hcs as [Hc Hcs].
    now rewrite (decChoice_encChoice c _ Hc), IH.
  - induction cs as [|c cs IH]; cbn [map forallb] in *; [reflexivity|].
    apply andb_true_iff in Hcs as [Hc Hcs].
    now rewrite (decChoice_encChoice c _ Hc), IH.
Qed.

Lemma decode_encode_response (r : chat.CompletionResponse) :
  validResponse r = true ->
  json.Unmarshal chat.decCompletionResponse
                 (Some (chat.encCompletionResponse r)) chat.zeroCompletionResponse
  = (r, true).
Proof.
  unfold validResponse. intros Hr.
  apply andb_true_iff in Hr as [Hr Husage]. apply andb_true_iff in Hr as [Hr Hchoices].
  apply andb_true_iff in Hr as [Hr Hmodel]. apply andb_true_iff in Hr as [Hr Hcreated].
  apply andb_true_iff in Hr as [Hid Hobject].
  destruct r as [id object created model choices usage].
  cbn [chat.ID chat.Object chat.Created chat.RespModel chat.Choices chat.RespUsage] in *.
  unfold json.Unmarshal, chat.decCompletionResponse, chat.encCompletionResponse.
  dec_members.
  rewrite (field_decString _ _ _ _ Hid).
  cbn [chat.ID chat.Object chat.Created chat.RespModel chat.Choices chat.RespUsage
       chat.zeroCompletionResponse andb].
  rewrite (field_decString _ _ _ _ Hobject).
  cbn [chat.ID chat.Object chat.Created chat.RespModel chat.Choices chat.RespUsage andb].
  rewrite (field_decInt _ _ _ _ Hcreated).
  cbn [chat.ID chat.Object chat.Created chat.RespModel chat.Choices chat.RespUsage andb].
  rewrite (field_decString _ _ _ _ Hmodel).
  cbn [chat.ID chat.Object chat.Created chat.RespModel chat.Choices chat.RespUsage andb].
  rewrite (field_dec _ _ (json.decSlice chat.zeroChoice chat.decChoice) _ choices);
    [|intros; now apply decSlice_encChoices].
  cbn [chat.ID chat.Object chat.Created chat.RespModel chat.Choices chat.RespUsage andb].
  rewrite (field_dec _ _ chat.decUsage _ usage);
    [reflexivity | intros; now apply decUsage_encUsage].
Qed.

(** X5.  A canonical response whose strings are valid UTF-8 and whose
    integers fit an [int] is read back unchanged and without error from the
    JSON it is written as: what a translator marshals is what the
    orchestrator unmarshals. *)
Theorem CompletionResponse_round_trip (r : chat.CompletionResponse) :
  validResponse r = true ->
  json.Unmarshal chat.decCompletionResponse
                 (Some (chat.encCompletionResponse r)) chat.zeroCompletionResponse
  = (r, true).
Proof. apply decode_encode_response. Qed.

Lemma CompletionResponse_round_trip_witness :
  validResponse (api.mockCompletion 1700000000 helloRequest "Hi!") = true
  /\ json.Unmarshal chat.decCompletionResponse
       (Some (chat.encCompletionResponse
                (api.mockCompletion 1700000000 helloRequest "Hi!")))
       chat.zeroCompletionResponse
     = (api.mockCompletion 1700000000 helloRequest "Hi!", true).
Proof.
  split; [reflexivity|].
  apply (CompletionResponse_round_trip
           (api.mockCompletion 1700000000 helloRequest "Hi!")).
  reflexivity.
Defined.

(* ================================================================== *)
(** ** Ollama translator *)

Lemma wrap_range (z : Z) : GoInt.in_range (GoInt.wrap z) = true.
Proof.
  unfold GoInt.in_range, GoInt.wrap, GoInt.min_int, GoInt.max_int.
  pose proof (Z.mod_pos_bound (z + 2 ^ 63) (2 ^ 64) ltac:(lia)) as Hmod.
  apply andb_true_iff. split; apply Z.leb_le; lia.
Qed.

Lemma findField_In {T} (fields : list (string * json.decoder T)) (k : string)
      (d : json.decoder T) :
  json.findField fields k = Some d -> exists name, In (name, d) fields.
Proof.
  unfold json.findField.
  destruct (find (fun f => String.eqb (fst f) k) fields) as [[n d']|] eqn:Hexact.
  - intros E. injection E as <-. exists n. now apply find_some in Hexact.
  - destruct (find (fun f => String.eqb (json.foldName (fst f)) (json.foldName k))
                   fields) as [[n d']|] eqn:Hfold; [|discriminate].
    intros E. injection E as <-. exists n. now apply find_some in Hfold.
Qed.

(** A property of a struct that every field decoder keeps is kept by
    decoding an object into it. *)
Lemma decMembers_invariant {T} (P : T -> Prop)
      (fields : list (string * json.decoder T)) :
  (forall name d, In (name, d) fields -> forall v t, P t -> P (fst (d v t))) ->
  forall m cur ok, P cur -> P (fst (json.decMembers fields m cur ok)).
Proof.
  intros Hfields m. induction m as [|[k v] m IH]; intros cur ok Hcur; simpl.
  - exact Hcur.
  - destruct (json.findField fields k) as [d|] eqn:Hd.
    + destruct (findField_In _ _ _ Hd) as [name Hin].
      specialize (Hfields name d Hin v cur Hcur).
      destruct (d v cur) as [cur' ok']. now apply IH.
    + now apply IH.
Qed.

Lemma decInt_range (v : json.value) (cur : Z) :
  GoInt.in_range cur = true -> GoInt.in_range (fst (json.decInt v cur)) = true.
Proof.
  intros Hcur. destruct v as [| |[z|lit]| | |]; simpl; try assumption.
  destruct (GoInt.in_range z) eqn:Hz; assumption.
Qed.

Lemma decStruct_invariant {T} (P : T -> Prop)
      (fields : list (string * json.decoder T)) :
  (forall name d, In (name, d) fields -> forall v t, P t -> P (fst (d v t))) ->
  forall v cur, P cur -> P (fst (json.decStruct fields v cur)).
Proof.
  intros Hfields v cur Hcur. destruct v; simpl; try exact Hcur.
  now apply decMembers_invariant.
Qed.

Lemma decOllamaResp_counts (body : json.body) (o : remote.ollamaResp) (ok : bool) :
  json.Unmarshal remote.decOllamaResp body remote.zeroOllamaResp = (o, ok) ->
  Spec.countsFit o.
Proof.
  assert (Hzero : Spec.countsFit remote.zeroOllamaResp) by (split; reflexivity).
  destruct body as [v|]; simpl.
  - intros E.
    change o with (fst (o, ok)). rewrite <- E. unfold remote.decOllamaResp.
    apply (decStruct_invariant Spec.countsFit); [|exact Hzero].
    intros name d Hin w t [Hp He].
    destruct Hin as [E'|[E'|[E'|[E'|[]]]]]; injection E' as _ <-;
      unfold json.field.
    + destruct (json.decString w (remote.OModel t)); split; assumption.
    + destruct (chat.decMessage w (remote.OMessage t)); split; assumption.
    + pose proof (decInt_range w _ Hp) as Hr.
      destruct (json.decInt w (remote.PromptEvalCount t)); split; assumption.
    + pose proof (decInt_range w _ He) as Hr.
      destruct (json.decInt w (remote.EvalCount t)); split; assumption.
  - intros E; injection E as <- _; exact Hzero.
Qed.

Lemma ChatCompletions_answer
      (transport : remote.Request -> remote.result) (now : Z)
      (provider : remote.Provider) (req : chat.CompletionRequest) (model : string)
      (body : json.body) (status : Z) :
  remote.joinURL (remote.BaseURL provider) "" <> None ->
  (forall r, transport r = remote.Ok body status) ->
  (status < 400)%Z ->
  remote.ChatCompletions transport now provider req model
  = if String.eqb (remote.Kind provider) "ollama" then
      let '(o, noerr) :=
        json.Unmarshal remote.decOllamaResp body remote.zeroOllamaResp in
      if negb noerr then remote.Err remote.ErrDecodeOllama
      else remote.Ok (Some (chat.encCompletionResponse (remote.ollamaCompletion now o)))
                     200
    else if String.eqb (remote.Kind provider) "chatgpt" then
      remote.Ok (Some (chat.encCompletionResponse
                         (remote.chatgptCompletion now model
                            (remote.extractChatGPTOutputText body))))
                200
    else remote.Ok body status.
Proof.
  intros Hurl Hanswer Hstatus.
  unfold remote.ChatCompletions, remote.chatOllama, remote.chatChatGPT,
    remote.chatOpenAICompatible, remote.postJSON.
  rewrite (joinURL_defined _ _ "/api/chat" Hurl),
    (joinURL_defined _ _ "/backend-api/codex/responses" Hurl),
    (joinURL_defined _ _ "/v1/chat/completions" Hurl).
  rewrite !Hanswer.
  replace (status >=? 400)%Z with false
    by (symmetry; rewrite Z.geb_leb; apply Z.leb_gt; exact Hstatus).
  reflexivity.
Qed.

Lemma validResponse_ollama (now : Z) (o : remote.ollamaResp) :
  GoInt.in_range now = true ->
  json.validUTF8 (remote.OModel o) = true ->
  validMessage (remote.OMessage o) = true ->
  Spec.countsFit o ->
  validResponse (remote.ollamaCompletion now o) = true.
Proof.
  intros Hnow Hmodel Hmessage [Hp He].
  unfold validResponse, remote.ollamaCompletion, validUsage, validChoice, validMessage.
  cbn [chat.ID chat.Object chat.Created chat.RespModel chat.Choices chat.RespUsage
       chat.PromptTokens chat.CompletionTokens chat.TotalTokens forallb
       chat.Index chat.FinishReason chat.ChoiceMessage chat.Role chat.Content].
  unfold validMessage in Hmessage.
  rewrite Hnow, Hmodel, Hmessage, Hp, He.
  unfold GoInt.add. rewrite wrap_range. reflexivity.
Qed.

Section Translators.
Context `{U : strings.UnicodeTables}.

(** X6.  The Ollama path, end to end.  When the provider that matches is
    of kind "ollama" and the upstream answers a status below 400 with a body
    that decodes into the reply struct, the call answers 200 with the
    response id "chatcmpl-ollama", the model and the message of the reply in
    one choice (index 0, finish reason "stop"), the two counts of the reply
    as prompt and completion tokens, and as total their sum in [int]
    arithmetic: the exact sum when it fits, the sum wrapped to 64 bits when
    it does not.  The rule store is not consulted. *)
Theorem ollama_reply_translated
        (h : api.Handlers) (now : Z) (req : chat.CompletionRequest)
        (provider : remote.Provider) (model : string)
        (body : json.body) (status : Z) (o : remote.ollamaResp) :
  chat.Messages req <> [] ->
  remote.Match (api.remoteManager h) (chat.Model req) = (provider, model, true) ->
  remote.Kind provider = "ollama" ->
  remote.joinURL (remote.BaseURL provider) "" <> None ->
  (forall r, api.remoteClient h r = remote.Ok body status) ->
  (status < 400)%Z ->
  json.Unmarshal remote.decOllamaResp body remote.zeroOllamaResp = (o, true) ->
  json.validUTF8 (remote.OModel o) = true ->
  validMessage (remote.OMessage o) = true ->
  GoInt.in_range now = true ->
  api.runCompletion h now req
  = ([api.RegistryMatch (chat.Model req); api.RemoteCall provider model],
     (chat.mkCompletionResponse
        "chatcmpl-ollama" "chat.completion" now (remote.OModel o)
        [chat.mkChoice 0 "stop" (remote.OMessage o)]
        (chat.mkUsage (remote.PromptEvalCount o) (remote.EvalCount o)
                      (GoInt.wrap (remote.PromptEvalCount o + remote.EvalCount o))),
      200%Z, None))
  /\ ((GoInt.min_int <= remote.PromptEvalCount o + remote.EvalCount o
       <= GoInt.max_int)%Z ->
      GoInt.wrap (remote.PromptEvalCount o + remote.EvalCount o)
      = (remote.PromptEvalCount o + remote.EvalCount o)%Z).
Proof.
  intros Hne Hmatch Hkind Hurl Hanswer Hstatus Hdecode Hmodel Hmessage Hnow.
  split; [|apply wrap_in_range].
  unfold api.runCompletion.
  destruct (chat.Messages req) as [|m0 ms]; [contradiction|].
  rewrite Hmatch.
  rewrite (ChatCompletions_answer _ now provider _ model body status Hurl Hanswer Hstatus).
  rewrite Hkind. cbn [String.eqb Ascii.eqb Bool.eqb andb]. rewrite Hdecode.
  cbn [negb]. unfold remote.http_StatusOK.
  replace (200 >=? 400)%Z with false by reflexivity.
  rewrite decode_encode_response.
  - cbn [negb]. unfold remote.ollamaCompletion, GoInt.add, api.http_StatusOK.
    destruct (remote.OMessage o) as [role content]. reflexivity.
  - apply validResponse_ollama; try assumption.
    now apply (decOllamaResp_counts body o true).
Qed.

(** X7.  An Ollama reply with a status below 400 that does not decode
    into the reply struct (no JSON, no object, a field of the wrong type, a
    count that is no integer or does not fit 64 bits) is answered 502 with
    the cause "decode ollama response" and the zero response. *)
Theorem ollama_reply_undecodable
        (h : api.Handlers) (now : Z) (req : chat.CompletionRequest)
        (provider : remote.Provider) (model : string)
        (body : json.body) (status : Z) (o : remote.ollamaResp) :
  chat.Messages req <> [] ->
  remote.Match (api.remoteManager h) (chat.Model req) = (provider, model, true) ->
  remote.Kind provider = "ollama" ->
  remote.joinURL (remote.BaseURL provider) "" <> None ->
  (forall r, api.remoteClient h r = remote.Ok body status) ->
  (status < 400)%Z ->
  json.Unmarshal remote.decOllamaResp body remote.zeroOllamaResp = (o, false) ->
  api.runCompletion h now req
  = ([api.RegistryMatch (chat.Model req); api.RemoteCall provider model],
     (chat.zeroCompletionResponse, 502%Z,
      Some (api.ErrRemoteRequestFailed remote.ErrDecodeOllama))).
Proof.
  intros Hne Hmatch Hkind Hurl Hanswer Hstatus Hdecode.
  unfold api.runCompletion.
  destruct (chat.Messages req) as [|m0 ms]; [contradiction|].
  rewrite Hmatch.
  rewrite (ChatCompletions_answer _ now provider _ model body status Hurl Hanswer Hstatus).
  rewrite Hkind. cbn [String.eqb Ascii.eqb Bool.eqb andb]. rewrite Hdecode.
  reflexivity.
Qed.

End Translators.

Lemma ollama_reply_translated_witness :
  chat.Messages ollamaRequest <> []
  /\ remote.Match (api.remoteManager (ollamaServer ollamaUpstream))
                  (chat.Model ollamaRequest)
     = (ollamaProvider, "llama3.1", true)
  /\ json.Unmarshal remote.decOllamaResp (Some ollamaReply) remote.zeroOllamaResp
     = (remote.mkOllamaResp "llama3.1" (chat.mkMessage "assistant" "from ollama") 2 3,
        true)
  /\ api.runCompletion (U := identityTables) (ollamaServer ollamaUpstream)
       1700000000 ollamaRequest
     = ([api.RegistryMatch "ollama/llama3.1"; api.RemoteCall ollamaProvider "llama3.1"],
        (chat.mkCompletionResponse
           "chatcmpl-ollama" "chat.completion" 1700000000 "llama3.1"
           [chat.mkChoice 0 "stop" (chat.mkMessage "assistant" "from ollama")]
           (chat.mkUsage 2 3 5),
         200%Z, None)).
Proof.
  assert (Hne : chat.Messages ollamaRequest <> []) by discriminate.
  assert (Hurl : remote.joinURL (remote.BaseURL ollamaProvider) "" <> None)
    by discriminate.
  assert (Hstatus : (200 < 400)%Z) by reflexivity.
  split; [exact Hne|]. split; [reflexivity|]. split; [reflexivity|].
  exact (proj1 (ollama_reply_translated (U := identityTables)
                  (ollamaServer ollamaUpstream) 1700000000 ollamaRequest
                  ollamaProvider "llama3.1" (Some ollamaReply) 200
                  (remote.mkOllamaResp "llama3.1"
                     (chat.mkMessage "assistant" "from ollama") 2 3)
                  Hne eq_refl eq_refl Hurl (fun _ => eq_refl) Hstatus
                  eq_refl eq_refl eq_refl eq_refl)).
Defined.

Lemma ollama_reply_undecodable_witness :
  chat.Messages ollamaRequest <> []
  /\ remote.Match (api.remoteManager (ollamaServer brokenOllamaUpstream))
                  (chat.Model ollamaRequest)
     = (ollamaProvider, "llama3.1", true)
  /\ api.runCompletion (U := identityTables) (ollamaServer brokenOllamaUpstream)
       1700000000 ollamaRequest
     = ([api.RegistryMatch "ollama/llama3.1"; api.RemoteCall ollamaProvider "llama3.1"],
        (chat.zeroCompletionResponse, 502%Z,
         Some (api.ErrRemoteRequestFailed remote.ErrDecodeOllama))).
Proof.
  assert (Hne : chat.Messages ollamaRequest <> []) by discriminate.
  assert (Hurl : remote.joinURL (remote.BaseURL ollamaProvider) "" <> None)
    by discriminate.
  assert (Hstatus : (200 < 400)%Z) by reflexivity.
  split; [exact Hne|]. split; [reflexivity|].
  exact (ollama_reply_undecodable (U := identityTables)
           (ollamaServer brokenOllamaUpstream) 1700000000 ollamaRequest
           ollamaProvider "llama3.1" _ 200
           (remote.mkOllamaResp "llama3.1" chat.zeroMessage 0 0)
           Hne eq_refl eq_refl Hurl (fun _ => eq_refl) Hstatus eq_refl).
Defined.

(* ================================================================== *)
(** ** ChatGPT and generic translators *)

Lemma validResponse_chatgpt (now : Z) (model text : string) :
  GoInt.in_range now = true ->
  json.validUTF8 model = true ->
  json.validUTF8 text = true ->
  validResponse (remote.chatgptCompletion now model text) = true.
Proof.
  intros Hnow Hmodel Htext.
  unfold validResponse, remote.chatgptCompletion, validUsage, validChoice, validMessage.
  cbn [chat.ID chat.Object chat.Created chat.RespModel chat.Choices chat.RespUsage
       chat.PromptTokens chat.CompletionTokens chat.TotalTokens forallb
       chat.Index chat.FinishReason chat.ChoiceMessage chat.Role chat.Content
       chat.zeroUsage].
  rewrite Hnow, Hmodel, Htext. reflexivity.
Qed.

Section OtherTranslators.
Context `{U : strings.UnicodeTables}.

(** X8.  The ChatGPT path never fails on the body of a reply.  When the
    provider that matches is of kind "chatgpt" and the upstream answers a
    status below 400, the call answers 200 whatever the body is, JSON or
    not: the response has id "chatcmpl-chatgpt", the model sent upstream,
    one choice (index 0, finish reason "stop", role "assistant") whose
    content is the text extracted from the body, the empty text when there
    is none, and a usage of zero. *)
Theorem chatgpt_reply_translated
        (h : api.Handlers) (now : Z) (req : chat.CompletionRequest)
        (provider : remote.Provider) (model : string)
        (body : json.body) (status : Z) :
  chat.Messages req <> [] ->
  remote.Match (api.remoteManager h) (chat.Model req) = (provider, model, true) ->
  remote.Kind provider = "chatgpt" ->
  remote.joinURL (remote.BaseURL provider) "" <> None ->
  (forall r, api.remoteClient h r = remote.Ok body status) ->
  (status < 400)%Z ->
  json.validUTF8 model = true ->
  json.validUTF8 (remote.extractChatGPTOutputText body) = true ->
  GoInt.in_range now = true ->
  api.runCompletion h now req
  = ([api.RegistryMatch (chat.Model req); api.RemoteCall provider model],
     (chat.mkCompletionResponse
        "chatcmpl-chatgpt" "chat.completion" now model
        [chat.mkChoice 0 "stop"
           (chat.mkMessage "assistant" (remote.extractChatGPTOutputText body))]
        (chat.mkUsage 0 0 0),
      200%Z, None)).
Proof.
  intros Hne Hmatch Hkind Hurl Hanswer Hstatus Hmodel Htext Hnow.
  unfold api.runCompletion.
  destruct (chat.Messages req) as [|m0 ms]; [contradiction|].
  rewrite Hmatch.
  rewrite (ChatCompletions_answer _ now provider _ model body status Hurl Hanswer Hstatus).
  rewrite Hkind. cbn [String.eqb Ascii.eqb Bool.eqb andb].
  unfold remote.http_StatusOK.
  replace (200 >=? 400)%Z with false by reflexivity.
  rewrite decode_encode_response by now apply validResponse_chatgpt.
  reflexivity.
Qed.

(** X9.  Every other kind ("openai", "codex", or a kind the program does
    not know) takes the generic path: the body of an upstream that answers a
    status below 400 is decoded as a canonical response as it is.  When it
    decodes, the call answers 200 with it, whatever its fields say; when it
    does not, the call answers 502 "invalid remote response". *)
Theorem generic_reply_passed_through
        (h : api.Handlers) (now : Z) (req : chat.CompletionRequest)
        (provider : remote.Provider) (model : string)
        (body : json.body) (status : Z) :
  chat.Messages req <> [] ->
  remote.Match (api.remoteManager h) (chat.Model req) = (provider, model, true) ->
  remote.Kind provider <> "ollama" ->
  remote.Kind provider <> "chatgpt" ->
  remote.joinURL (remote.BaseURL provider) "" <> None ->
  (forall r, api.remoteClient h r = remote.Ok body status) ->
  (status < 400)%Z ->
  api.runCompletion h now req
  = ([api.RegistryMatch (chat.Model req); api.RemoteCall provider model],
     match json.Unmarshal chat.decCompletionResponse body chat.zeroCompletionResponse with
     | (out, true) => (out, 200%Z, None)
     | (_, false) =>
         (chat.zeroCompletionResponse, 502%Z, Some api.ErrInvalidRemoteResponse)
     end).
Proof.
  intros Hne Hmatch Hollama Hchatgpt Hurl Hanswer Hstatus.
  unfold api.runCompletion.
  destruct (chat.Messages req) as [|m0 ms]; [contradiction|].
  rewrite Hmatch.
  rewrite (ChatCompletions_answer _ now provider _ model body status Hurl Hanswer Hstatus).
  apply String.eqb_neq in Hollama, Hchatgpt. rewrite Hollama, Hchatgpt.
  replace (status >=? 400)%Z with false
    by (symmetry; rewrite Z.geb_leb; apply Z.leb_gt; exact Hstatus).
  destruct (json.Unmarshal chat.decCompletionResponse body chat.zeroCompletionResponse)
    as [out [|]]; reflexivity.
Qed.

End OtherTranslators.

Lemma chatgpt_reply_translated_witness :
  chat.Messages chatgptRequest <> []
  /\ remote.Match (api.remoteManager (chatgptServer garbledUpstream))
                  (chat.Model chatgptRequest)
     = (chatgptProvider, "gpt-5", true)
  /\ api.runCompletion (U := identityTables) (chatgptServer garbledUpstream)
       1700000000 chatgptRequest
     = ([api.RegistryMatch "chatgpt/gpt-5"; api.RemoteCall chatgptProvider "gpt-5"],
        (chat.mkCompletionResponse
           "chatcmpl-chatgpt" "chat.completion" 1700000000 "gpt-5"
           [chat.mkChoice 0 "stop" (chat.mkMessage "assistant" "")]
           (chat.mkUsage 0 0 0),
         200%Z, None)).
Proof.
  assert (Hne : chat.Messages chatgptRequest <> []) by discriminate.
  assert (Hurl : remote.joinURL (remote.BaseURL chatgptProvider) "" <> None)
    by discriminate.
  assert (Hstatus : (200 < 400)%Z) by reflexivity.
  split; [exact Hne|]. split; [reflexivity|].
  exact (chatgpt_reply_translated (U := identityTables)
           (chatgptServer garbledUpstream) 1700000000 chatgptRequest
           chatgptProvider "gpt-5" None 200
           Hne eq_refl eq_refl Hurl (fun _ => eq_refl) Hstatus
           eq_refl eq_refl eq_refl).
Defined.

Lemma generic_reply_passed_through_witness :
  chat.Messages codexRequest <> []
  /\ remote.Match (api.remoteManager (codexServer codexUpstream)) (chat.Model codexRequest)
     = (codexProvider, "gpt-5", true)
  /\ api.runCompletion (U := identityTables) (codexServer codexUpstream)
       1700000000 codexRequest
     = ([api.RegistryMatch "codex/gpt-5"; api.RemoteCall codexProvider "gpt-5"],
        (codexReply, 200%Z, None)).
Proof.
  assert (Hne : chat.Messages codexRequest <> []) by discriminate.
  assert (Hurl : remote.joinURL (remote.BaseURL codexProvider) "" <> None)
    by discriminate.
  assert (Hstatus : (200 < 400)%Z) by reflexivity.
  assert (Hollama : remote.Kind codexProvider <> "ollama") by discriminate.
  assert (Hchatgpt : remote.Kind codexProvider <> "chatgpt") by discriminate.
  split; [exact Hne|]. split; [reflexivity|].
  exact (generic_reply_passed_through (U := identityTables)
           (codexServer codexUpstream) 1700000000 codexRequest
           codexProvider "gpt-5" _ 200
           Hne eq_refl Hollama Hchatgpt Hurl (fun _ => eq_refl) Hstatus).
Defined.

(* ================================================================== *)
(** ** The request sent upstream *)




(* ================================================================== *)
(** ** Joining a base URL and a path *)

Lemma append_assoc (s t u : string) : (s ++ t) ++ u = s ++ (t ++ u).
Proof. induction s as [|a s IH]; simpl; [reflexivity|now rewrite IH]. Qed.

Lemma append_nil_r (s : string) : s ++ "" = s.
Proof. induction s as [|a s IH]; simpl; [reflexivity|now rewrite IH]. Qed.

Lemma rev_onto_app (s acc : string) :
  strings.rev_onto s acc = strings.reverse s ++ acc.
Proof.
  unfold strings.reverse. revert acc.
  induction s as [|a s IH]; intros acc; simpl; [reflexivity|].
  rewrite IH, (IH (String a "")), append_assoc. reflexivity.
Qed.

Lemma reverse_app (s t : string) :
  strings.reverse (s ++ t) = strings.reverse t ++ strings.reverse s.
Proof.
  induction s as [|a s IH]; simpl.
  - now rewrite append_nil_r.
  - unfold strings.reverse in *. simpl.
    rewrite (rev_onto_app (s ++ t)), (rev_onto_app s).
    unfold strings.reverse. rewrite IH, append_assoc. reflexivity.
Qed.

Lemma reverse_involutive (s : string) : strings.reverse (strings.reverse s) = s.
Proof.
  induction s as [|a s IH]; [reflexivity|].
  unfold strings.reverse at 2. simpl. rewrite rev_onto_app, reverse_app, IH.
  reflexivity.
Qed.

Lemma reverse_slashes (k : nat) : strings.reverse (Spec.slashes k) = Spec.slashes k.
Proof.
  induction k as [|k IH]; [reflexivity|].
  simpl. unfold strings.reverse. simpl. rewrite rev_onto_app, IH.
  clear IH. induction k as [|k IH]; simpl; [reflexivity|now rewrite IH].
Qed.

Lemma dropSlashes_split (s : string) :
  exists k, s = Spec.slashes k ++ strings.dropSlashes s.
Proof.
  induction s as [|a s [k IH]]; simpl.
  - now exists 0.
  - destruct (Ascii.eqb_spec a "/"%char) as [->|Hne].
    + exists (S k). simpl. now rewrite <- IH.
    + now exists 0.
Qed.

Lemma dropSlashes_head (s : string) :
  strings.HasPrefix (strings.dropSlashes s) "/" = false.
Proof.
  induction s as [|a s IH]; simpl; [reflexivity|].
  destruct (Ascii.eqb a "/"%char) eqn:Ha; [exact IH|].
  simpl. now rewrite Ha.
Qed.

Lemma TrimRightSlash_split (s : string) :
  exists k,
    s = strings.TrimRightSlash s ++ Spec.slashes k
    /\ strings.HasSuffix (strings.TrimRightSlash s) "/" = false.
Proof.
  unfold strings.TrimRightSlash, strings.HasSuffix.
  destruct (dropSlashes_split (strings.reverse s)) as [k Hk].
  exists k. split.
  - rewrite <- (reverse_involutive s) at 1. rewrite Hk at 1.
    now rewrite reverse_app, reverse_slashes.
  - rewrite reverse_involutive. apply dropSlashes_head.
Qed.

(** X11.  [joinURL] fails exactly when the base URL, once trimmed of
    white space, is empty or made of slashes only.  Otherwise the URL is the
    trimmed base URL without its trailing slashes, which is then not empty
    and does not end with a slash, followed by the path: the join never
    doubles a slash. *)
Theorem joinURL_no_trailing_slash (baseURL suffix : string) :
  match remote.joinURL baseURL suffix with
  | Some url =>
      exists base k,
        strings.TrimSpace baseURL = base ++ Spec.slashes k
        /\ base <> ""
        /\ strings.HasSuffix base "/" = false
        /\ url = base ++ suffix
  | None => exists k, strings.TrimSpace baseURL = Spec.slashes k
  end.
Proof.
  unfold remote.joinURL.
  destruct (TrimRightSlash_split (strings.TrimSpace baseURL)) as (k & Hsplit & Hend).
  destruct (String.eqb_spec
              (strings.TrimRightSlash (strings.TrimSpace baseURL)) "") as [E|Hne].
  - exists k. rewrite Hsplit at 1. now rewrite E.
  - exists (strings.TrimRightSlash (strings.TrimSpace baseURL)), k. auto.
Qed.

(* ================================================================== *)
(** ** Registry and router together *)

Lemma replaceOrAppend_length (m : remote.Manager) (p : remote.Provider) :
  List.length (remote.replaceOrAppend m p)
  = if existsb (fun q => remote.sameProvider q p) m
    then List.length m else S (List.length m).
Proof.
  induction m as [|q m IH]; simpl; [reflexivity|].
  destruct (remote.sameProvider q p); simpl; [reflexivity|].
  rewrite IH. destruct (existsb (fun q0 => remote.sameProvider q0 p) m); reflexivity.
Qed.

Lemma Match_member (m : remote.Manager) (requestedModel : string)
      (p : remote.Provider) (rewritten : string) :
  remote.Match m requestedModel = (p, rewritten, true) ->
  In p m /\ remote.ShouldProxy p requestedModel = true
  /\ rewritten = remote.NormalizeModel p requestedModel.
Proof.
  induction m as [|q m IH]; simpl; [discriminate|].
  destruct (remote.ShouldProxy q requestedModel) eqn:Hq.
  - intros E. injection E as <- <-. auto.
  - intros E. destruct (IH E) as (Hin & Hp & Hr). auto.
Qed.

Lemma Match_none (m : remote.Manager) (requestedModel : string) :
  Forall (fun q => remote.ShouldProxy q requestedModel = false) m ->
  remote.Match m requestedModel = (remote.zeroProvider, "", false).
Proof.
  induction 1 as [|q m Hq _ IH]; simpl; [reflexivity|]. now rewrite Hq.
Qed.

Lemma Match_found (m : remote.Manager) (requestedModel : string) :
  Exists (fun q => remote.ShouldProxy q requestedModel = true) m ->
  snd (remote.Match m requestedModel) = true.
Proof.
  induction 1 as [q m Hq|q m _ IH]; simpl.
  - now rewrite Hq.
  - destruct (remote.ShouldProxy q requestedModel); [reflexivity|exact IH].
Qed.

Lemma replaceOrAppend_In (m : remote.Manager) (p : remote.Provider) :
  In p (remote.replaceOrAppend m p).
Proof.
  induction m as [|q m IH]; simpl; [now left|].
  destruct (remote.sameProvider q p); [now left|now right].
Qed.

Section RegistryRouter.
Context `{U : strings.UnicodeTables}.

(** X12.  An upsert adds at most one entry: the registry keeps its
    length when it holds an entry of the record's identity, and grows by one
    when it holds none.  A registry built from a seed never has more entries
    than the seed. *)
Theorem Upsert_grows_by_at_most_one (m : remote.Manager) (p : remote.Provider) :
  List.length (remote.Upsert m p)
  = (if existsb (fun q => remote.sameProvider q (remote.normalizeProvider p)) m
     then List.length m else S (List.length m))
  /\ forall seed, List.length (remote.NewManager seed) <= List.length seed.
Proof.
  split; [apply replaceOrAppend_length|].
  intros seed. unfold remote.NewManager.
  assert (Hgen : forall acc,
             List.length (fold_left remote.Upsert seed acc)
             <= List.length acc + List.length seed).
  { induction seed as [|q seed IH]; intros acc; simpl; [lia|].
    specialize (IH (remote.Upsert acc q)).
    assert (Hl : List.length (remote.Upsert acc q) <= S (List.length acc)).
    { unfold remote.Upsert. rewrite replaceOrAppend_length.
      destruct (existsb _ acc); lia. }
    lia. }
  apply (Hgen []).
Qed.

(** X13.  What is upserted can be routed to: after [Upsert], every model
    that the stored form of the record accepts is matched by some provider;
    and by the stored record itself, with its prefix stripped, when no
    provider of the registry accepted that model before. *)
Theorem Upsert_then_Match
        (m : remote.Manager) (p : remote.Provider) (requestedModel : string) :
  remote.ShouldProxy (remote.normalizeProvider p) requestedModel = true ->
  snd (remote.Match (remote.Upsert m p) requestedModel) = true
  /\ (Forall (fun q => remote.ShouldProxy q requestedModel = false) m ->
      remote.Match (remote.Upsert m p) requestedModel
      = (remote.normalizeProvider p,
         remote.NormalizeModel (remote.normalizeProvider p) requestedModel,
         true)).
Proof.
  intros Hp. unfold remote.Upsert.
  set (p' := remote.normalizeProvider p) in *. clearbody p'. split.
  - apply Match_found, Exists_exists. exists p'. split; [|exact Hp].
    apply replaceOrAppend_In.
  - induction 1 as [|q m Hq _ IH]; simpl.
    + now rewrite Hp.
    + destruct (remote.sameProvider q p'); simpl.
      * now rewrite Hp.
      * now rewrite Hq.
Qed.

End RegistryRouter.

(** X14.  Providers without a base URL are invisible to the router:
    [Match] answers as it does on the registry without the providers whose
    base URL is blank, route-all or not. *)
Theorem Match_skips_blank_base_URL (m : remote.Manager) (requestedModel : string) :
  remote.Match m requestedModel
  = remote.Match (filter (fun p => negb (remote.blank (remote.BaseURL p))) m)
                 requestedModel.
Proof.
  induction m as [|q m IH]; simpl; [reflexivity|].
  destruct (remote.blank (remote.BaseURL q)) eqn:Hq; simpl.
  - unfold remote.ShouldProxy at 1. rewrite Hq. exact IH.
  - destruct (remote.ShouldProxy q requestedModel); [reflexivity|exact IH].
Qed.

(** X15.  Stripping the prefix loses nothing: when [Match] finds a
    provider that does not route everything, that provider is in the
    registry, its base URL is not blank, and its trimmed prefix followed by
    the model sent upstream is the trimmed model that was asked for. *)
Theorem Match_prefix_and_rest
        (m : remote.Manager) (requestedModel : string)
        (p : remote.Provider) (rewritten : string) :
  remote.Match m requestedModel = (p, rewritten, true) ->
  remote.RouteAll p = false ->
  In p m
  /\ strings.TrimSpace (remote.BaseURL p) <> ""
  /\ strings.TrimSpace requestedModel
     = strings.TrimSpace (remote.ModelPrefix p) ++ rewritten.
Proof.
  intros Hmatch Hall.
  destruct (Match_member _ _ _ _ Hmatch) as (Hin & Hproxy & ->).
  split; [exact Hin|].
  unfold remote.ShouldProxy in Hproxy. rewrite Hall in Hproxy.
  destruct (remote.blank (remote.BaseURL p)) eqn:Hbase; [discriminate|].
  split; [now apply blank_false|].
  apply andb_true_iff in Hproxy as [Hprefix Hhas].
  unfold remote.NormalizeModel. rewrite Hprefix, Hhas. cbn [andb].
  unfold strings.TrimPrefix. rewrite Hhas.
  now apply HasPrefix_split.
Qed.

Lemma Match_prefix_and_rest_witness :
  remote.Match [codexProvider] " codex/gpt-5" = (codexProvider, "gpt-5", true)
  /\ remote.RouteAll codexProvider = false
  /\ strings.TrimSpace " codex/gpt-5"
     = strings.TrimSpace (remote.ModelPrefix codexProvider) ++ "gpt-5".
Proof.
  split; [reflexivity|]. split; [reflexivity|].
  apply (Match_prefix_and_rest [codexProvider] " codex/gpt-5" codexProvider "gpt-5");
    reflexivity.
Defined.

Lemma Upsert_then_Match_witness :
  remote.ShouldProxy (remote.normalizeProvider (U := identityTables) codexProvider)
                     "codex/gpt-5" = true
  /\ snd (remote.Match (remote.Upsert (U := identityTables) [ollamaProvider] codexProvider)
                       "codex/gpt-5") = true.
Proof.
  split; [reflexivity|].
  apply (Upsert_then_Match (U := identityTables) [ollamaProvider] codexProvider
                           "codex/gpt-5").
  reflexivity.
Defined.

(* ================================================================== *)
(** ** Trimming white space *)

Lemma trimLeftSpace_fixed (s : string) :
  Spec.startsWithSpace s = false -> strings.trimLeftSpace s = s.
Proof.
  destruct s as [|a [|b [|c r]]]; simpl; try reflexivity.
  - rewrite orb_false_r. now intros ->.
  - intros Hs. apply orb_false_iff in Hs as [-> Hs].
    rewrite orb_false_r in Hs. now rewrite Hs.
  - intros Hs. apply orb_false_iff in Hs as [-> Hs].
    apply orb_false_iff in Hs as [-> ->]. reflexivity.
Qed.

Lemma trimLeftSpaceRev_fixed (s : string) :
  Spec.startsWithSpaceRev s = false -> strings.trimLeftSpaceRev s = s.
Proof.
  destruct s as [|a [|b [|c r]]]; simpl; try reflexivity.
  - rewrite orb_false_r. now intros ->.
  - intros Hs. apply orb_false_iff in Hs as [-> Hs].
    rewrite orb_false_r in Hs. now rewrite Hs.
  - intros Hs. apply orb_false_iff in Hs as [-> Hs].
    apply orb_false_iff in Hs as [-> ->]. reflexivity.
Qed.

Lemma trimLeftSpace_done_upto (n : nat) (s : string) :
  String.length s <= n -> Spec.startsWithSpace (strings.trimLeftSpace s) = false.
Proof.
  revert s. induction n as [|n IH]; intros s Hn.
  - destruct s; [reflexivity|simpl in Hn; lia].
  - destruct s as [|a r]; [reflexivity|]. simpl in Hn.
    cbn [strings.trimLeftSpace].
    destruct (strings.asciiSpace (strings.byte_of a)) eqn:Ha.
    + apply IH. lia.
    + destruct r as [|b r'].
      * simpl. now rewrite Ha.
      * destruct (strings.space2 (strings.byte_of a) (strings.byte_of b)) eqn:Hab.
        -- apply IH. simpl in Hn. lia.
        -- destruct r' as [|c r''].
           ++ simpl. now rewrite Ha, Hab.
           ++ destruct (strings.space3 (strings.byte_of a) (strings.byte_of b)
                                       (strings.byte_of c)) eqn:Habc.
              ** apply IH. simpl in Hn. lia.
              ** simpl. now rewrite Ha, Hab, Habc.
Qed.

Lemma trimLeftSpaceRev_done_upto (n : nat) (s : string) :
  String.length s <= n -> Spec.startsWithSpaceRev (strings.trimLeftSpaceRev s) = false.
Proof.
  revert s. induction n as [|n IH]; intros s Hn.
  - destruct s; [reflexivity|simpl in Hn; lia].
  - destruct s as [|a r]; [reflexivity|]. simpl in Hn.
    cbn [strings.trimLeftSpaceRev].
    destruct (strings.asciiSpace (strings.byte_of a)) eqn:Ha.
    + apply IH. lia.
    + destruct r as [|b r'].
      * simpl. now rewrite Ha.
      * destruct (strings.space2 (strings.byte_of b) (strings.byte_of a)) eqn:Hab.
        -- apply IH. simpl in Hn. lia.
        -- destruct r' as [|c r''].
           ++ simpl. now rewrite Ha, Hab.
           ++ destruct (strings.space3 (strings.byte_of c) (strings.byte_of b)
                                       (strings.byte_of a)) eqn:Habc.
              ** apply IH. simpl in Hn. lia.
              ** simpl. now rewrite Ha, Hab, Habc.
Qed.

Lemma trimLeftSpaceRev_suffix_upto (n : nat) (s : string) :
  String.length s <= n -> exists d, s = d ++ strings.trimLeftSpaceRev s.
Proof.
  revert s. induction n as [|n IH]; intros s Hn.
  - destruct s; [now exists ""|simpl in Hn; lia].
  - destruct s as [|a r]; [now exists ""|]. simpl in Hn.
    cbn [strings.trimLeftSpaceRev].
    destruct (strings.asciiSpace (strings.byte_of a)).
    + destruct (IH r ltac:(lia)) as [d Hd]. exists (String a d). simpl. now rewrite <- Hd.
    + destruct r as [|b r']; [now exists ""|].
      destruct (strings.space2 (strings.byte_of b) (strings.byte_of a)).
      * simpl in Hn. destruct (IH r' ltac:(lia)) as [d Hd].
        exists (String a (String b d)). simpl. now rewrite <- Hd.
      * destruct r' as [|c r'']; [now exists ""|].
        destruct (strings.space3 (strings.byte_of c) (strings.byte_of b)
                                 (strings.byte_of a)).
        -- simpl in Hn. destruct (IH r'' ltac:(lia)) as [d Hd].
           exists (String a (String b (String c d))). simpl. now rewrite <- Hd.
        -- now exists "".
Qed.

Lemma startsWithSpace_prefix (x y : string) :
  Spec.startsWithSpace (x ++ y) = false -> Spec.startsWithSpace x = false.
Proof.
  destruct x as [|a [|b [|c r]]]; simpl; try reflexivity.
  - intros Hs. apply orb_false_iff in Hs as [-> _]. reflexivity.
  - intros Hs. apply orb_false_iff in Hs as [-> Hs].
    destruct y as [|c y]; simpl in Hs.
    + now rewrite orb_false_r in Hs |- *.
    + apply orb_false_iff in Hs as [-> _]. reflexivity.
  - intros Hs. exact Hs.
Qed.

Lemma TrimSpace_idempotent (s : string) :
  strings.TrimSpace (strings.TrimSpace s) = strings.TrimSpace s.
Proof.
  unfold strings.TrimSpace.
  set (u := strings.trimLeftSpace s).
  set (w := strings.trimLeftSpaceRev (strings.reverse u)).
  assert (Hu : Spec.startsWithSpace u = false)
    by (apply (trimLeftSpace_done_upto (String.length s)); lia).
  assert (Hw : Spec.startsWithSpaceRev w = false)
    by (apply (trimLeftSpaceRev_done_upto (String.length (strings.reverse u))); lia).
  destruct (trimLeftSpaceRev_suffix_upto _ (strings.reverse u) (le_n _)) as [d Hd].
  fold w in Hd.
  assert (Hsplit : u = strings.reverse w ++ strings.reverse d).
  { rewrite <- (reverse_involutive u), Hd. apply reverse_app. }
  rewrite Hsplit in Hu. apply startsWithSpace_prefix in Hu.
  rewrite (trimLeftSpace_fixed _ Hu), reverse_involutive.
  now rewrite (trimLeftSpaceRev_fixed _ Hw).
Qed.

Lemma blank_TrimSpace (s : string) :
  remote.blank (strings.TrimSpace s) = remote.blank s.
Proof. unfold remote.blank. now rewrite TrimSpace_idempotent. Qed.

(* ================================================================== *)
(** ** Routing and white space *)

(** X16.  The router ignores white space around the model name: asking
    for a model and asking for its trimmed form select the same provider
    and send the same model upstream. *)
Theorem Match_ignores_surrounding_space (m : remote.Manager) (requestedModel : string) :
  remote.Match m (strings.TrimSpace requestedModel) = remote.Match m requestedModel.
Proof.
  induction m as [|p m IH]; simpl; [reflexivity|].
  unfold remote.ShouldProxy, remote.NormalizeModel.
  rewrite TrimSpace_idempotent, IH. reflexivity.
Qed.

(* ================================================================== *)
(** ** The seed configuration *)

Lemma replaceOrAppend_new (m : remote.Manager) (p : remote.Provider) :
  Forall (fun q => remote.sameProvider q p = false) m ->
  remote.replaceOrAppend m p = (m ++ [p])%list.
Proof.
  induction 1 as [|q m Hq _ IH]; simpl; [reflexivity|]. now rewrite Hq, IH.
Qed.

Lemma sameProvider_named (a b : remote.Provider) :
  remote.blank (remote.Name a) = false ->
  remote.blank (remote.Name b) = false ->
  remote.sameProvider a b = String.eqb (remote.Name a) (remote.Name b).
Proof. intros Ha Hb. unfold remote.sameProvider. now rewrite Ha, Hb. Qed.

Lemma Forall_optional {A} (P : A -> Prop) (b : bool) (x : A) :
  (b = true -> P x) -> Forall P (if b then [x] else []).
Proof. destruct b; intros Hx; constructor; auto. Qed.

Section Seed.
Context `{U : strings.UnicodeTables}.

Lemma fold_Upsert_distinct (seed acc : list remote.Provider) :
  Forall (fun q => remote.blank (remote.Name q) = false) acc ->
  Forall Spec.storedAsIs seed ->
  NoDup (map remote.Name (acc ++ seed)) ->
  fold_left remote.Upsert seed acc = (acc ++ seed)%list.
Proof.
  revert acc. induction seed as [|p seed IH]; intros acc Hacc Hseed Hnodup; simpl.
  - now rewrite app_nil_r.
  - inversion Hseed as [|p' seed' [Hfixed Hnamed] Hseed']; subst.
    assert (Hnew : Forall (fun q => remote.sameProvider q p = false) acc).
    { apply Forall_forall. intros q Hq.
      rewrite sameProvider_named; [|now apply (proj1 (Forall_forall _ _) Hacc)|exact Hnamed].
      apply String.eqb_neq. intros Heq.
      rewrite map_app in Hnodup. simpl in Hnodup.
      apply NoDup_remove_2 in Hnodup. apply Hnodup.
      apply in_or_app. left. rewrite <- Heq. now apply in_map. }
    unfold remote.Upsert at 2. rewrite Hfixed, (replaceOrAppend_new _ _ Hnew).
    rewrite IH.
    + now rewrite <- app_assoc.
    + apply Forall_app. split; [exact Hacc|]. now constructor.
    + exact Hseed'.
    + rewrite <- app_assoc. exact Hnodup.
Qed.

Lemma normalizeProvider_fixed (p : remote.Provider) :
  remote.blank (remote.Kind p) = false ->
  strings.ToLower (strings.TrimSpace (remote.Kind p)) = remote.Kind p ->
  remote.blank (remote.ModelPrefix p) = false ->
  remote.blank (remote.Name p) = false ->
  remote.blank (remote.BaseURL p) && String.eqb (remote.Kind p) "chatgpt" = false ->
  remote.normalizeProvider p = p.
Proof.
  intros Hkind Hlower Hprefix Hname Hbase.
  unfold remote.normalizeProvider. rewrite Hkind, Hlower.
  destruct p as [name kind base key token account prefix routeAll].
  norm_cbn. rewrite Hprefix. norm_cbn. rewrite Hname. norm_cbn.
  rewrite Hbase. reflexivity.
Qed.

Variable getenv : string -> string.

Lemma env_not_blank (key fallback : string) :
  remote.blank fallback = false ->
  remote.blank (app.env getenv key fallback) = false.
Proof.
  intros Hf. unfold app.env.
  destruct (remote.blank (getenv key)) eqn:Hv; simpl; assumption.
Qed.

Lemma trimmed_not_blank (s : string) :
  negb (String.eqb (strings.TrimSpace s) "") = true ->
  remote.blank (strings.TrimSpace s) = false.
Proof.
  intros Hs. rewrite blank_TrimSpace. unfold remote.blank.
  now apply negb_true_iff in Hs.
Qed.

(** X17.  The providers configured by the environment are registered as
    they are read, in the order ollama, codex, chatgpt, remote: [NewManager]
    changes none of them and drops none.  Each has a base URL and a prefix
    that are not blank, so that the router can select it. *)
Theorem seed_providers_registered_as_read :
  remote.NewManager (app.initialProvidersFromEnv getenv)
  = app.initialProvidersFromEnv getenv
  /\ Forall (fun p => remote.blank (remote.BaseURL p) = false
                      /\ remote.blank (remote.ModelPrefix p) = false)
            (app.initialProvidersFromEnv getenv)
  /\ exists o c g r : bool,
       map remote.Name (app.initialProvidersFromEnv getenv)
       = ((if o then ["ollama"] else []) ++ (if c then ["codex"] else [])
          ++ (if g then ["chatgpt"] else []) ++ (if r then ["remote"] else []))%list.
Proof.
  unfold app.initialProvidersFromEnv.
  set (ob := negb (String.eqb (strings.TrimSpace (getenv "CHATMOCK_OLLAMA_BASE_URL")) "")).
  set (cb := negb (String.eqb (strings.TrimSpace (getenv "CHATMOCK_CODEX_BASE_URL")) "")).
  set (gb := negb (String.eqb (strings.TrimSpace (getenv "CHATMOCK_CHATGPT_BASE_URL")) "")
             || negb (remote.blank (getenv "CHATMOCK_CHATGPT_ACCESS_TOKEN"))).
  set (rb := negb (String.eqb (strings.TrimSpace (getenv "CHATMOCK_REMOTE_BASE_URL")) "")).
  assert (Hprefix : forall key fallback,
             remote.blank fallback = false ->
             remote.blank (app.env getenv key fallback) = false)
    by apply env_not_blank.
  assert (Hgpt : remote.blank
                   (if remote.blank
                         (strings.TrimSpace (getenv "CHATMOCK_CHATGPT_BASE_URL"))
                    then "https://chatgpt.com"
                    else strings.TrimSpace (getenv "CHATMOCK_CHATGPT_BASE_URL"))
                 = false).
  { destruct (remote.blank (strings.TrimSpace (getenv "CHATMOCK_CHATGPT_BASE_URL")))
      eqn:Hb; [reflexivity|exact Hb]. }
  split; [|split].
  - unfold remote.NewManager.
    rewrite fold_Upsert_distinct; [reflexivity|constructor| |].
    + repeat (apply Forall_app; split); apply Forall_optional; intros Hb;
        (split; [|reflexivity]);
        apply normalizeProvider_fixed; try reflexivity;
        try (apply Hprefix; reflexivity).
      * cbn [remote.BaseURL remote.Kind]. apply andb_false_r.
      * cbn [remote.BaseURL remote.Kind]. apply andb_false_r.
      * cbn [remote.BaseURL remote.Kind]. now rewrite Hgpt.
      * cbn [remote.BaseURL remote.Kind]. apply andb_false_r.
    + destruct ob, cb, gb, rb; cbn [app map remote.Name];
        repeat constructor; cbn [In]; intuition discriminate.
  - repeat (apply Forall_app; split); apply Forall_optional; intros Hb;
      cbn [remote.BaseURL remote.ModelPrefix];
      (split; [|apply Hprefix; reflexivity]).
    + apply trimmed_not_blank. exact Hb.
    + apply trimmed_not_blank. exact Hb.
    + exact Hgpt.
    + apply trimmed_not_blank. exact Hb.
  - exists ob, cb, gb, rb.
    destruct ob, cb, gb, rb; reflexivity.
Qed.

End Seed.

(* ================================================================== *)
(** ** Ollama wire form of a message *)





(* ================================================================== *)
(** ** Rule store *)

Lemma Contains_prefix (s substr : string) :
  strings.HasPrefix s substr = true -> strings.Contains s substr = true.
Proof. intros Hp. destruct s; simpl; now rewrite Hp. Qed.

Lemma Contains_split (s substr : string) :
  strings.Contains s substr = true <-> exists x y, s = x ++ substr ++ y.
Proof.
  split.
  - induction s as [|a s IH]; simpl.
    + rewrite orb_false_r. intros Hp. apply HasPrefix_iff in Hp as [y Hy].
      now exists "", y.
    + intros Hc. apply orb_true_iff in Hc as [Hp|Hc].
      * apply HasPrefix_iff in Hp as [y Hy]. now exists "", y.
      * destruct (IH Hc) as (x & y & ->). now exists (String a x), y.
  - intros (x & y & ->). induction x as [|a x IH]; simpl.
    + apply Contains_prefix, HasPrefix_app.
    + rewrite IH. apply orb_true_r.
Qed.

Section RuleStore.
Context `{U : strings.UnicodeTables}.

(** X18.  The rule store answers with the reply of the first rule, in
    list order, whose pattern occurs in the content as a substring, both
    taken in lower case, and with no reply when there is no such rule.  A
    rule with an empty pattern therefore matches every content. *)
Theorem rules_first_hit_wins (s : rules.Store) (content : string) :
  let occurs rule :=
    exists x y,
      strings.ToLower content = x ++ strings.ToLower (rules.Contains rule) ++ y in
  match rules.Match s content with
  | (reply, true) =>
      exists before rule after,
        s = (before ++ rule :: after)%list
        /\ Forall (fun r => ~ occurs r) before
        /\ occurs rule
        /\ reply = rules.Reply rule
  | (reply, false) => reply = "" /\ Forall (fun r => ~ occurs r) s
  end
  /\ (forall rule, In rule s -> rules.Contains rule = "" ->
                   snd (rules.Match s content) = true).
Proof.
  intros occurs. unfold rules.Match.
  set (lowered := strings.ToLower content) in *.
  assert (Hocc : forall rule,
             strings.Contains lowered (strings.ToLower (rules.Contains rule)) = true
             <-> occurs rule) by (intros; apply Contains_split).
  split.
  - induction s as [|rule s IH]; simpl.
    + split; [reflexivity|constructor].
    + destruct (strings.Contains lowered (strings.ToLower (rules.Contains rule)))
        eqn:Hc.
      * exists [], rule, s. split; [reflexivity|]. split; [constructor|].
        split; [now apply Hocc|reflexivity].
      * assert (Hno : ~ occurs rule).
        { intros Hyes. apply Hocc in Hyes. congruence. }
        destruct (rules.matchLowered lowered s) as [reply [|]].
        -- destruct IH as (before & r & after & -> & Hb & Hr & ->).
           exists (rule :: before), r, after.
           split; [reflexivity|]. split; [now constructor|]. now split.
        -- destruct IH as [-> Hall]. split; [reflexivity|now constructor].
  - intros rule Hin Hempty.
    induction s as [|r s IH]; simpl; [contradiction|].
    destruct (strings.Contains lowered (strings.ToLower (rules.Contains r))) eqn:Hc;
      [reflexivity|].
    destruct Hin as [->|Hin]; [|now apply IH].
    rewrite Hempty in Hc. change (strings.ToLower "") with "" in Hc.
    destruct lowered; discriminate.
Qed.

End RuleStore.

(* ================================================================== *)
(** ** HTTP handlers: prompts *)

Section PromptHandlers.
Context `{U : strings.UnicodeTables}.



End PromptHandlers.



Section ResponsesMock.
Context `{U : strings.UnicodeTables}.

(** X21.  [/v1/responses] without a provider for the model.  A POST whose
    body decodes is answered 200 with id "resp-mock", object "response", the
    time read for it, the model asked for ("gpt-mock-1" when that is blank)
    and, as output text,
    the reply of the rule store to the flattened input: the reply of the
    first rule that matches, else the fixed fallback text. *)
Theorem Responses_mock_reply
        (h : api.Handlers) (now later : Z) (r : handlers.Request)
        (req : handlers.ResponsesRequest) :
  handlers.Method r = "POST" ->
  json.Unmarshal handlers.decResponsesRequest (handlers.Body r)
                 handlers.zeroResponsesRequest = (req, true) ->
  snd (remote.Match (api.remoteManager h) (handlers.ReqModel req)) = false ->
  let text := handlers.flattenInput (handlers.Input req) in
  let reply := if snd (rules.Match (api.rules_ h) text)
               then fst (rules.Match (api.rules_ h) text)
               else api.fallbackReply in
  handlers.Responses h now later r
  = handlers.writeJSON 200
      (handlers.encResponsesResponse
         (handlers.mkResponsesResponse
            "resp-mock" "response" later
            (if remote.blank (handlers.ReqModel req) then "gpt-mock-1"
             else handlers.ReqModel req)
            reply)).
Proof.
  intros Hmethod Hdecode Hnone text reply.
  unfold handlers.Responses. rewrite Hmethod, Hdecode.
  cbn [String.eqb Ascii.eqb Bool.eqb negb andb].
  unfold api.runCompletion.
  cbn [chat.Messages chat.Model last chat.Content].
  destruct (remote.Match (api.remoteManager h) (handlers.ReqModel req))
    as [[provider model] found].
  cbn [snd] in Hnone. subst found. fold text.
  subst reply.
  destruct (rules.Match (api.rules_ h) text) as [answer [|]]; reflexivity.
Qed.

End ResponsesMock.

Lemma Responses_mock_reply_witness :
  handlers.Method partsRequest = "POST"
  /\ handlers.flattenInput
       (handlers.Input
          (fst (json.Unmarshal handlers.decResponsesRequest
                  (handlers.Body partsRequest) handlers.zeroResponsesRequest)))
     = "Hello there"
  /\ handlers.Responses (U := identityTables)
       (app.NewServer (U := identityTables) emptyEnv offline)
       1700000000 1700000001 partsRequest
     = handlers.writeJSON 200
         (handlers.encResponsesResponse
            (handlers.mkResponsesResponse
               "resp-mock" "response" 1700000001 "gpt-mock-1"
               "Hi! This is a mocked assistant response.")).
Proof.
  split; [reflexivity|]. split; [reflexivity|].
  exact (Responses_mock_reply (U := identityTables)
           (app.NewServer (U := identityTables) emptyEnv offline)
           1700000000 1700000001 partsRequest
           (fst (json.Unmarshal handlers.decResponsesRequest
                   (handlers.Body partsRequest) handlers.zeroResponsesRequest))
           eq_refl eq_refl eq_refl).
Defined.

(* ================================================================== *)
(** ** HTTP handlers: administration *)

Lemma Views_SameButSecretValues (m m' : remote.Manager) :
  Forall2 Spec.SameButSecretValues m m' -> remote.Views m = remote.Views m'.
Proof.
  unfold remote.Views. induction 1 as [|p q m m' Hpq _ IH]; simpl; [reflexivity|].
  now rewrite (view_SameButSecretValues _ _ Hpq), IH.
Qed.

Lemma replaceOrAppend_not_nil (m : remote.Manager) (p : remote.Provider) :
  remote.replaceOrAppend m p <> [].
Proof.
  destruct m as [|q m]; simpl; [discriminate|].
  destruct (remote.sameProvider q p); discriminate.
Qed.

Section ProvidersEndpoint.
Context `{U : strings.UnicodeTables}.

Lemma Providers_GET (h : api.Handlers) :
  handlers.Providers h getRequest
  = (h, handlers.writeJSON 200 (handlers.providersDocument (api.remoteManager h))).
Proof. reflexivity. Qed.

(** X22.  [/v1/providers].  A call changes nothing but the registry, and
    that only when it answers 200 to a PUT: GET, a body that does not
    decode, a payload with neither [provider] nor a non-empty [providers],
    and other methods leave the handlers as they are.  The answer 200 is the
    redacted list of the registry after the call, which is what a GET then
    answers.  A non-empty [providers] replaces the whole registry by its
    normalized elements and the [provider] beside it is ignored.  The
    registry stays a state that [NewManager], [Upsert] and [SetAll] reach;
    an answer 200 to a PUT leaves it with at least one provider, so the
    endpoint cannot empty it.  The answer to GET is the same for two
    registries that differ only in the values of their secrets. *)
Theorem Providers_endpoint (h : api.Handlers) (r : handlers.Request) :
  let h' := fst (handlers.Providers h r) in
  let resp := snd (handlers.Providers h r) in
  api.rules_ h' = api.rules_ h
  /\ api.remoteClient h' = api.remoteClient h
  /\ (handlers.Status resp <> 200%Z \/ handlers.Method r <> "PUT" -> h' = h)
  /\ (handlers.Status resp = 200%Z ->
      resp = handlers.writeJSON 200 (handlers.providersDocument (api.remoteManager h'))
      /\ snd (handlers.Providers h' getRequest) = resp)
  /\ (forall payload,
         handlers.Method r = "PUT" ->
         json.Unmarshal handlers.decProvidersPayload (handlers.Body r)
                        (handlers.mkProvidersPayload None []) = (payload, true) ->
         handlers.PayloadProviders payload <> [] ->
         api.remoteManager h'
         = map remote.normalizeProvider (handlers.PayloadProviders payload))
  /\ (reachable (api.remoteManager h) -> reachable (api.remoteManager h'))
  /\ (handlers.Method r = "PUT" -> handlers.Status resp = 200%Z ->
      api.remoteManager h' <> [])
  /\ (forall h2,
         Forall2 Spec.SameButSecretValues (api.remoteManager h) (api.remoteManager h2) ->
         snd (handlers.Providers h getRequest) = snd (handlers.Providers h2 getRequest)).
Proof.
  assert (Hview : forall a b,
             Forall2 Spec.SameButSecretValues (api.remoteManager a) (api.remoteManager b) ->
             snd (handlers.Providers a getRequest) = snd (handlers.Providers b getRequest)).
  { intros a b Hsame. rewrite !Providers_GET. cbn [snd].
    unfold handlers.providersDocument.
    now rewrite (Views_SameButSecretValues _ _ Hsame). }
  cbv zeta. repeat match goal with |- _ /\ _ => split end;
    try solve [intros h2; apply Hview]; clear Hview;
    rewrite ?Providers_GET; unfold handlers.Providers.
  all: destruct (String.eqb_spec (handlers.Method r) "GET") as [Hget|Hget];
    [cbn [fst snd]; try rewrite Hget; try solve [auto | discriminate | intuition congruence]|].
  all: destruct (String.eqb_spec (handlers.Method r) "PUT") as [Hput|Hput];
    [|cbn [fst snd]; try solve [auto | discriminate | intuition congruence]].
  all: destruct (json.Unmarshal handlers.decProvidersPayload (handlers.Body r)
                  (handlers.mkProvidersPayload None [])) as [payload [|]]; cbn [negb];
    [|cbn [fst snd]; try solve [auto | discriminate | intuition congruence]].
  all: destruct (handlers.PayloadProviders payload) as [|p ps] eqn:Hlist;
    [destruct (handlers.PayloadProvider payload) as [provider|] eqn:Hone|];
    cbn [fst snd]; try solve [auto | discriminate | intuition congruence].
  all: try solve [intros payload' _ E; injection E as <-; rewrite Hlist;
                  solve [intuition congruence]].
  - intros Hr. now apply reach_upsert.
  - intros Hr. now apply reach_setall.
  - intros _ _. apply replaceOrAppend_not_nil.
Qed.

End ProvidersEndpoint.

(* ================================================================== *)
(** ** HTTP handlers: rules and models *)

Lemma decRule_encRule (r cur : rules.Rule) :
  validRule r = true ->
  handlers.decRule (handlers.encRule r) cur = (r, true).
Proof.
  unfold validRule. intros Hr. apply andb_true_iff in Hr as [Hc Hp].
  destruct r as [contains reply]. cbn [rules.Contains rules.Reply] in *.
  unfold handlers.decRule, handlers.encRule. dec_members.
  rewrite (field_decString _ _ _ _ Hc). cbn [rules.Contains rules.Reply andb].
  rewrite (field_decString _ _ _ _ Hp). reflexivity.
Qed.

Lemma decSlice_encRules (rs cur : list rules.Rule) :
  forallb validRule rs = true ->
  json.decSlice (rules.mkRule "" "") handlers.decRule
                (json.JArray (map handlers.encRule rs)) cur
  = (rs, true).
Proof.
  intros Hrs. unfold json.decSlice. f_equal.
  - induction rs as [|r rs IH]; cbn [map forallb] in *; [reflexivity|].
    apply andb_true_iff in Hrs as [Hr Hrs].
    now rewrite (decRule_encRule r _ Hr), IH.
  - induction rs as [|r rs IH]; cbn [map forallb] in *; [reflexivity|].
    apply andb_true_iff in Hrs as [Hr Hrs].
    now rewrite (decRule_encRule r _ Hr), IH.
Qed.

Lemma decRulesPayload_rulesDocument (rs : list rules.Rule) :
  forallb validRule rs = true ->
  json.Unmarshal handlers.decRulesPayload (Some (handlers.rulesDocument rs)) []
  = (rs, true).
Proof.
  intros Hrs. unfold json.Unmarshal, handlers.rulesDocument, handlers.decRulesPayload,
    rules.All.
  dec_members. destruct rs as [|r rs]; [reflexivity|].
  now rewrite (decSlice_encRules (r :: rs) [] Hrs).
Qed.

(** X23.  [/v1/rules].  The document that GET answers for a store whose
    strings are valid UTF-8 (the list of the rules in their order, [null]
    for the empty store) is accepted by PUT: the store then holds exactly
    these rules in this order, the provider registry and the client are as
    before, PUT answers 200 with the same document, and so does a GET after
    it. *)
Theorem Rules_document_put_back (h : api.Handlers) (rs : list rules.Rule) :
  forallb validRule rs = true ->
  let doc := handlers.rulesDocument rs in
  let h' := fst (handlers.Rules h (putBack doc)) in
  api.rules_ h' = rs
  /\ api.remoteManager h' = api.remoteManager h
  /\ api.remoteClient h' = api.remoteClient h
  /\ snd (handlers.Rules h (putBack doc)) = handlers.writeJSON 200 doc
  /\ snd (handlers.Rules h' getRequest) = handlers.writeJSON 200 doc.
Proof.
  intros Hrs. cbv zeta. unfold handlers.Rules, putBack, getRequest.
  cbn [handlers.Method handlers.Body String.eqb Ascii.eqb Bool.eqb].
  rewrite (decRulesPayload_rulesDocument rs Hrs). cbn [negb fst snd].
  repeat split.
Qed.

Lemma Rules_document_put_back_witness :
  forallb validRule app.seedRules = true
  /\ api.rules_ (fst (handlers.Rules slashServer
                        (putBack (handlers.rulesDocument app.seedRules))))
     = app.seedRules.
Proof.
  split; [reflexivity|].
  exact (proj1 (Rules_document_put_back slashServer app.seedRules eq_refl)).
Defined.

Lemma HasSuffix_app (s suffix : string) :
  strings.HasSuffix (s ++ suffix) suffix = true.
Proof. unfold strings.HasSuffix. rewrite reverse_app. apply HasPrefix_app. Qed.

Section ModelList.
Context `{U : strings.UnicodeTables}.

(** X24.  [buildModelsResponse] on a registry that [NewManager], [Upsert]
    and [SetAll] reach.  The list is the mock model "gpt-mock-1" owned by
    "chatmock", followed by one entry for each provider in registry order,
    whose id is the model prefix without one trailing "/" followed by "/*"
    and whose owner is the provider's kind: the branch that names a
    provider with a blank prefix by its name is never taken, since the
    registry stores no blank prefix.  So every id but the first ends in
    "/*", and the list has one entry more than the registry. *)
Theorem Models_lists_provider_prefixes (h : api.Handlers) (now : Z) :
  reachable (api.remoteManager h) ->
  handlers.buildModelsResponse h now
  = handlers.mkModelInfo "gpt-mock-1" "model" now "chatmock"
    :: map (fun p =>
              handlers.mkModelInfo
                (strings.TrimSuffix (remote.ModelPrefix p) "/" ++ "/*")
                "model" now (remote.Kind p))
           (api.remoteManager h)
  /\ Forall (fun m => strings.HasSuffix (handlers.ModelID m) "/*" = true)
            (tl (handlers.buildModelsResponse h now))
  /\ List.length (handlers.buildModelsResponse h now)
     = S (List.length (api.remoteManager h)).
Proof.
  intros Hreach.
  pose proof (reachable_Forall
                (fun p => remote.blank (remote.ModelPrefix p) = false)
                normalizeProvider_prefix _ Hreach) as Hprefix.
  unfold handlers.buildModelsResponse, remote.Providers. cbn [tl List.length].
  rewrite List.length_map. clear Hreach. repeat split.
  - f_equal. induction Hprefix as [|p m Hp _ IH]; cbn [map]; [reflexivity|].
    now rewrite Hp, IH.
  - induction Hprefix as [|p m Hp _ IH]; cbn [map]; constructor; [|assumption].
    rewrite Hp. cbn [handlers.ModelID]. apply HasSuffix_app.
Qed.

End ModelList.

Lemma Models_lists_provider_prefixes_witness :
  reachable (U := identityTables) (api.remoteManager seededServer)
  /\ handlers.buildModelsResponse seededServer 1700000000
     = [handlers.mkModelInfo "gpt-mock-1" "model" 1700000000 "chatmock";
        handlers.mkModelInfo "codex/*" "model" 1700000000 "codex";
        handlers.mkModelInfo "ollama/*" "model" 1700000000 "ollama"].
Proof.
  split.
  - apply (reach_new (U := identityTables)).
  - exact (proj1 (Models_lists_provider_prefixes
                    (U := identityTables) seededServer 1700000000
                    (reach_new (U := identityTables) [codexProvider; ollamaProvider]))).
Defined.
